(** * Exhaust thermal-wrap template generator: a shallow embedding

    The Blender add-on [pipe_template_generator.py] turns a pipe
    specification into a flat cutting pattern.  This development embeds
    the operator [PIPE_OT_GenerateTemplate]: mesh generation, seam
    selection, boundary extraction, the dimension calculator, the output
    folder, [generate_pdf] with its layout decision, the clipping and
    normalisation of the outline loops, the file name, and [execute].
    What the operator calls in Blender, the operating system and
    reportlab is a parameter (module [Host]).

    Numbers.  A finite Python float is a rational number, and comparing
    two floats compares those rationals; a float is therefore modelled by
    [Q], with comparison exact and arithmetic carried out without
    rounding.  [math.pi] is the rational value of the double constant.
    Python integers are [Z]; the occurrence counters, which only count up
    from zero, are [nat].

    Rounding.  A statement proved over [Q] is a statement about the
    formulas; it carries over to the doubles Python computes with only
    where rounding cannot change a comparison.  Where it can, the same
    lines are evaluated in IEEE binary64 as well (module [Double]), and
    equalities that hold only without rounding are not stated. *)

From Stdlib Require Import ZArith QArith Qabs Qround List Bool Lia Lqa.
From Stdlib Require Import Ascii String DecimalString DecimalZ.
From Stdlib Require PrimFloat.
Import ListNotations.

Open Scope Q_scope.

(* ------------------------------------------------------------------ *)
(** ** Python primitives *)

Module Py.

Definition float := Q.

(** Exceptions the embedded code can raise. *)
Inductive exn : Type :=
| ValueError          (* min()/max() of an empty sequence *)
| ZeroDivisionError   (* float division by zero *)
| KeyError            (* dict[key] on a missing key *)
| Exception (msg : string).

Inductive result (A : Type) : Type :=
| Ok (a : A)
| Raise (e : exn).

Arguments Ok {A} a.
Arguments Raise {A} e.

Definition bind {A B : Type} (m : result A) (k : A -> result B) : result B :=
  match m with
  | Ok a => k a
  | Raise e => Raise e
  end.

Definition is_ok {A : Type} (m : result A) : bool :=
  match m with
  | Ok _ => true
  | Raise _ => false
  end.

(** [for x in l: f x], collecting the results; stops at the first raise. *)
Fixpoint mapM {A B : Type} (f : A -> result B) (l : list A) : result (list B) :=
  match l with
  | [] => Ok []
  | x :: xs =>
      match f x with
      | Ok y =>
          match mapM f xs with
          | Ok ys => Ok (y :: ys)
          | Raise e => Raise e
          end
      | Raise e => Raise e
      end
  end.

(** Float comparisons [a < b], [a <= b], [a == b]. *)
Definition ltb (a b : float) : bool := negb (Qle_bool b a).
Definition leb (a b : float) : bool := Qle_bool a b.
Definition eqb (a b : float) : bool := Qeq_bool a b.

(** [a / b] on floats. *)
Definition div (a b : float) : result float :=
  if eqb b 0 then Raise ZeroDivisionError else Ok (a / b).

(** [math.pi], the double 0x1.921fb54442d18p+1. *)
Definition math_pi : float := 884279719003555 # 281474976710656.

(** [math.radians(x)] is [x * (pi / 180)]. *)
Definition radians (x : float) : float := x * (math_pi / 180).

(** [min(iterable)] and [max(iterable)]: the first extremal item is kept,
    an empty iterable raises [ValueError]. *)
Definition min (l : list float) : result float :=
  match l with
  | [] => Raise ValueError
  | x :: xs => Ok (fold_left (fun m y => if ltb y m then y else m) xs x)
  end.

Definition max (l : list float) : result float :=
  match l with
  | [] => Raise ValueError
  | x :: xs => Ok (fold_left (fun m y => if ltb m y then y else m) xs x)
  end.

End Py.

Notation "x <- m ;; k" := (Py.bind m (fun x => k))
  (at level 61, m at next level, right associativity).

(* ------------------------------------------------------------------ *)
(** ** [PipeTemplateProperties] *)

Record PipeTemplateProperties : Type := {
  pipe_od : Py.float;
  bend_radius_multiplier : Py.float;
  bend_angle : Py.float;
  num_segments : Z;
  wrap_thickness : Py.float;
  overlap : Py.float;
  output_folder : string
}.

(* ------------------------------------------------------------------ *)
(** ** [extract_uv_data]: the dimension calculator *)

Module Dimensions.

(** The physical sizes stored in [uv_data]. *)
Record dims : Type := {
  pipe_circ_mm : Py.float;
  pipe_arc_mm : Py.float;
  wrap_width : Py.float;
  wrap_arc_length : Py.float
}.

(** Lines 376-390 of [extract_uv_data]. *)
Definition calculate_dimensions (props : PipeTemplateProperties) : Py.result dims :=
  let bend_centerline_radius := pipe_od props * bend_radius_multiplier props in
  segment_angle <- Py.div (bend_angle props) (inject_Z (num_segments props)) ;;
  let segment_angle_rad := Py.radians segment_angle in
  let base_circ := Py.math_pi * pipe_od props in
  let base_arc := bend_centerline_radius * segment_angle_rad in
  let pipe_radius := pipe_od props / 2 in
  let wrap_radius := pipe_radius + wrap_thickness props in
  let wrap_circ := 2 * Py.math_pi * wrap_radius in
  let wrap_width := wrap_circ + overlap props in
  let wrap_distance := bend_centerline_radius + wrap_thickness props in
  let wrap_arc := wrap_distance * segment_angle_rad in
  Py.Ok {| pipe_circ_mm := base_circ;
           pipe_arc_mm := base_arc;
           wrap_width := wrap_width;
           wrap_arc_length := wrap_arc |}.

End Dimensions.

(* ------------------------------------------------------------------ *)
(** ** The dimension calculator in binary64

    Lines 376-390 once more, now with the arithmetic Python carries out:
    every operation rounds to the nearest double. *)

Module Double.

Import PrimFloat.

(** The numeric properties, the floats as doubles. *)
Record props : Type := {
  pipe_od : float;
  bend_radius_multiplier : float;
  bend_angle : float;
  num_segments : Z;
  wrap_thickness : float;
  overlap : float
}.

Record dims : Type := {
  pipe_circ_mm : float;
  pipe_arc_mm : float;
  wrap_width : float;
  wrap_arc_length : float
}.

(** [math.pi] *)
Definition math_pi : float := 0x1.921fb54442d18p+1%float.

(** [math.radians(x)] is [x * (pi / 180)]. *)
Definition radians (x : float) : float := (x * (math_pi / 180))%float.

(** The conversion of an [int] operand to float; exact below [2^53]. *)
Fixpoint of_pos (p : positive) : float :=
  match p with
  | xH => 1%float
  | xO q => (2 * of_pos q)%float
  | xI q => (2 * of_pos q + 1)%float
  end.

Definition of_int (n : Z) : float :=
  match n with
  | Z0 => 0%float
  | Zpos p => of_pos p
  | Zneg p => (- of_pos p)%float
  end.

(** Lines 376-390 of [extract_uv_data]. *)
Definition calculate_dimensions (p : props) : Py.result dims :=
  let bend_centerline_radius := (pipe_od p * bend_radius_multiplier p)%float in
  if (num_segments p =? 0)%Z then Py.Raise Py.ZeroDivisionError
  else
    let segment_angle := (bend_angle p / of_int (num_segments p))%float in
    let segment_angle_rad := radians segment_angle in
    let base_circ := (math_pi * pipe_od p)%float in
    let base_arc := (bend_centerline_radius * segment_angle_rad)%float in
    let pipe_radius := (pipe_od p / 2)%float in
    let wrap_radius := (pipe_radius + wrap_thickness p)%float in
    let wrap_circ := (2 * math_pi * wrap_radius)%float in
    let wrap_width := (wrap_circ + overlap p)%float in
    let wrap_distance := (bend_centerline_radius + wrap_thickness p)%float in
    let wrap_arc := (wrap_distance * segment_angle_rad)%float in
    Py.Ok {| pipe_circ_mm := base_circ;
             pipe_arc_mm := base_arc;
             wrap_width := wrap_width;
             wrap_arc_length := wrap_arc |}.

End Double.

(* ------------------------------------------------------------------ *)
(** ** Insertion-ordered dictionaries

    A Python [dict] keeps its keys in insertion order and finds a key by
    [==]; assigning to a key that is present keeps the stored key object
    and its position. *)

Section Dict.

Variable K : Type.
Variable keqb : K -> K -> bool.
Variable V : Type.

Definition dict : Type := list (K * V).

Fixpoint dict_get (d : dict) (k : K) : option V :=
  match d with
  | [] => None
  | (k', v) :: rest => if keqb k' k then Some v else dict_get rest k
  end.

Fixpoint dict_set (d : dict) (k : K) (v : V) : dict :=
  match d with
  | [] => [(k, v)]
  | (k', v') :: rest =>
      if keqb k' k then (k', v) :: rest else (k', v') :: dict_set rest k v
  end.

Definition dict_mem (d : dict) (k : K) : bool :=
  match dict_get d k with
  | Some _ => true
  | None => false
  end.

End Dict.

Section DistinctKeys.

Variables (A K : Type) (key : A -> K) (keqb : K -> K -> bool).

(** No two items of the list have equal keys. *)
Fixpoint distinct_keys (l : list A) : Prop :=
  match l with
  | [] => True
  | a :: rest =>
      (forall b, In b rest -> keqb (key a) (key b) = false)
      /\ distinct_keys rest
  end.

End DistinctKeys.

Arguments distinct_keys {A K} key keqb l.
Arguments dict_get {K} keqb {V} d k.
Arguments dict_set {K} keqb {V} d k v.
Arguments dict_mem {K} keqb {V} d k.

(* ------------------------------------------------------------------ *)
(** ** [extract_uv_data]: bounds and boundary edges *)

Module Boundary.

(** A loop's UV coordinate [[uv.x, uv.y]]. *)
Definition UV : Type := (Py.float * Py.float)%type.
Definition polygon : Type := list UV.
(** A directed edge [(v1, v2)]. *)
Definition edge : Type := (UV * UV)%type.

(** [==] and [<] on 2-tuples of floats (lexicographic). *)
Definition uv_eqb (a b : UV) : bool :=
  Py.eqb (fst a) (fst b) && Py.eqb (snd a) (snd b).

Definition uv_ltb (a b : UV) : bool :=
  if Py.eqb (fst a) (fst b) then Py.ltb (snd a) (snd b)
  else Py.ltb (fst a) (fst b).

(** [tuple(sorted([v1, v2]))]: the sort is stable and swaps only when
    [v2 < v1]. *)
Definition sorted_pair (v1 v2 : UV) : edge :=
  if uv_ltb v2 v1 then (v2, v1) else (v1, v2).

Definition edge_sorted (e : edge) : edge := sorted_pair (fst e) (snd e).

(** [==] on the dictionary keys. *)
Definition key_eqb (k1 k2 : edge) : bool :=
  uv_eqb (fst k1) (fst k2) && uv_eqb (snd k1) (snd k2).

(** The pairs [(poly_uvs[i], poly_uvs[(i + 1) % num_verts])] for
    [i in range(num_verts)]. *)
Definition poly_edges (poly_uvs : polygon) : list edge :=
  let num_verts := List.length poly_uvs in
  map (fun i => (nth i poly_uvs (0, 0),
                 nth ((i + 1) mod num_verts)%nat poly_uvs (0, 0)))
      (seq 0 num_verts).

(** One pass of the inner loop body on the two dictionaries. *)
Definition count_edge (st : dict edge nat * dict edge edge) (e : edge)
  : dict edge nat * dict edge edge :=
  let '(edge_count, edge_order) := st in
  let edge_sorted := edge_sorted e in
  let edge_count :=
    dict_set key_eqb edge_count edge_sorted
      (match dict_get key_eqb edge_count edge_sorted with
       | Some c => c
       | None => 0
       end + 1)%nat in
  let edge_order :=
    if dict_mem key_eqb edge_order edge_sorted then edge_order
    else dict_set key_eqb edge_order edge_sorted e in
  (edge_count, edge_order).

(** The two nested loops over the polygons. *)
Definition count_edges (polygons : list polygon)
  : dict edge nat * dict edge edge :=
  fold_left (fun st poly_uvs => fold_left count_edge (poly_edges poly_uvs) st)
            polygons ([], []).

(** The comprehension building [boundary_edges]. *)
Definition collect_boundary (edge_count : dict edge nat)
  (edge_order : dict edge edge) : Py.result (list edge) :=
  Py.mapM (fun item : edge * nat =>
             match dict_get key_eqb edge_order (fst item) with
             | Some e => Py.Ok e
             | None => Py.Raise Py.KeyError
             end)
          (filter (fun item : edge * nat => Nat.eqb (snd item) 1) edge_count).

(** The dictionary [uv_data]; keys are prefixed with [ud_]. *)
Record uv_data : Type := {
  ud_polygons : list polygon;
  ud_min_u : Py.float;
  ud_max_u : Py.float;
  ud_min_v : Py.float;
  ud_max_v : Py.float;
  ud_pipe_circ_mm : Py.float;
  ud_pipe_arc_mm : Py.float;
  ud_wrap_width : Py.float;
  ud_wrap_arc_length : Py.float;
  ud_overlap : Py.float
}.

(** The dictionary [boundary_data]; keys are prefixed with [bd_]. *)
Record boundary_data : Type := {
  bd_boundary_edges : list edge;
  bd_min_u : Py.float;
  bd_max_u : Py.float;
  bd_min_v : Py.float;
  bd_max_v : Py.float
}.

(** [extract_uv_data].  The argument [uv_layer] is the active UV layer
    read per polygon ([None] when the mesh has none). *)
Definition extract_uv_data (uv_layer : option (list polygon))
  (props : PipeTemplateProperties) : Py.result (uv_data * boundary_data) :=
  match uv_layer with
  | None => Py.Raise (Py.Exception "No UV layer found")
  | Some polygons =>
      let all_uvs := List.concat polygons in
      min_u <- Py.min (map fst all_uvs) ;;
      max_u <- Py.max (map fst all_uvs) ;;
      min_v <- Py.min (map snd all_uvs) ;;
      max_v <- Py.max (map snd all_uvs) ;;
      let '(edge_count, edge_order) := count_edges polygons in
      boundary_edges <- collect_boundary edge_count edge_order ;;
      d <- Dimensions.calculate_dimensions props ;;
      Py.Ok ({| ud_polygons := polygons;
                ud_min_u := min_u;
                ud_max_u := max_u;
                ud_min_v := min_v;
                ud_max_v := max_v;
                ud_pipe_circ_mm := Dimensions.pipe_circ_mm d;
                ud_pipe_arc_mm := Dimensions.pipe_arc_mm d;
                ud_wrap_width := Dimensions.wrap_width d;
                ud_wrap_arc_length := Dimensions.wrap_arc_length d;
                ud_overlap := overlap props |},
             {| bd_boundary_edges := boundary_edges;
                bd_min_u := min_u;
                bd_max_u := max_u;
                bd_min_v := min_v;
                bd_max_v := max_v |})
  end.

(** *** Specification side: occurrence counts of undirected keys *)

(** All directed edges in polygon iteration order. *)
Definition all_edges (polygons : list polygon) : list edge :=
  flat_map poly_edges polygons.

(** How many directed edges of [edges] have the undirected key [k]. *)
Definition occurrences (k : edge) (edges : list edge) : nat :=
  List.length (filter (fun e => key_eqb (edge_sorted e) k) edges).

(** The first directed edge of [edges] with the undirected key [k]. *)
Definition first_occurrence (k : edge) (edges : list edge) : option edge :=
  find (fun e => key_eqb (edge_sorted e) k) edges.

(** The directed edges that open a new undirected key, in order. *)
Definition first_seen (edges : list edge) : list edge :=
  fold_left
    (fun acc e =>
       if existsb (fun e' => key_eqb (edge_sorted e') (edge_sorted e)) acc
       then acc else (acc ++ [e])%list)
    edges [].

End Boundary.

(* ------------------------------------------------------------------ *)
(** ** The constants of [reportlab.lib.units] and [reportlab.lib.pagesizes] *)

Module Reportlab.

Definition inch : Py.float := 72.
Definition cm : Py.float := inch / 2.54.
Definition mm : Py.float := cm * 0.1.

Definition A4 : Py.float * Py.float := (210 * mm, 297 * mm).

Definition landscape (pagesize : Py.float * Py.float) : Py.float * Py.float :=
  let '(a, b) := pagesize in
  if Py.ltb a b then (b, a) else (a, b).

End Reportlab.

(* ------------------------------------------------------------------ *)
(** ** The outline loops of the page generators

    Of everything a generator puts on the canvas only the strokes of the
    two outline loops are kept: the base pipe outline (blue) and the wrap
    outline (red).  Titles, legend, scale bar, centre line and overlap
    markers do not depend on the boundary edges. *)

Module Outline.

Import Reportlab.

Inductive colour : Type := blue | red.

(** One call [c.line(x1_pt, y1_pt, x2_pt, y2_pt)] with its stroke colour. *)
Record line : Type := {
  stroke : colour;
  x1_pt : Py.float;
  y1_pt : Py.float;
  x2_pt : Py.float;
  y2_pt : Py.float
}.

Definition page : Type := list line.

(** [(x - lo) / (hi - lo) if (hi - lo) > 0 else 0]; the condition is
    evaluated first. *)
Definition normalize (x lo hi : Py.float) : Py.result Py.float :=
  if Py.ltb 0 (hi - lo) then Py.div (x - lo) (hi - lo) else Py.Ok 0.

(** The value [normalize] returns, without the partial division. *)
Definition normalized (x lo hi : Py.float) : Py.float :=
  if Py.ltb 0 (hi - lo) then (x - lo) / (hi - lo) else 0.

(** The clipping rule of section 4.6: an end point inside the window, or
    the end points strictly outside it on opposite sides. *)
Definition in_section (x_start x_end x1 x2 : Q) : Prop :=
  (x_start <= x1 /\ x1 <= x_end)
  \/ (x_start <= x2 /\ x2 <= x_end)
  \/ (x1 < x_start /\ x_end < x2)
  \/ (x2 < x_start /\ x_end < x1).

(** The four normalised coordinates of an edge, in the order the loops
    compute them: [u1_norm, v1_norm, u2_norm, v2_norm]. *)
Definition normalize_edge (min_u max_u min_v max_v : Py.float)
  (e : Boundary.edge)
  : Py.result (Py.float * Py.float * Py.float * Py.float) :=
  let '((u1, v1_coord), (u2, v2_coord)) := e in
  u1_norm <- normalize u1 min_u max_u ;;
  v1_norm <- normalize v1_coord min_v max_v ;;
  u2_norm <- normalize u2 min_u max_u ;;
  v2_norm <- normalize v2_coord min_v max_v ;;
  Py.Ok (u1_norm, v1_norm, u2_norm, v2_norm).

(** The value [normalize_edge] returns. *)
Definition normalized_edge (min_u max_u min_v max_v : Py.float)
  (e : Boundary.edge) : Py.float * Py.float * Py.float * Py.float :=
  let '((u1, v1_coord), (u2, v2_coord)) := e in
  (normalized u1 min_u max_u, normalized v1_coord min_v max_v,
   normalized u2 min_u max_u, normalized v2_coord min_v max_v).

(** The clip condition of the split loops. *)
Definition clip_to_section (x_start x_end x1_mm x2_mm : Py.float) : bool :=
  (Py.leb x_start x1_mm && Py.leb x1_mm x_end)
  || (Py.leb x_start x2_mm && Py.leb x2_mm x_end)
  || (Py.ltb x1_mm x_start && Py.ltb x_end x2_mm)
  || (Py.ltb x2_mm x_start && Py.ltb x_end x1_mm).

Section Loops.

Variables (min_u max_u min_v max_v : Py.float).
Variables (base_w base_h wrap_w wrap_h : Py.float).
Variables (template_x template_y : Py.float).

(** Body of the blue loop of [_generate_single_page] and of
    [_draw_single_template_page]. *)
Definition base_outline_edge (base_offset_x base_offset_y : Py.float)
  (e : Boundary.edge) : Py.result line :=
  n <- normalize_edge min_u max_u min_v max_v e ;;
  let '(u1_norm, v1_norm, u2_norm, v2_norm) := n in
  let x1_mm := v1_norm * base_w in
  let y1_mm := u1_norm * base_h in
  let x2_mm := v2_norm * base_w in
  let y2_mm := u2_norm * base_h in
  Py.Ok {| stroke := blue;
           x1_pt := template_x + (base_offset_x + x1_mm) * mm;
           y1_pt := template_y + (base_offset_y + y1_mm) * mm;
           x2_pt := template_x + (base_offset_x + x2_mm) * mm;
           y2_pt := template_y + (base_offset_y + y2_mm) * mm |}.

(** Body of the red loop of the same two generators. *)
Definition wrap_outline_edge (e : Boundary.edge) : Py.result line :=
  n <- normalize_edge min_u max_u min_v max_v e ;;
  let '(u1_norm, v1_norm, u2_norm, v2_norm) := n in
  let x1_mm := v1_norm * wrap_w in
  let y1_mm := u1_norm * wrap_h in
  let x2_mm := v2_norm * wrap_w in
  let y2_mm := u2_norm * wrap_h in
  Py.Ok {| stroke := red;
           x1_pt := template_x + x1_mm * mm;
           y1_pt := template_y + y1_mm * mm;
           x2_pt := template_x + x2_mm * mm;
           y2_pt := template_y + y2_mm * mm |}.

(** The end points in millimetres that the clipped blue loop tests. *)
Definition base_mm (base_offset_x base_offset_y : Py.float)
  (n : Py.float * Py.float * Py.float * Py.float)
  : Py.float * Py.float * Py.float * Py.float :=
  let '(u1_norm, v1_norm, u2_norm, v2_norm) := n in
  (v1_norm * base_w + base_offset_x, u1_norm * base_h + base_offset_y,
   v2_norm * base_w + base_offset_x, u2_norm * base_h + base_offset_y).

(** The end points in millimetres that the clipped red loop tests. *)
Definition wrap_mm (n : Py.float * Py.float * Py.float * Py.float)
  : Py.float * Py.float * Py.float * Py.float :=
  let '(u1_norm, v1_norm, u2_norm, v2_norm) := n in
  (v1_norm * wrap_w, u1_norm * wrap_h, v2_norm * wrap_w, u2_norm * wrap_h).

(** The clipped stroke: [Some] line when the clip condition holds. *)
Definition clipped_line (c : colour) (x_start x_end : Py.float)
  (p : Py.float * Py.float * Py.float * Py.float) : option line :=
  let '(x1_mm, y1_mm, x2_mm, y2_mm) := p in
  if clip_to_section x_start x_end x1_mm x2_mm then
    Some {| stroke := c;
            x1_pt := template_x + (x1_mm - x_start) * mm;
            y1_pt := template_y + y1_mm * mm;
            x2_pt := template_x + (x2_mm - x_start) * mm;
            y2_pt := template_y + y2_mm * mm |}
  else None.

(** Body of the blue loop of [_draw_split_half] and [_draw_split_page]. *)
Definition base_outline_edge_clipped (base_offset_x base_offset_y : Py.float)
  (x_start x_end : Py.float) (e : Boundary.edge) : Py.result (option line) :=
  n <- normalize_edge min_u max_u min_v max_v e ;;
  Py.Ok (clipped_line blue x_start x_end (base_mm base_offset_x base_offset_y n)).

(** Body of the red loop of [_draw_split_half] and [_draw_split_page]. *)
Definition wrap_outline_edge_clipped (x_start x_end : Py.float)
  (e : Boundary.edge) : Py.result (option line) :=
  n <- normalize_edge min_u max_u min_v max_v e ;;
  Py.Ok (clipped_line red x_start x_end (wrap_mm n)).

End Loops.

(** The strokes a clipped loop leaves on the canvas. *)
Definition drawn (l : list (option line)) : list line :=
  flat_map (fun o => match o with Some s => [s] | None => [] end) l.

(** The clip condition on the end points of an edge in millimetres. *)
Definition clipped (x_start x_end : Py.float)
  (p : Py.float * Py.float * Py.float * Py.float) : bool :=
  let '(x1_mm, _, x2_mm, _) := p in
  clip_to_section x_start x_end x1_mm x2_mm.

(** The call [c.line] of the clipped loops for end points in
    millimetres, in a section that starts at [x_start]. *)
Definition section_line (template_x template_y : Py.float) (c : colour)
  (x_start : Py.float) (p : Py.float * Py.float * Py.float * Py.float)
  : line :=
  let '(x1_mm, y1_mm, x2_mm, y2_mm) := p in
  {| stroke := c;
     x1_pt := template_x + (x1_mm - x_start) * mm;
     y1_pt := template_y + y1_mm * mm;
     x2_pt := template_x + (x2_mm - x_start) * mm;
     y2_pt := template_y + y2_mm * mm |}.

Section Generators.

Variable boundary_edges : list Boundary.edge.
Variables (min_u max_u min_v max_v : Py.float).
Variables (base_w base_h wrap_w wrap_h : Py.float).
Variables (page_w page_h margin : Py.float).

(** The blue loop followed by the red loop, without clipping. *)
Definition draw_template (template_x template_y : Py.float)
  : Py.result (list line) :=
  let base_offset_x := (wrap_w - base_w) / 2 in
  let base_offset_y := (wrap_h - base_h) / 2 in
  b <- Py.mapM (base_outline_edge min_u max_u min_v max_v base_w base_h
                  template_x template_y base_offset_x base_offset_y)
               boundary_edges ;;
  r <- Py.mapM (wrap_outline_edge min_u max_u min_v max_v wrap_w wrap_h
                  template_x template_y)
               boundary_edges ;;
  Py.Ok (b ++ r)%list.

(** The blue loop followed by the red loop, clipped to a section. *)
Definition draw_section (template_x template_y x_start x_end : Py.float)
  : Py.result (list line) :=
  let base_offset_x := (wrap_w - base_w) / 2 in
  let base_offset_y := (wrap_h - base_h) / 2 in
  b <- Py.mapM (base_outline_edge_clipped min_u max_u min_v max_v
                  base_w base_h template_x template_y
                  base_offset_x base_offset_y x_start x_end)
               boundary_edges ;;
  r <- Py.mapM (wrap_outline_edge_clipped min_u max_u min_v max_v
                  wrap_w wrap_h template_x template_y x_start x_end)
               boundary_edges ;;
  Py.Ok (drawn b ++ drawn r)%list.

(** [_generate_single_page]: two templates on one page. *)
Definition _generate_single_page : Py.result (list page) :=
  let template_positions :=
    [ (margin + 40 * mm, "TEMPLATE 1"%string);
      (margin + 40 * mm + wrap_h * mm + 15 * mm, "TEMPLATE 2"%string) ] in
  ls <- Py.mapM (fun pos : Py.float * string =>
                   let template_y := fst pos in
                   let template_x := (page_w - wrap_w * mm) / 2 in
                   draw_template template_x template_y)
                template_positions ;;
  Py.Ok [List.concat ls].

(** [_draw_single_template_page]: one template on its own page. *)
Definition _draw_single_template_page (page_label : string)
  : Py.result page :=
  let template_y := (page_h - wrap_h * mm) / 2 - 10 * mm in
  let template_x := (page_w - wrap_w * mm) / 2 in
  draw_template template_x template_y.

(** [_generate_single_multipage]: the template twice, a page each. *)
Definition _generate_single_multipage : Py.result (list page) :=
  p1 <- _draw_single_template_page "TEMPLATE 1/2" ;;
  p2 <- _draw_single_template_page "TEMPLATE 2/2" ;;
  Py.Ok [p1; p2].

(** [_draw_split_half]: one half of a split template. *)
Definition _draw_split_half (x_start x_end center_w split_overlap : Py.float)
  (template_y : Py.float) (label : string) (half_width : Py.float)
  (is_left : bool) : Py.result (list line) :=
  let template_x := (page_w - half_width * mm) / 2 in
  draw_section template_x template_y x_start x_end.

(** The body of the loop of [_generate_split_same_page] up to the call:
    [(is_left, x_start, x_end)] of the half with the given label. *)
Definition half_section (split_overlap : Py.float) (label : string)
  : bool * Py.float * Py.float :=
  let center_w := wrap_w / 2 in
  let is_left := String.eqb label "LEFT HALF" in
  let x_start := if is_left then 0 else center_w - split_overlap in
  let x_end := if is_left then center_w + split_overlap else wrap_w in
  (is_left, x_start, x_end).

(** [_generate_split_same_page]: both halves on one page. *)
Definition _generate_split_same_page (split_overlap : Py.float)
  : Py.result (list page) :=
  let center_w := wrap_w / 2 in
  let half_width := center_w + split_overlap in
  let template_spacing := 15 * mm in
  let start_y := margin + 20 * mm in
  let half_positions :=
    [ (start_y, "LEFT HALF"%string);
      (start_y + wrap_h * mm + template_spacing, "RIGHT HALF"%string) ] in
  ls <- Py.mapM (fun pos : Py.float * string =>
                   let '(template_y, label) := pos in
                   let '(is_left, x_start, x_end) :=
                     half_section split_overlap label in
                   _draw_split_half x_start x_end center_w split_overlap
                     template_y label half_width is_left)
                half_positions ;;
  Py.Ok [List.concat ls].

(** [_draw_split_page]: one page of a split template. *)
Definition _draw_split_page (x_start x_end center_w split_overlap : Py.float)
  (page_label : string) (is_left : bool) : Py.result page :=
  let section_width := x_end - x_start in
  let template_y := page_h / 2 - (wrap_h * mm) / 2 in
  let template_x := (page_w - section_width * mm) / 2 in
  draw_section template_x template_y x_start x_end.

(** The [(label, is_left, x_start, x_end)] of the two calls made by
    [_generate_split_separate_pages]. *)
Definition separate_pages_halves (split_overlap : Py.float)
  : list (string * bool * Py.float * Py.float) :=
  let center_w := wrap_w / 2 in
  let left_width := center_w + split_overlap in
  [ ("LEFT HALF (1 of 2)"%string, true, 0, left_width);
    ("RIGHT HALF (2 of 2)"%string, false, center_w - split_overlap, wrap_w) ].

(** [_generate_split_separate_pages]: one half per page. *)
Definition _generate_split_separate_pages (split_overlap : Py.float)
  : Py.result (list page) :=
  let center_w := wrap_w / 2 in
  Py.mapM (fun h : string * bool * Py.float * Py.float =>
             let '(label, is_left, x_start, x_end) := h in
             _draw_split_page x_start x_end center_w split_overlap
               label is_left)
          (separate_pages_halves split_overlap).

End Generators.

End Outline.

(* ------------------------------------------------------------------ *)
(** ** The file name built by [generate_pdf] *)

Module Filename.

(** [str(n)] for an integer. *)
Definition str_int (n : Z) : string := NilEmpty.string_of_int (Z.to_int n).

Definition digit_char (r : Z) : ascii := ascii_of_nat (48 + Z.to_nat r).

(** The last [d] decimal digits of [n], most significant first. *)
Fixpoint fixed_digits (d : nat) (n : Z) : string :=
  match d with
  | O => EmptyString
  | S d' => fixed_digits d' (n / 10) ++ String (digit_char (n mod 10)) EmptyString
  end.

(** Rounding to the nearest integer, ties to even. *)
Definition round_half_even (q : Q) : Z :=
  let f := Qfloor q in
  match Qcompare (q - inject_Z f) (1 # 2) with
  | Lt => f
  | Gt => (f + 1)%Z
  | Eq => if Z.even f then f else (f + 1)%Z
  end.

(** The number of [10^-d] units that [f"{x:.df}"] prints for [|x|]: the
    conversion is correctly rounded, ties to even. *)
Definition scaled (d : nat) (x : Py.float) : Z :=
  round_half_even (Qabs x * inject_Z (10 ^ Z.of_nat d)).

(** [f"{x:.df}"] for [d >= 1]. *)
Definition format_fixed (d : nat) (x : Py.float) : string :=
  let n := scaled d x in
  ((if Py.ltb x 0 then "-" else "")
   ++ str_int (n / 10 ^ Z.of_nat d) ++ "." ++ fixed_digits d n)%string.

(** The f-string of lines 512-515. *)
Definition filename (props : PipeTemplateProperties) : string :=
  let od := pipe_od props in
  let clr := bend_radius_multiplier props in
  let segments := num_segments props in
  let overlap := overlap props in
  let mat_thickness := wrap_thickness props in
  ("exhaust_wrap_OD" ++ format_fixed 1 od ++ "_CLR" ++ format_fixed 1 clr
   ++ "_S" ++ str_int segments ++ "_O" ++ format_fixed 1 overlap
   ++ "_MT" ++ format_fixed 2 mat_thickness ++ ".pdf")%string.

(** The characters [str_int] can print: a digit or the minus sign. *)
Definition num_char (c : ascii) : bool :=
  let n := nat_of_ascii c in
  ((48 <=? n)%nat && (n <=? 57)%nat) || Ascii.eqb c "-".

Fixpoint all_num (s : string) : Prop :=
  match s with
  | EmptyString => True
  | String c rest => num_char c = true /\ all_num rest
  end.

(** What the file name retains of a specification. *)
Definition encoded (props : PipeTemplateProperties) : Z * Z * Z * Z * Z :=
  (scaled 1 (pipe_od props), scaled 1 (bend_radius_multiplier props),
   num_segments props, scaled 1 (overlap props),
   scaled 2 (wrap_thickness props)).

End Filename.

(* ------------------------------------------------------------------ *)
(** ** [generate_pdf]: the page set-up and the layout decision *)

Module Layout.

Import Reportlab.

(** Which page generator [generate_pdf] calls. *)
Inductive LayoutMode : Type :=
| SINGLE_PAGE_STACKED     (* [_generate_single_page] *)
| SINGLE_MULTIPAGE        (* [_generate_single_multipage] *)
| SPLIT_SAME_PAGE         (* [_generate_split_same_page] *)
| SPLIT_SEPARATE_PAGES.   (* [_generate_split_separate_pages] *)

Definition is_split (m : LayoutMode) : bool :=
  match m with
  | SPLIT_SAME_PAGE | SPLIT_SEPARATE_PAGES => true
  | _ => false
  end.

(** The page set-up of [generate_pdf]. *)
Definition page_w : Py.float := fst (landscape A4).
Definition page_h : Py.float := snd (landscape A4).
Definition margin : Py.float := 6 * mm.
Definition title_space : Py.float := 30 * mm.
Definition scale_space : Py.float := 20 * mm.
Definition available_width : Py.float := page_w - 2 * margin.
Definition available_height : Py.float :=
  page_h - title_space - scale_space - 2 * margin.
Definition split_overlap : Py.float := 20.

Definition needs_width_split (wrap_w : Py.float) : bool :=
  Py.ltb (available_width / mm) wrap_w.

(** Lines 472-483, 502 and 524-629 of [generate_pdf]: the values read
    from the two dictionaries, and the [if] that calls one of the four
    page generators.  It yields the generator taken and the outline strokes of
    each page.  The rest of [generate_pdf] is in [Operator.generate_pdf],
    which calls this. *)
Definition dispatch (uv_data : Boundary.uv_data)
  (boundary_data : Boundary.boundary_data)
  : Py.result (LayoutMode * list Outline.page) :=
  let boundary_edges := Boundary.bd_boundary_edges boundary_data in
  let min_u := Boundary.bd_min_u boundary_data in
  let max_u := Boundary.bd_max_u boundary_data in
  let min_v := Boundary.bd_min_v boundary_data in
  let max_v := Boundary.bd_max_v boundary_data in
  let base_w := Boundary.ud_pipe_circ_mm uv_data in
  let base_h := Boundary.ud_pipe_arc_mm uv_data in
  let wrap_w := Boundary.ud_wrap_width uv_data in
  let wrap_h := Boundary.ud_wrap_arc_length uv_data in
  if needs_width_split wrap_w then
    let template_spacing := 15 * mm in
    let total_height_needed := 2 * wrap_h * mm + template_spacing in
    if Py.leb total_height_needed available_height then
      pages <- Outline._generate_split_same_page boundary_edges
                 min_u max_u min_v max_v base_w base_h wrap_w wrap_h
                 page_w margin split_overlap ;;
      Py.Ok (SPLIT_SAME_PAGE, pages)
    else
      pages <- Outline._generate_split_separate_pages boundary_edges
                 min_u max_u min_v max_v base_w base_h wrap_w wrap_h
                 page_w page_h split_overlap ;;
      Py.Ok (SPLIT_SEPARATE_PAGES, pages)
  else
    let template_spacing := 15 * mm in
    let total_height_needed := 2 * wrap_h * mm + template_spacing in
    if Py.leb total_height_needed available_height then
      pages <- Outline._generate_single_page boundary_edges
                 min_u max_u min_v max_v base_w base_h wrap_w wrap_h
                 page_w margin ;;
      Py.Ok (SINGLE_PAGE_STACKED, pages)
    else
      pages <- Outline._generate_single_multipage boundary_edges
                 min_u max_u min_v max_v base_w base_h wrap_w wrap_h
                 page_w page_h ;;
      Py.Ok (SINGLE_MULTIPAGE, pages).

(** *** Specification side: the layout planner of section 4.6 *)

Definition select_mode (wrap_width wrap_height printable_width
  printable_height spacing split_overlap : Q) : LayoutMode :=
  let needs_width_split := Py.ltb printable_width wrap_width in
  let stack_height := 2 * wrap_height + spacing in
  if needs_width_split then
    if Py.leb stack_height printable_height then SPLIT_SAME_PAGE
    else SPLIT_SEPARATE_PAGES
  else
    if Py.leb stack_height printable_height then SINGLE_PAGE_STACKED
    else SINGLE_MULTIPAGE.

End Layout.

(* ------------------------------------------------------------------ *)
(** ** [unwrap_pipe_segment]: the seam selector *)

Module Seam.

(** A [BMVert] with its coordinate [co]. *)
Record BMVert : Type := {
  co_x : Py.float;
  co_y : Py.float;
  co_z : Py.float
}.

(** A [BMEdge]: its two vertices and its seam flag. *)
Record BMEdge : Type := {
  verts : BMVert * BMVert;
  seam : bool
}.

Record BMesh : Type := {
  bm_verts : list BMVert;
  bm_edges : list BMEdge
}.

(** A float that may be [float("inf")]. *)
Inductive efloat : Type :=
| Fin (x : Py.float)
| Inf.

(** [r < m] for a finite [r]. *)
Definition lt_e (r : Py.float) (m : efloat) : bool :=
  match m with
  | Fin x => Py.ltb r x
  | Inf => true
  end.

(** [abs(r - m) < tol] for finite [r] and [tol]. *)
Definition abs_diff_lt (r : Py.float) (m : efloat) (tol : Py.float) : bool :=
  match m with
  | Fin x => Py.ltb (Qabs (r - x)) tol
  | Inf => false
  end.

Definition z_tolerance : Py.float := 0.5.
Definition radius_tolerance : Py.float := 1.0.

Section WithSqrt.

(** [math.sqrt], a primitive of the host language. *)
Variable sqrt : Py.float -> Py.float.

(** [math.sqrt(v.co.x**2 + v.co.y**2)] *)
Definition planar_radius (v : BMVert) : Py.float :=
  sqrt (co_x v * co_x v + co_y v * co_y v).

(** The loop that finds the minimum radius, starting from infinity. *)
Definition min_radius (vs : list BMVert) : efloat :=
  fold_left (fun min_radius v =>
               let radius := planar_radius v in
               if lt_e radius min_radius then Fin radius else min_radius)
            vs Inf.

(** The body of the marking loop: the two nested tests. *)
Definition mark_edge (min_radius : efloat) (edge : BMEdge) : BMEdge :=
  let '(v1, v2) := verts edge in
  if Py.ltb (Qabs (co_z v1)) z_tolerance && Py.ltb (Qabs (co_z v2)) z_tolerance
  then
    let r1 := planar_radius v1 in
    let r2 := planar_radius v2 in
    if abs_diff_lt r1 min_radius radius_tolerance
       && abs_diff_lt r2 min_radius radius_tolerance
    then {| verts := verts edge; seam := true |}
    else edge
  else edge.

(** Seam marking of [unwrap_pipe_segment]: clear every seam, find the
    minimum radius, mark. *)
Definition mark_seams (bm : BMesh) : BMesh :=
  let cleared :=
    map (fun edge => {| verts := verts edge; seam := false |}) (bm_edges bm) in
  let min_radius := min_radius (bm_verts bm) in
  {| bm_verts := bm_verts bm;
     bm_edges := map (mark_edge min_radius) cleared |}.

(** *** Specification side: the seam condition of section 4.2 *)

Definition near_bend_plane (v : BMVert) : Prop :=
  Qabs (co_z v) < z_tolerance.

Definition near_radius (m : Py.float) (v : BMVert) : Prop :=
  Qabs (planar_radius v - m) < radius_tolerance.

(** [m] is the least planar radius over the vertices [vs]. *)
Definition global_min_radius (vs : list BMVert) (m : Py.float) : Prop :=
  (exists v, In v vs /\ planar_radius v = m)
  /\ forall v, In v vs -> m <= planar_radius v.

End WithSqrt.

(** A rational square root to six decimals, to run the model. *)
Definition sqrt6 (x : Py.float) : Py.float :=
  Z.sqrt (Qfloor (x * 1000000000000)) # 1000000.

End Seam.

(* ------------------------------------------------------------------ *)
(** ** [create_pipe_segment]: the geometry generator *)

Module Geometry.

(** The mesh handed on by [bm.to_mesh]: the vertices in creation order and
    each face as the creation indices of its four corners.  Linking the
    object into the scene and smooth shading are left out. *)
Record Mesh : Type := {
  mesh_verts : list Seam.BMVert;
  mesh_faces : list (list nat)
}.

Definition angular_resolution : nat := 12.
Definition radial_resolution : nat := 32.

(** Creation index of [all_rings[i][j]]. *)
Definition ring_index (i j : nat) : nat := (i * radial_resolution + j)%nat.

(** The inner loop that creates the faces between ring [i] and the next. *)
Definition ring_faces (i : nat) : list (list nat) :=
  map (fun j =>
         let next_j := ((j + 1) mod radial_resolution)%nat in
         let v1 := ring_index i j in
         let v2 := ring_index i next_j in
         let v3 := ring_index (i + 1) next_j in
         let v4 := ring_index (i + 1) j in
         [v1; v2; v3; v4])
      (seq 0 radial_resolution).

(** The loop [for i in range(len(all_rings) - 1)]. *)
Definition tube_faces (n_rings : nat) : list (list nat) :=
  flat_map ring_faces (seq 0 (n_rings - 1)).

Section WithTrig.

(** [math.cos] and [math.sin], primitives of the host language. *)
Variables cos sin : Py.float -> Py.float.

(** The body of the loop over [j]: one vertex of a cross-section. *)
Definition ring_vertex (bend_centerline_radius pipe_radius : Py.float)
  (current_angle : Py.float) (j : nat) : Seam.BMVert :=
  let center_x := bend_centerline_radius * cos current_angle in
  let center_y := bend_centerline_radius * sin current_angle in
  let normal_x := cos current_angle in
  let normal_y := sin current_angle in
  let theta :=
    (inject_Z (Z.of_nat j) / inject_Z (Z.of_nat radial_resolution))
    * 2 * Py.math_pi in
  let offset_normal := pipe_radius * cos theta in
  let offset_binormal := pipe_radius * sin theta in
  {| Seam.co_x := center_x + offset_normal * normal_x;
     Seam.co_y := center_y + offset_normal * normal_y;
     Seam.co_z := offset_binormal |}.

(** [create_pipe_segment]. *)
Definition create_pipe_segment (props : PipeTemplateProperties)
  : Py.result Mesh :=
  let bend_centerline_radius := pipe_od props * bend_radius_multiplier props in
  let pipe_radius := pipe_od props / 2 in
  segment_angle <- Py.div (bend_angle props) (inject_Z (num_segments props)) ;;
  let start_rad := 0 in
  let end_rad := Py.radians segment_angle in
  let angle_step :=
    (end_rad - start_rad) / inject_Z (Z.of_nat angular_resolution) in
  let all_rings :=
    map (fun i =>
           let current_angle :=
             start_rad + inject_Z (Z.of_nat i) * angle_step in
           map (ring_vertex bend_centerline_radius pipe_radius current_angle)
               (seq 0 radial_resolution))
        (seq 0 (angular_resolution + 1)) in
  Py.Ok {| mesh_verts := List.concat all_rings;
           mesh_faces := tube_faces (List.length all_rings) |}.

End WithTrig.

(** *** Specification side: sides of faces *)

(** The sides of a face, corner to next corner, the last back to the
    first. *)
Definition face_sides (f : list nat) : list (nat * nat) :=
  map (fun k => (nth k f O, nth ((k + 1) mod List.length f) f O))
      (seq 0 (List.length f)).

Definition same_side (s t : nat * nat) : bool :=
  (Nat.eqb (fst s) (fst t) && Nat.eqb (snd s) (snd t))
  || (Nat.eqb (fst s) (snd t) && Nat.eqb (snd s) (fst t)).

(** In how many faces the side [s] occurs, in either direction. *)
Definition side_count (s : nat * nat) (faces : list (list nat)) : nat :=
  List.length (filter (same_side s) (flat_map face_sides faces)).

(** A side that runs along the first or along the last ring. *)
Definition on_end_ring (s : nat * nat) : bool :=
  let last := (angular_resolution * radial_resolution)%nat in
  (Nat.ltb (fst s) radial_resolution && Nat.ltb (snd s) radial_resolution)
  || (Nat.leb last (fst s) && Nat.leb last (snd s)).

Fixpoint distinct (l : list nat) : bool :=
  match l with
  | [] => true
  | x :: rest => negb (existsb (Nat.eqb x) rest) && distinct rest
  end.

(** What is checked of every face of the tube. *)
Definition well_formed_face (faces : list (list nat)) (f : list nat) : bool :=
  Nat.eqb (List.length f) 4
  && distinct f
  && forallb (fun v => Nat.ltb v ((angular_resolution + 1) * radial_resolution))
             f
  && forallb (fun s =>
                let c := side_count s faces in
                if on_end_ring s then Nat.eqb c 1 else Nat.eqb c 2)
             (face_sides f).

(** Points of the unit circle with rational coordinates, to run the
    model: [(1 - t^2) / (1 + t^2)] and [2 t / (1 + t^2)]. *)
Definition cosq (t : Py.float) : Py.float := (1 - t * t) / (1 + t * t).
Definition sinq (t : Py.float) : Py.float := (2 * t) / (1 + t * t).

End Geometry.

(* ------------------------------------------------------------------ *)
(** ** The host: Blender, the operating system and reportlab

    What the operator calls but does not define is gathered in one
    interface.  The file system is a state [FS] that is passed along.
    A [string] stands for a Python [str]; what is white space in it is
    known to [strip] alone. *)

Module Host.

(** An [OSError] as [_ensure_output_directory] tells them apart: by
    [errno], and otherwise by its text [str(e)]. *)
Inductive OSError : Type :=
| EACCES
| ENOSPC
| OtherOSError (text : string).

Record t : Type := {
  FS : Type;
  (** [math.cos], [math.sin], [math.sqrt] *)
  cos : Py.float -> Py.float;
  sin : Py.float -> Py.float;
  sqrt : Py.float -> Py.float;
  (** [os.path.normpath], [abspath], [dirname], [join] *)
  normpath : string -> string;
  abspath : string -> string;
  dirname : string -> string;
  join : string -> string -> string;
  (** [os.path.exists], [os.path.isfile], [os.access(path, os.W_OK)] *)
  path_exists : FS -> string -> bool;
  isfile : FS -> string -> bool;
  writable : FS -> string -> bool;
  (** [os.makedirs(path, exist_ok=True)]: the error raised, if any, and
      the file system it leaves *)
  makedirs : FS -> string -> option OSError * FS;
  (** [s.strip()] of the built-in type [str] *)
  strip : string -> string;
  (** [str(e)] for the built-in exceptions *)
  str_builtin : Py.exn -> string;
  (** whether [import reportlab] succeeds *)
  reportlab_installed : bool;
  (** [bpy.ops.uv.unwrap] on the mesh with its seam edges: the active UV
      layer, read per polygon, that [extract_uv_data] finds afterwards *)
  uv_unwrap : Geometry.Mesh -> list Seam.BMEdge
              -> Py.result (option (list Boundary.polygon));
  (** [c.save()]: the canvas with its pages is written to the path; the
      exception raised, if any, and the file system it leaves *)
  save : FS -> string -> list Outline.page -> option Py.exn * FS
}.

(** [str(e)] *)
Definition str (h : t) (e : Py.exn) : string :=
  match e with
  | Py.Exception msg => msg
  | _ => str_builtin h e
  end.

End Host.

(* ------------------------------------------------------------------ *)
(** ** [_validate_output_folder] and [_ensure_output_directory] *)

Module Folder.

(** [_validate_output_folder]; it only reads the file system. *)
Definition _validate_output_folder (h : Host.t) (fs : Host.FS h)
  (folder_path : string) : Py.result string :=
  if String.eqb folder_path ""
     || String.eqb (Host.strip h folder_path) "" then
    Py.Raise (Py.Exception
                "Output folder path is empty. Please select a folder.")
  else
    let normalized := Host.normpath h folder_path in
    let abs_path := Host.abspath h normalized in
    let parent_dir := Host.dirname h abs_path in
    if negb (String.eqb parent_dir "")
       && negb (Host.path_exists h fs parent_dir) then
      Py.Raise (Py.Exception
                  ("Parent directory does not exist: " ++ parent_dir))
    else if Host.isfile h fs abs_path then
      Py.Raise (Py.Exception
                  ("Path is a file, not a directory: " ++ abs_path))
    else if Host.path_exists h fs abs_path then
      if negb (Host.writable h fs abs_path) then
        Py.Raise (Py.Exception ("Directory is not writable: " ++ abs_path))
      else Py.Ok abs_path
    else
      if negb (String.eqb parent_dir "")
         && negb (Host.writable h fs parent_dir) then
        Py.Raise (Py.Exception
                    ("Cannot create directory - parent is not writable: "
                     ++ parent_dir))
      else Py.Ok abs_path.

(** [_ensure_output_directory]: the result, whether the directory was
    created (the INFO report), and the file system afterwards. *)
Definition _ensure_output_directory (h : Host.t) (fs : Host.FS h)
  (folder_path : string) : Py.result string * bool * Host.FS h :=
  let normalized := Host.normpath h folder_path in
  let abs_path := Host.abspath h normalized in
  let created :=
    if negb (Host.path_exists h fs abs_path) then
      match Host.makedirs h fs abs_path with
      | (None, fs') => (None, true, fs')
      | (Some Host.EACCES, fs') =>
          (Some (Py.Exception
                   ("Permission denied creating directory: " ++ abs_path)),
           false, fs')
      | (Some Host.ENOSPC, fs') =>
          (Some (Py.Exception
                   ("Disk full creating directory: " ++ abs_path)),
           false, fs')
      | (Some (Host.OtherOSError text), fs') =>
          (Some (Py.Exception
                   ("Failed to create directory " ++ abs_path ++ ": "
                    ++ text)),
           false, fs')
      end
    else (None, false, fs) in
  match created with
  | (Some e, was_created, fs') => (Py.Raise e, was_created, fs')
  | (None, was_created, fs') =>
      if negb (Host.writable h fs' abs_path) then
        (Py.Raise (Py.Exception
                     ("Directory is not writable: " ++ abs_path)),
         was_created, fs')
      else (Py.Ok abs_path, was_created, fs')
  end.

End Folder.

(* ------------------------------------------------------------------ *)
(** ** [generate_pdf] and [execute]: the whole run *)

Module Operator.

Inductive status : Type := FINISHED | CANCELLED.

(** A call of [self.report]. *)
Inductive report : Type :=
| INFO (msg : string)
| ERROR (msg : string).

Definition is_error (r : report) : bool :=
  match r with
  | ERROR _ => true
  | INFO _ => false
  end.

(** The edges [bm.from_mesh] finds: the sides of the faces in creation
    order, each undirected side once, none of them a seam. *)
Definition mesh_edges (mesh : Geometry.Mesh) : list Seam.BMEdge :=
  let origin := {| Seam.co_x := 0; Seam.co_y := 0; Seam.co_z := 0 |} in
  let sides :=
    fold_left (fun acc s =>
                 if existsb (Geometry.same_side s) acc then acc
                 else (acc ++ [s])%list)
              (flat_map Geometry.face_sides (Geometry.mesh_faces mesh)) [] in
  map (fun s : nat * nat =>
         {| Seam.verts := (nth (fst s) (Geometry.mesh_verts mesh) origin,
                           nth (snd s) (Geometry.mesh_verts mesh) origin);
            Seam.seam := false |})
      sides.

(** [unwrap_pipe_segment]: seam marking, then the unwrap operator. *)
Definition unwrap_pipe_segment (h : Host.t) (mesh : Geometry.Mesh)
  : Py.result (option (list Boundary.polygon)) :=
  let bm := {| Seam.bm_verts := Geometry.mesh_verts mesh;
               Seam.bm_edges := mesh_edges mesh |} in
  let bm := Seam.mark_seams (Host.sqrt h) bm in
  Host.uv_unwrap h mesh (Seam.bm_edges bm).

(** [generate_pdf].  It yields what was drawn (the generator taken, the
    file name and the outline strokes of each page) or the exception
    raised, the reports made, and the file system afterwards. *)
Definition generate_pdf (h : Host.t) (fs : Host.FS h)
  (props : PipeTemplateProperties) (uv_data : Boundary.uv_data)
  (boundary_data : Boundary.boundary_data)
  : Py.result (Layout.LayoutMode * string * list Outline.page)
    * list report * Host.FS h :=
  if negb (Host.reportlab_installed h) then
    (Py.Raise
       (Py.Exception "reportlab not installed. Run: pip install reportlab"),
     [], fs)
  else
    match Py.div (bend_angle props) (inject_Z (num_segments props)) with
    | Py.Raise e => (Py.Raise e, [], fs)
    | Py.Ok segment_angle =>
        let filename := Filename.filename props in
        match Folder._ensure_output_directory h fs (output_folder props) with
        | (output_dir, was_created, fs1) =>
            let made :=
              if was_created then
                [INFO ("Created output directory: "
                       ++ Host.abspath h
                            (Host.normpath h (output_folder props)))]
              else [] in
            match output_dir with
            | Py.Raise e => (Py.Raise e, made, fs1)
            | Py.Ok output_dir =>
                let pdf_path := Host.join h output_dir filename in
                match Layout.dispatch uv_data boundary_data with
                | Py.Raise e => (Py.Raise e, made, fs1)
                | Py.Ok (mode, pages) =>
                    match Host.save h fs1 pdf_path pages with
                    | (Some e, fs2) => (Py.Raise e, made, fs2)
                    | (None, fs2) =>
                        (Py.Ok (mode, filename, pages),
                         (made ++ [INFO ("PDF saved to: " ++ pdf_path)])%list,
                         fs2)
                    end
                end
            end
        end
    end.

(** The handler of the outer [try]. *)
Definition failed (h : Host.t) (reports : list report) (e : Py.exn)
  : status * list report :=
  (CANCELLED,
   (reports ++ [ERROR ("Failed to generate template: " ++ Host.str h e)])%list).

(** [execute]: the status returned, the reports in order, and the file
    system afterwards. *)
Definition execute (h : Host.t) (fs : Host.FS h)
  (props : PipeTemplateProperties) : status * list report * Host.FS h :=
  match Folder._validate_output_folder h fs (output_folder props) with
  | Py.Raise e =>
      (CANCELLED,
       [ERROR ("Output folder validation failed: " ++ Host.str h e)], fs)
  | Py.Ok validated_path =>
      let r1 := [INFO ("Output directory: " ++ validated_path);
                 INFO "Creating 3D pipe segment..."] in
      match Geometry.create_pipe_segment (Host.cos h) (Host.sin h) props with
      | Py.Raise e => (failed h r1 e, fs)
      | Py.Ok segment_obj =>
          let r2 := (r1 ++ [INFO "UV unwrapping..."])%list in
          match unwrap_pipe_segment h segment_obj with
          | Py.Raise e => (failed h r2 e, fs)
          | Py.Ok uv_layer =>
              let r3 := (r2 ++ [INFO "Extracting UV data..."])%list in
              match Boundary.extract_uv_data uv_layer props with
              | Py.Raise e => (failed h r3 e, fs)
              | Py.Ok (uv_data, boundary_data) =>
                  let r4 := (r3 ++ [INFO "Generating PDF..."])%list in
                  match generate_pdf h fs props uv_data boundary_data with
                  | (Py.Raise e, made, fs') =>
                      (failed h (r4 ++ made)%list e, fs')
                  | (Py.Ok _, made, fs') =>
                      (FINISHED,
                       (r4 ++ made
                        ++ [INFO "Template generated successfully!"])%list,
                       fs')
                  end
              end
          end
      end
  end.

End Operator.

(* ------------------------------------------------------------------ *)
(** ** The declared limits of the property group, and regions of a page *)

Module Limits.

(** The [min] and [max] declared for each property of
    [PipeTemplateProperties]; Blender clamps an assigned value to them. *)
Definition declared_range (props : PipeTemplateProperties) : Prop :=
  (10 <= pipe_od props /\ pipe_od props <= 500)
  /\ (0.5 <= bend_radius_multiplier props
      /\ bend_radius_multiplier props <= 10)
  /\ (1 <= bend_angle props /\ bend_angle props <= 360)
  /\ (1 <= num_segments props <= 20)%Z
  /\ (0.1 <= wrap_thickness props /\ wrap_thickness props <= 50)
  /\ (0 <= overlap props /\ overlap props <= 50).

(** Both end points of a stroke lie in the rectangle
    [[x_lo, x_hi] x [y_lo, y_hi]] (in points). *)
Definition stroke_within (x_lo x_hi y_lo y_hi : Q) (s : Outline.line) : Prop :=
  (x_lo <= Outline.x1_pt s /\ Outline.x1_pt s <= x_hi)
  /\ (y_lo <= Outline.y1_pt s /\ Outline.y1_pt s <= y_hi)
  /\ (x_lo <= Outline.x2_pt s /\ Outline.x2_pt s <= x_hi)
  /\ (y_lo <= Outline.y2_pt s /\ Outline.y2_pt s <= y_hi).

(** Both end points of an edge lie in the bounding box. *)
Definition edge_within (min_u max_u min_v max_v : Q) (e : Boundary.edge)
  : Prop :=
  (min_u <= fst (fst e) /\ fst (fst e) <= max_u)
  /\ (min_v <= snd (fst e) /\ snd (fst e) <= max_v)
  /\ (min_u <= fst (snd e) /\ fst (snd e) <= max_u)
  /\ (min_v <= snd (snd e) /\ snd (snd e) <= max_v).

End Limits.

(* ------------------------------------------------------------------ *)
(** ** Concrete inputs *)

Module Scenario.

(** The default values of the property group (scenarios 1 and 2). *)
Definition default_props : PipeTemplateProperties :=
  {| pipe_od := 76.2;
     bend_radius_multiplier := 1.5;
     bend_angle := 90;
     num_segments := 5;
     wrap_thickness := 6.15;
     overlap := 10;
     output_folder := "./Pipe flat templates" |}.

(** One flattened quad, the unit square. *)
Definition unit_square : list Boundary.polygon :=
  [ [ (0, 0); (1, 0); (1, 1); (0, 1) ] ].

(** Two quads side by side, sharing the edge from (1,0) to (1,1). *)
Definition two_quads : list Boundary.polygon :=
  [ [ (0, 0); (1, 0); (1, 1); (0, 1) ];
    [ (1, 0); (2, 0); (2, 1); (1, 1) ] ].

(** Three triangles that all contain the edge from (0,0) to (1,0). *)
Definition fan : list Boundary.polygon :=
  [ [ (0, 0); (1, 0); (0, 1) ];
    [ (0, 0); (1, 0); (0, -1) ];
    [ (0, 0); (1, 0); (1, 1) ] ].

(** A strip of mesh: two vertices on the inside of the bend, in the bend
    plane, and one on the outside. *)
Definition inner_a : Seam.BMVert :=
  {| Seam.co_x := 76.2; Seam.co_y := 0; Seam.co_z := 0 |}.
Definition inner_b : Seam.BMVert :=
  {| Seam.co_x := 0; Seam.co_y := 76.2; Seam.co_z := 0 |}.
Definition outer_a : Seam.BMVert :=
  {| Seam.co_x := 152.4; Seam.co_y := 0; Seam.co_z := 0 |}.

Definition strip : Seam.BMesh :=
  {| Seam.bm_verts := [inner_a; inner_b; outer_a];
     Seam.bm_edges :=
       [ {| Seam.verts := (inner_a, inner_b); Seam.seam := false |};
         {| Seam.verts := (inner_a, outer_a); Seam.seam := true |} ] |}.

(** A pipe of 50 mm: the wrap fits the page width, both copies the height. *)
Definition props_50 : PipeTemplateProperties :=
  {| pipe_od := 50;
     bend_radius_multiplier := 1.5;
     bend_angle := 90;
     num_segments := 5;
     wrap_thickness := 6.15;
     overlap := 10;
     output_folder := "./Pipe flat templates" |}.

(** White space for the sample host: the characters with a code point
    below 256 for which [str.isspace] holds. *)
Definition isspace (c : ascii) : bool :=
  let n := nat_of_ascii c in
  ((9 <=? n)%nat && (n <=? 13)%nat)
  || ((28 <=? n)%nat && (n <=? 32)%nat)
  || (n =? 133)%nat || (n =? 160)%nat.

Fixpoint lstrip (s : string) : string :=
  match s with
  | EmptyString => EmptyString
  | String c rest => if isspace c then lstrip rest else s
  end.

Fixpoint reverse (s : string) : string :=
  match s with
  | EmptyString => EmptyString
  | String c rest => (reverse rest ++ String c EmptyString)%string
  end.

Definition rstrip (s : string) : string := reverse (lstrip (reverse s)).

(** Leading and trailing white space removed. *)
Definition str_strip (s : string) : string := rstrip (lstrip s).

(** A small host to run the operator on.  The file system is the list of
    the directories that exist, all writable; paths are taken as they
    are and stripped of the white space above; the unwrap operator
    flattens everything to the unit square. *)
Definition host : Host.t :=
  {| Host.FS := list string;
     Host.cos := Geometry.cosq;
     Host.sin := Geometry.sinq;
     Host.sqrt := Seam.sqrt6;
     Host.normpath := fun path => path;
     Host.abspath := fun path => path;
     Host.dirname := fun _ => "/"%string;
     Host.join := fun dir name => (dir ++ "/" ++ name)%string;
     Host.path_exists := fun fs path => existsb (String.eqb path) fs;
     Host.isfile := fun _ _ => false;
     Host.writable := fun fs path => existsb (String.eqb path) fs;
     Host.makedirs := fun fs path => (None, path :: fs);
     Host.strip := str_strip;
     Host.str_builtin := fun _ => "built-in exception"%string;
     Host.reportlab_installed := true;
     Host.uv_unwrap := fun _ _ => Py.Ok (Some unit_square);
     Host.save := fun fs _ _ => (None, fs) |}.

(** The root and the default output folder exist. *)
Definition disk : Host.FS host :=
  ["/"%string; "./Pipe flat templates"%string].

(** Two specifications that differ in the diameter only, by 1/32 mm. *)
Definition props_100 : PipeTemplateProperties :=
  {| pipe_od := 100;
     bend_radius_multiplier := 1.5;
     bend_angle := 90;
     num_segments := 5;
     wrap_thickness := 6.15;
     overlap := 10;
     output_folder := "./Pipe flat templates" |}.

Definition props_100_03125 : PipeTemplateProperties :=
  {| pipe_od := 100.03125;
     bend_radius_multiplier := 1.5;
     bend_angle := 90;
     num_segments := 5;
     wrap_thickness := 6.15;
     overlap := 10;
     output_folder := "./Pipe flat templates" |}.

(** The boundary data of the unit square and sizes of a wrap 300 mm wide,
    wider than the printable 285 mm. *)
Definition square_boundary : Boundary.boundary_data :=
  {| Boundary.bd_boundary_edges :=
       [ ((0, 0), (1, 0)); ((1, 0), (1, 1));
         ((1, 1), (0, 1)); ((0, 1), (0, 0)) ];
     Boundary.bd_min_u := 0;
     Boundary.bd_max_u := 1;
     Boundary.bd_min_v := 0;
     Boundary.bd_max_v := 1 |}.

Definition wide_uv_data : Boundary.uv_data :=
  {| Boundary.ud_polygons := unit_square;
     Boundary.ud_min_u := 0;
     Boundary.ud_max_u := 1;
     Boundary.ud_min_v := 0;
     Boundary.ud_max_v := 1;
     Boundary.ud_pipe_circ_mm := 260;
     Boundary.ud_pipe_arc_mm := 36;
     Boundary.ud_wrap_width := 300;
     Boundary.ud_wrap_arc_length := 38;
     Boundary.ud_overlap := 10 |}.

(** The undirected key of the edge the three triangles share. *)
Definition fan_key : Boundary.edge := ((0, 0), (1, 0)).

(** Scenario 1 with a segment count of zero, which the property group
    does not let through but a script can pass. *)
Definition props_no_segments : PipeTemplateProperties :=
  {| pipe_od := 76.2;
     bend_radius_multiplier := 1.5;
     bend_angle := 90;
     num_segments := 0;
     wrap_thickness := 6.15;
     overlap := 10;
     output_folder := "./Pipe flat templates" |}.

(** Scenario 1 with a wrap thickness of [1e-15] and no overlap, the
    floats as the doubles Python reads them: 76.2 is
    [0x1.30ccccccccccdp+6] and 1e-15 is [0x1.203af9ee75616p-50]. *)
Import PrimFloat.

Definition thin_wrap : Double.props :=
  {| Double.pipe_od := 0x1.30ccccccccccdp+6%float;
     Double.bend_radius_multiplier := 0x1.8p+0%float;
     Double.bend_angle := 90%float;
     Double.num_segments := 5;
     Double.wrap_thickness := 0x1.203af9ee75616p-50%float;
     Double.overlap := 0%float |}.

End Scenario.

(* ================================================================== *)
(** * Properties *)

(** ** Python primitives *)

Section PyFacts.

Lemma ltb_lt (a b : Py.float) : Py.ltb a b = true <-> a < b.
Proof.
  unfold Py.ltb. rewrite negb_true_iff. split; intro H.
  - apply Qnot_le_lt. intro Hle. apply Qle_bool_iff in Hle. congruence.
  - destruct (Qle_bool b a) eqn:E; [|reflexivity].
    apply Qle_bool_iff in E. exfalso. exact (Qlt_not_le _ _ H E).
Qed.

Lemma ltb_ge (a b : Py.float) : Py.ltb a b = false <-> b <= a.
Proof.
  unfold Py.ltb. rewrite negb_false_iff. apply Qle_bool_iff.
Qed.

Lemma leb_le (a b : Py.float) : Py.leb a b = true <-> a <= b.
Proof. unfold Py.leb. apply Qle_bool_iff. Qed.

Lemma leb_gt (a b : Py.float) : Py.leb a b = false <-> b < a.
Proof.
  unfold Py.leb. split; intro H.
  - apply Qnot_le_lt. intro Hle. apply Qle_bool_iff in Hle. congruence.
  - destruct (Qle_bool a b) eqn:E; [|reflexivity].
    apply Qle_bool_iff in E. exfalso. exact (Qlt_not_le _ _ H E).
Qed.

Lemma eqb_eq (a b : Py.float) : Py.eqb a b = true <-> a == b.
Proof. unfold Py.eqb. apply Qeq_bool_iff. Qed.

Lemma bind_ok {A B : Type} (m : Py.result A) (k : A -> Py.result B) (b : B) :
  Py.bind m k = Py.Ok b -> exists a, m = Py.Ok a /\ k a = Py.Ok b.
Proof.
  destruct m as [a|e]; simpl; intro H; [eauto | discriminate].
Qed.

Lemma mapM_total {A B : Type} (f : A -> Py.result B) (g : A -> B) (l : list A) :
  (forall a, In a l -> f a = Py.Ok (g a)) ->
  Py.mapM f l = Py.Ok (map g l).
Proof.
  induction l as [|x xs IH]; intro H; simpl; [reflexivity|].
  rewrite (H x (or_introl eq_refl)).
  rewrite IH; [reflexivity|]. intros a Ha. apply H. now right.
Qed.

(** [min] returns a member of the list that is below every member. *)
Lemma min_spec (l : list Py.float) (m : Py.float) :
  Py.min l = Py.Ok m -> In m l /\ forall x, In x l -> m <= x.
Proof.
  destruct l as [|x xs]; simpl; [discriminate|].
  intro H. injection H as <-.
  revert x. induction xs as [|y ys IH]; intro x; simpl.
  - split; [now left|]. intros z [<-|[]]. apply Qle_refl.
  - destruct (Py.ltb y x) eqn:E.
    + destruct (IH y) as [Hin Hle]. split.
      * destruct Hin as [<-|Hin]; [right; now left | right; now right].
      * intros z [<-|[<-|Hz]].
        -- apply ltb_lt in E. apply Qle_trans with y.
           ++ apply Hle. now left.
           ++ now apply Qlt_le_weak.
        -- apply Hle. now left.
        -- apply Hle. now right.
    + destruct (IH x) as [Hin Hle]. split.
      * destruct Hin as [<-|Hin]; [now left | right; now right].
      * intros z [<-|[<-|Hz]].
        -- apply Hle. now left.
        -- apply ltb_ge in E. apply Qle_trans with x; [|exact E].
           apply Hle. now left.
        -- apply Hle. now right.
Qed.

(** [max] returns a member of the list that is above every member. *)
Lemma max_spec (l : list Py.float) (m : Py.float) :
  Py.max l = Py.Ok m -> In m l /\ forall x, In x l -> x <= m.
Proof.
  destruct l as [|x xs]; simpl; [discriminate|].
  intro H. injection H as <-.
  revert x. induction xs as [|y ys IH]; intro x; simpl.
  - split; [now left|]. intros z [<-|[]]. apply Qle_refl.
  - destruct (Py.ltb x y) eqn:E.
    + destruct (IH y) as [Hin Hle]. split.
      * destruct Hin as [<-|Hin]; [right; now left | right; now right].
      * intros z [<-|[<-|Hz]].
        -- apply ltb_lt in E. apply Qle_trans with y.
           ++ now apply Qlt_le_weak.
           ++ apply Hle. now left.
        -- apply Hle. now left.
        -- apply Hle. now right.
    + destruct (IH x) as [Hin Hle]. split.
      * destruct Hin as [<-|Hin]; [now left | right; now right].
      * intros z [<-|[<-|Hz]].
        -- apply Hle. now left.
        -- apply ltb_ge in E. apply Qle_trans with x; [exact E|].
           apply Hle. now left.
        -- apply Hle. now right.
Qed.

Lemma min_ok (l : list Py.float) : l <> [] -> exists m, Py.min l = Py.Ok m.
Proof. destruct l; [congruence | simpl; eauto]. Qed.

Lemma max_ok (l : list Py.float) : l <> [] -> exists m, Py.max l = Py.Ok m.
Proof. destruct l; [congruence | simpl; eauto]. Qed.

End PyFacts.

(* ------------------------------------------------------------------ *)
(** ** Dictionaries built from a list of items with distinct keys *)

Section DictFacts.

Variables (A K V : Type) (key : A -> K) (keqb : K -> K -> bool).

Lemma dict_get_map (f : A -> V) (l : list A) (k : K) :
  dict_get keqb (map (fun a => (key a, f a)) l) k
  = option_map f (find (fun a => keqb (key a) k) l).
Proof.
  induction l as [|a l IH]; simpl; [reflexivity|].
  destruct (keqb (key a) k); [reflexivity | exact IH].
Qed.

Lemma dict_set_fresh (f : A -> V) (l : list A) (k : K) (v : V) :
  (forall a, In a l -> keqb (key a) k = false) ->
  dict_set keqb (map (fun a => (key a, f a)) l) k v
  = (map (fun a => (key a, f a)) l ++ [(k, v)])%list.
Proof.
  induction l as [|a l IH]; intro H; simpl; [reflexivity|].
  rewrite (H a (or_introl eq_refl)). f_equal. apply IH.
  intros b Hb. apply H. now right.
Qed.

Lemma dict_set_present (f : A -> V) (l : list A) (k : K) (v : V) :
  (forall a b, keqb (key a) k = true -> keqb (key a) (key b) = false ->
               keqb (key b) k = false) ->
  distinct_keys key keqb l ->
  (exists a, In a l /\ keqb (key a) k = true) ->
  dict_set keqb (map (fun a => (key a, f a)) l) k v
  = map (fun a => (key a, if keqb (key a) k then v else f a)) l.
Proof.
  intros Hsep. induction l as [|a l IH]; intros Hd [x [Hx Hk]]; [destruct Hx|].
  simpl. destruct Hd as [Ha Hd]. destruct (keqb (key a) k) eqn:E.
  - f_equal. apply map_ext_in. intros b Hb.
    rewrite (Hsep a b E (Ha b Hb)). reflexivity.
  - f_equal. apply IH; [exact Hd|].
    destruct Hx as [<-|Hx]; [congruence | eauto].
Qed.

Lemma distinct_keys_snoc (l : list A) (x : A) :
  (forall a b, keqb (key a) (key b) = keqb (key b) (key a)) ->
  distinct_keys key keqb l ->
  (forall a, In a l -> keqb (key a) (key x) = false) ->
  distinct_keys key keqb (l ++ [x]).
Proof.
  intros Hsym. induction l as [|a l IH]; intros Hd Hx; simpl.
  - split; [intros b []| exact I].
  - destruct Hd as [Ha Hd]. split.
    + intros b Hb. apply in_app_or in Hb. destruct Hb as [Hb|[<-|[]]].
      * now apply Ha.
      * apply Hx. now left.
    + apply IH; [exact Hd|]. intros b Hb. apply Hx. now right.
Qed.

Lemma find_distinct (l : list A) (a : A) :
  (forall b, keqb (key b) (key b) = true) ->
  (forall a b, keqb (key a) (key b) = keqb (key b) (key a)) ->
  distinct_keys key keqb l -> In a l ->
  find (fun b => keqb (key b) (key a)) l = Some a.
Proof.
  intros Hrefl Hsym. induction l as [|b l IH]; intros Hd Hin; [destruct Hin|].
  simpl. destruct Hd as [Hb Hd]. destruct Hin as [<-|Hin].
  - now rewrite Hrefl.
  - rewrite (Hb a Hin). now apply IH.
Qed.

End DictFacts.

(* ------------------------------------------------------------------ *)
(** ** Boundary extraction *)

Section BoundaryFacts.

Import Boundary.

Lemma uv_eqb_refl (a : UV) : uv_eqb a a = true.
Proof.
  unfold uv_eqb, Py.eqb. now rewrite !Qeq_bool_refl.
Qed.

Lemma uv_eqb_sym (a b : UV) : uv_eqb a b = uv_eqb b a.
Proof.
  unfold uv_eqb, Py.eqb.
  now rewrite (Qeq_bool_comm (fst a)), (Qeq_bool_comm (snd a)).
Qed.

Lemma uv_eqb_trans (a b c : UV) :
  uv_eqb a b = true -> uv_eqb b c = true -> uv_eqb a c = true.
Proof.
  unfold uv_eqb, Py.eqb. rewrite !andb_true_iff.
  intros [H1 H2] [H3 H4]. split; eapply Qeq_bool_trans; eauto.
Qed.

Lemma key_eqb_refl (k : edge) : key_eqb k k = true.
Proof. unfold key_eqb. now rewrite !uv_eqb_refl. Qed.

Lemma key_eqb_sym (k1 k2 : edge) : key_eqb k1 k2 = key_eqb k2 k1.
Proof.
  unfold key_eqb. now rewrite (uv_eqb_sym (fst k1)), (uv_eqb_sym (snd k1)).
Qed.

Lemma key_eqb_trans (k1 k2 k3 : edge) :
  key_eqb k1 k2 = true -> key_eqb k2 k3 = true -> key_eqb k1 k3 = true.
Proof.
  unfold key_eqb. rewrite !andb_true_iff.
  intros [H1 H2] [H3 H4]. split; eapply uv_eqb_trans; eauto.
Qed.

(** Equal keys are interchangeable on either side of [key_eqb]. *)
Lemma key_eqb_congr (k1 k2 k : edge) :
  key_eqb k1 k2 = true -> key_eqb k1 k = key_eqb k2 k.
Proof.
  intro H. destruct (key_eqb k2 k) eqn:E.
  - eapply key_eqb_trans; eauto.
  - destruct (key_eqb k1 k) eqn:E1; [|reflexivity].
    rewrite key_eqb_sym in H.
    rewrite (key_eqb_trans _ _ _ H E1) in E. discriminate.
Qed.

Lemma key_eqb_sep (a b : edge) (k : edge) :
  key_eqb (edge_sorted a) k = true ->
  key_eqb (edge_sorted a) (edge_sorted b) = false ->
  key_eqb (edge_sorted b) k = false.
Proof.
  intros H1 H2. destruct (key_eqb (edge_sorted b) k) eqn:E; [|reflexivity].
  rewrite key_eqb_sym in E. rewrite (key_eqb_trans _ _ _ H1 E) in H2.
  discriminate.
Qed.

Lemma occurrences_snoc (k : edge) (l : list edge) (x : edge) :
  occurrences k (l ++ [x])
  = (occurrences k l + if key_eqb (edge_sorted x) k then 1 else 0)%nat.
Proof.
  unfold occurrences. rewrite filter_app, length_app. simpl.
  destruct (key_eqb (edge_sorted x) k); reflexivity.
Qed.

Lemma occurrences_congr (k1 k2 : edge) (l : list edge) :
  key_eqb k1 k2 = true -> occurrences k1 l = occurrences k2 l.
Proof.
  intro H. unfold occurrences. f_equal. apply filter_ext. intro e.
  rewrite !(key_eqb_sym (edge_sorted e)). now apply key_eqb_congr.
Qed.

Lemma occurrences_zero (k : edge) (l : list edge) :
  occurrences k l = 0%nat <->
  forall e, In e l -> key_eqb (edge_sorted e) k = false.
Proof.
  unfold occurrences. induction l as [|a l IH]; simpl.
  - split; [intros _ e [] | reflexivity].
  - destruct (key_eqb (edge_sorted a) k) eqn:E; simpl.
    + split; [discriminate|]. intro H.
      rewrite (H a (or_introl eq_refl)) in E. discriminate.
    + rewrite IH. split.
      * intros H e [<-|He]; [exact E | now apply H].
      * intros H e He. apply H. now right.
Qed.

Lemma first_seen_snoc (l : list edge) (x : edge) :
  first_seen (l ++ [x])
  = if existsb (fun e' => key_eqb (edge_sorted e') (edge_sorted x))
         (first_seen l)
    then first_seen l else (first_seen l ++ [x])%list.
Proof. unfold first_seen. now rewrite fold_left_app. Qed.

Lemma first_seen_incl (l : list edge) (e : edge) :
  In e (first_seen l) -> In e l.
Proof.
  revert e. induction l as [|x l IH] using rev_ind; intros e; [intros []|].
  rewrite first_seen_snoc.
  destruct (existsb _ (first_seen l)); intro H.
  - apply in_or_app. left. now apply IH.
  - apply in_app_or in H. apply in_or_app.
    destruct H as [H|H]; [left; now apply IH | now right].
Qed.

(** A key occurs among the first-seen edges exactly when it occurs. *)
Lemma first_seen_covers (l : list edge) (k : edge) :
  existsb (fun e => key_eqb (edge_sorted e) k) (first_seen l)
  = existsb (fun e => key_eqb (edge_sorted e) k) l.
Proof.
  induction l as [|x l IH] using rev_ind; [reflexivity|].
  rewrite first_seen_snoc, !existsb_app. simpl. rewrite orb_false_r.
  destruct (existsb (fun e' => key_eqb (edge_sorted e') (edge_sorted x))
              (first_seen l)) eqn:E.
  - destruct (key_eqb (edge_sorted x) k) eqn:Ek.
    + rewrite orb_true_r. apply existsb_exists in E.
      destruct E as [e [He Hk]]. apply existsb_exists. exists e.
      split; [exact He | eapply key_eqb_trans; eauto].
    + now rewrite orb_false_r.
  - rewrite existsb_app. simpl. now rewrite orb_false_r, IH.
Qed.

Lemma existsb_false_all {A : Type} (f : A -> bool) (l : list A) :
  existsb f l = false -> forall a, In a l -> f a = false.
Proof.
  intros H a Ha. destruct (f a) eqn:E; [|reflexivity].
  assert (existsb f l = true) by (apply existsb_exists; eauto). congruence.
Qed.

Lemma first_seen_distinct (l : list edge) :
  distinct_keys edge_sorted key_eqb (first_seen l).
Proof.
  induction l as [|x l IH] using rev_ind; [exact I|].
  rewrite first_seen_snoc.
  destruct (existsb _ (first_seen l)) eqn:E; [exact IH|].
  apply distinct_keys_snoc; [intros; apply key_eqb_sym | exact IH |].
  exact (existsb_false_all _ _ E).
Qed.

(** The two dictionaries after the loop has seen the edges [l]: one item
    per first-seen edge, holding the count of its key and the edge. *)
Lemma count_edge_fold (l : list edge) :
  fold_left count_edge l ([], [])
  = (map (fun e => (edge_sorted e, occurrences (edge_sorted e) l))
         (first_seen l),
     map (fun e => (edge_sorted e, e)) (first_seen l)).
Proof.
  induction l as [|x l IH] using rev_ind; [reflexivity|].
  rewrite fold_left_app. simpl. rewrite IH. unfold count_edge, dict_mem.
  rewrite !dict_get_map, first_seen_snoc.
  destruct (find (fun a => key_eqb (edge_sorted a) (edge_sorted x))
              (first_seen l)) as [a|] eqn:F; simpl.
  - destruct (find_some _ _ F) as [Ha Hk].
    assert (E : existsb (fun e' => key_eqb (edge_sorted e') (edge_sorted x))
                  (first_seen l) = true)
      by (apply existsb_exists; eauto).
    rewrite E. f_equal.
    rewrite dict_set_present;
      [| intros; eapply key_eqb_sep; eauto
       | apply first_seen_distinct | eauto].
    apply map_ext_in. intros e He. f_equal.
    rewrite occurrences_snoc, (key_eqb_sym (edge_sorted x)).
    destruct (key_eqb (edge_sorted e) (edge_sorted x)) eqn:Ee.
    + f_equal. apply occurrences_congr.
      rewrite key_eqb_sym in Ee. eapply key_eqb_trans; eauto.
    + now rewrite Nat.add_0_r.
  - pose proof (find_none _ _ F) as Hn.
    assert (E : existsb (fun e' => key_eqb (edge_sorted e') (edge_sorted x))
                  (first_seen l) = false).
    { destruct (existsb _ (first_seen l)) eqn:E; [|reflexivity].
      apply existsb_exists in E. destruct E as [e [He Hk]].
      rewrite (Hn e He) in Hk. discriminate. }
    rewrite E. rewrite !dict_set_fresh by exact Hn.
    rewrite !map_app. simpl. f_equal.
    + f_equal.
      * apply map_ext_in. intros e He. f_equal.
        rewrite occurrences_snoc, (key_eqb_sym (edge_sorted x)), (Hn e He).
        now rewrite Nat.add_0_r.
      * f_equal. f_equal. rewrite occurrences_snoc, key_eqb_refl.
        rewrite first_seen_covers in E.
        assert (Z0 : occurrences (edge_sorted x) l = 0%nat).
        { apply occurrences_zero. exact (existsb_false_all _ _ E). }
        now rewrite Z0.
Qed.

(** The nested loops visit the edges in the order of [all_edges]. *)
Lemma count_edges_all (polygons : list polygon) :
  count_edges polygons = fold_left count_edge (all_edges polygons) ([], []).
Proof.
  unfold count_edges, all_edges. generalize (@nil (edge * nat), @nil (edge * edge)).
  induction polygons as [|p ps IH]; intro st; simpl; [reflexivity|].
  now rewrite fold_left_app, IH.
Qed.

Lemma occurrences_positive (l : list edge) (e : edge) :
  In e l -> (1 <= occurrences (edge_sorted e) l)%nat.
Proof.
  intro H. destruct (occurrences (edge_sorted e) l) eqn:E; [|lia].
  rewrite occurrences_zero in E. specialize (E e H).
  rewrite key_eqb_refl in E. discriminate.
Qed.

(** Filtering the first-seen edges or all edges is the same when the
    filter accepts only keys that occur once. *)
Lemma filter_first_seen (P : edge -> bool) (l : list edge) :
  (forall e, In e l -> P e = true -> (occurrences (edge_sorted e) l <= 1)%nat) ->
  filter P (first_seen l) = filter P l.
Proof.
  induction l as [|x l IH] using rev_ind; intro H; [reflexivity|].
  assert (IH' : filter P (first_seen l) = filter P l).
  { apply IH. intros e He HP.
    specialize (H e (in_or_app _ _ _ (or_introl He)) HP).
    rewrite occurrences_snoc in H. lia. }
  rewrite first_seen_snoc, filter_app. simpl.
  destruct (existsb _ (first_seen l)) eqn:E.
  - destruct (P x) eqn:Px; [|now rewrite app_nil_r].
    exfalso.
    assert (Hx : In x (l ++ [x])) by (apply in_or_app; right; now left).
    specialize (H x Hx Px).
    rewrite occurrences_snoc, key_eqb_refl in H.
    apply existsb_exists in E. destruct E as [e [He Hk]].
    apply first_seen_incl in He.
    pose proof (occurrences_positive l e He) as Hp.
    rewrite (occurrences_congr _ _ l Hk) in Hp. lia.
  - rewrite filter_app, IH'. reflexivity.
Qed.

Lemma mapM_map {A B C : Type} (f : B -> Py.result C) (g : A -> B) (l : list A) :
  Py.mapM f (map g l) = Py.mapM (fun a => f (g a)) l.
Proof.
  induction l as [|a l IH]; simpl; [reflexivity | now rewrite IH].
Qed.

(** The comprehension never misses a key, and yields the directed edges
    whose undirected key occurs exactly once, in iteration order. *)
Lemma collect_boundary_spec (polygons : list polygon) :
  collect_boundary (fst (count_edges polygons)) (snd (count_edges polygons))
  = Py.Ok (filter (fun e => Nat.eqb (occurrences (edge_sorted e)
                                       (all_edges polygons)) 1)
                  (all_edges polygons)).
Proof.
  rewrite count_edges_all, count_edge_fold. simpl.
  set (l := all_edges polygons). unfold collect_boundary.
  rewrite filter_map_swap, mapM_map. simpl.
  rewrite (mapM_total _ (fun e => e)).
  - rewrite map_id. f_equal. apply filter_first_seen.
    intros e _ He. apply Nat.eqb_eq in He. lia.
  - intros e He. apply filter_In in He. destruct He as [He _].
    rewrite dict_get_map.
    rewrite (find_distinct _ _ edge_sorted key_eqb);
      auto using key_eqb_refl, key_eqb_sym, first_seen_distinct.
Qed.

End BoundaryFacts.

(* ------------------------------------------------------------------ *)
(** ** [extract_uv_data] as a whole *)

Section ExtractFacts.

Import Boundary.

Lemma div_by_int (a : Py.float) (n : Z) :
  n <> 0%Z -> Py.div a (inject_Z n) = Py.Ok (a / inject_Z n).
Proof.
  intro H. unfold Py.div.
  destruct (Py.eqb (inject_Z n) 0) eqn:E; [|reflexivity].
  apply eqb_eq in E. unfold Qeq in E. simpl in E. lia.
Qed.

Lemma concat_nonempty (polygons : list polygon) :
  polygons <> [] -> Forall (fun p : polygon => p <> []) polygons ->
  List.concat polygons <> [].
Proof.
  destruct polygons as [|p ps]; [congruence|].
  intros _ H. inversion H as [|? ? Hp _]. subst.
  destruct p; [congruence | simpl; discriminate].
Qed.

(** With a UV layer holding at least one vertex and a segment count other
    than zero, [extract_uv_data] returns, and this is what it returns. *)
Lemma extract_uv_data_returns (polygons : list polygon)
  (props : PipeTemplateProperties) :
  List.concat polygons <> [] -> num_segments props <> 0%Z ->
  exists min_u max_u min_v max_v d,
    Py.min (map fst (List.concat polygons)) = Py.Ok min_u
    /\ Py.max (map fst (List.concat polygons)) = Py.Ok max_u
    /\ Py.min (map snd (List.concat polygons)) = Py.Ok min_v
    /\ Py.max (map snd (List.concat polygons)) = Py.Ok max_v
    /\ Dimensions.calculate_dimensions props = Py.Ok d
    /\ extract_uv_data (Some polygons) props
       = Py.Ok ({| ud_polygons := polygons;
                   ud_min_u := min_u;
                   ud_max_u := max_u;
                   ud_min_v := min_v;
                   ud_max_v := max_v;
                   ud_pipe_circ_mm := Dimensions.pipe_circ_mm d;
                   ud_pipe_arc_mm := Dimensions.pipe_arc_mm d;
                   ud_wrap_width := Dimensions.wrap_width d;
                   ud_wrap_arc_length := Dimensions.wrap_arc_length d;
                   ud_overlap := overlap props |},
                {| bd_boundary_edges :=
                     filter (fun e => Nat.eqb (occurrences (edge_sorted e)
                                                 (all_edges polygons)) 1)
                            (all_edges polygons);
                   bd_min_u := min_u;
                   bd_max_u := max_u;
                   bd_min_v := min_v;
                   bd_max_v := max_v |}).
Proof.
  intros Hne Hseg.
  assert (Hu : map fst (List.concat polygons) <> [])
    by (destruct (List.concat polygons); [congruence | discriminate]).
  assert (Hv : map snd (List.concat polygons) <> [])
    by (destruct (List.concat polygons); [congruence | discriminate]).
  destruct (min_ok _ Hu) as [min_u Emin_u].
  destruct (max_ok _ Hu) as [max_u Emax_u].
  destruct (min_ok _ Hv) as [min_v Emin_v].
  destruct (max_ok _ Hv) as [max_v Emax_v].
  assert (Hd : exists d, Dimensions.calculate_dimensions props = Py.Ok d).
  { unfold Dimensions.calculate_dimensions.
    rewrite (div_by_int _ _ Hseg). simpl. eauto. }
  destruct Hd as [d Ed].
  exists min_u, max_u, min_v, max_v, d. repeat (split; [assumption|]).
  unfold extract_uv_data. rewrite Emin_u, Emax_u, Emin_v, Emax_v. simpl.
  pose proof (collect_boundary_spec polygons) as Hb.
  destruct (count_edges polygons) as [edge_count edge_order]. simpl in Hb.
  rewrite Hb. simpl. rewrite Ed. reflexivity.
Qed.

(** The only occurrence of a key is its first. *)
Lemma single_occurrence_first (l : list edge) (e : edge) :
  In e l -> occurrences (edge_sorted e) l = 1%nat ->
  first_occurrence (edge_sorted e) l = Some e.
Proof.
  unfold first_occurrence. induction l as [|a l IH]; intros Hin Hocc;
    [destruct Hin|].
  simpl. change (a :: l) with ([a] ++ l)%list in Hocc.
  unfold occurrences in Hocc. rewrite filter_app, length_app in Hocc.
  simpl in Hocc.
  destruct (key_eqb (edge_sorted a) (edge_sorted e)) eqn:E; simpl in Hocc.
  - destruct Hin as [->|Hin]; [reflexivity|].
    pose proof (occurrences_positive l e Hin) as Hp.
    unfold occurrences in Hp. lia.
  - destruct Hin as [->|Hin].
    + rewrite key_eqb_refl in E. discriminate.
    + apply IH; [exact Hin | exact Hocc].
Qed.

(** The value of the dimension calculation. *)
Lemma calculate_dimensions_value (props : PipeTemplateProperties) :
  num_segments props <> 0%Z ->
  Dimensions.calculate_dimensions props = Py.Ok
    {| Dimensions.pipe_circ_mm := Py.math_pi * pipe_od props;
       Dimensions.pipe_arc_mm :=
         (pipe_od props * bend_radius_multiplier props)
         * Py.radians (bend_angle props / inject_Z (num_segments props));
       Dimensions.wrap_width :=
         2 * Py.math_pi * (pipe_od props / 2 + wrap_thickness props)
         + overlap props;
       Dimensions.wrap_arc_length :=
         (pipe_od props * bend_radius_multiplier props + wrap_thickness props)
         * Py.radians (bend_angle props / inject_Z (num_segments props)) |}.
Proof.
  intro Hseg. unfold Dimensions.calculate_dimensions.
  rewrite (div_by_int _ _ Hseg). reflexivity.
Qed.

Lemma math_pi_pos : 0 < Py.math_pi.
Proof. reflexivity. Qed.

Lemma radians_pos (x : Py.float) : 0 < x -> 0 < Py.radians x.
Proof.
  intro H. unfold Py.radians. apply Qmult_lt_0_compat; [exact H|].
  reflexivity.
Qed.

(** Scenarios 1 and 2 of the specification, to a tenth of a millimetre. *)
Example scenario_sizes :
  exists d,
    Dimensions.calculate_dimensions Scenario.default_props = Py.Ok d
    /\ 239.3 < Dimensions.pipe_circ_mm d < 239.5
    /\ 35.8 < Dimensions.pipe_arc_mm d < 36.0
    /\ 288.0 < Dimensions.wrap_width d < 288.2.
Proof.
  eexists. split; [reflexivity|]. repeat split.
Qed.

End ExtractFacts.

(* ------------------------------------------------------------------ *)
(** ** Claims about [extract_uv_data] *)

Section ExtractClaims.

Import Boundary.

(** C1.  For every specification with a segment count other than zero the
    dimension calculation returns exactly
    [base_width = pi * pipe_od],
    [base_height = (pipe_od * bend_radius_multiplier) * radians(bend_angle / num_segments)],
    [wrap_width = 2 * pi * (pipe_od / 2 + wrap_thickness) + overlap] and
    [wrap_height = (pipe_od * bend_radius_multiplier + wrap_thickness) * radians(bend_angle / num_segments)];
    and whatever mesh [extract_uv_data] is given, the sizes it returns are
    these. *)
Theorem dimensions_exact_and_mesh_independent :
  forall props : PipeTemplateProperties,
    num_segments props <> 0%Z ->
    let segment_angle_rad :=
      Py.radians (bend_angle props / inject_Z (num_segments props)) in
    let base_width := Py.math_pi * pipe_od props in
    let base_height :=
      (pipe_od props * bend_radius_multiplier props) * segment_angle_rad in
    let wrap_width :=
      2 * Py.math_pi * (pipe_od props / 2 + wrap_thickness props)
      + overlap props in
    let wrap_height :=
      (pipe_od props * bend_radius_multiplier props + wrap_thickness props)
      * segment_angle_rad in
    Dimensions.calculate_dimensions props
    = Py.Ok {| Dimensions.pipe_circ_mm := base_width;
               Dimensions.pipe_arc_mm := base_height;
               Dimensions.wrap_width := wrap_width;
               Dimensions.wrap_arc_length := wrap_height |}
    /\ forall polygons : list polygon,
         List.concat polygons <> [] ->
         exists uv bd,
           extract_uv_data (Some polygons) props = Py.Ok (uv, bd)
           /\ ud_pipe_circ_mm uv = base_width
           /\ ud_pipe_arc_mm uv = base_height
           /\ ud_wrap_width uv = wrap_width
           /\ ud_wrap_arc_length uv = wrap_height.
Proof.
  intros props Hseg. cbv zeta.
  pose proof (calculate_dimensions_value props Hseg) as Hd.
  split; [exact Hd|].
  intros polygons Hne.
  destruct (extract_uv_data_returns polygons props Hne Hseg)
    as (min_u & max_u & min_v & max_v & d & _ & _ & _ & _ & Ed & Ex).
  rewrite Hd in Ed. injection Ed as <-.
  eexists. eexists. split; [exact Ex|]. simpl. repeat split.
Qed.

Lemma dimensions_exact_and_mesh_independent_witness :
  num_segments Scenario.default_props <> 0%Z
  /\ Dimensions.calculate_dimensions Scenario.default_props
     = Py.Ok {| Dimensions.pipe_circ_mm := Py.math_pi * 76.2;
                Dimensions.pipe_arc_mm := (76.2 * 1.5) * Py.radians (90 / inject_Z 5);
                Dimensions.wrap_width := 2 * Py.math_pi * (76.2 / 2 + 6.15) + 10;
                Dimensions.wrap_arc_length :=
                  (76.2 * 1.5 + 6.15) * Py.radians (90 / inject_Z 5) |}.
Proof.
  assert (H : num_segments Scenario.default_props <> 0%Z) by (simpl; lia).
  split; [exact H|].
  exact (proj1 (dimensions_exact_and_mesh_independent Scenario.default_props H)).
Defined.

(** C2 as stated fails: the three triangles of [Scenario.fan] share one
    undirected edge, whose key is counted three times, and the extraction
    returns normally. *)
Lemma nonmanifold_not_rejected :
  (2 < occurrences Scenario.fan_key (all_edges Scenario.fan))%nat
  /\ exists uv,
       extract_uv_data (Some Scenario.fan) Scenario.default_props
       = Py.Ok (uv,
                {| bd_boundary_edges :=
                     [ ((1, 0), (0, 1)); ((0, 1), (0, 0));
                       ((1, 0), (0, -1)); ((0, -1), (0, 0));
                       ((1, 0), (1, 1)); ((1, 1), (0, 0)) ];
                   bd_min_u := 0;
                   bd_max_u := 1;
                   bd_min_v := -1;
                   bd_max_v := 1 |}).
Proof.
  split; [vm_compute; lia|].
  eexists. vm_compute. reflexivity.
Qed.

(** C2, amended.  A key counted more than twice does not make the
    extraction fail: for polygons with at least one vertex (and a segment
    count other than zero) it returns, and no edge with that key is among
    the boundary edges. *)
Theorem nonmanifold_edges_dropped :
  forall (polygons : list polygon) (props : PipeTemplateProperties)
         (k : edge),
    List.concat polygons <> [] ->
    num_segments props <> 0%Z ->
    (2 < occurrences k (all_edges polygons))%nat ->
    exists uv bd,
      extract_uv_data (Some polygons) props = Py.Ok (uv, bd)
      /\ forall e, In e (bd_boundary_edges bd) ->
                   key_eqb (edge_sorted e) k = false.
Proof.
  intros polygons props k Hne Hseg Hk.
  destruct (extract_uv_data_returns polygons props Hne Hseg)
    as (min_u & max_u & min_v & max_v & d & _ & _ & _ & _ & _ & Ex).
  eexists. eexists. split; [exact Ex|]. simpl.
  intros e He. apply filter_In in He. destruct He as [_ He].
  apply Nat.eqb_eq in He.
  destruct (key_eqb (edge_sorted e) k) eqn:E; [|reflexivity].
  rewrite (occurrences_congr _ _ _ E) in He. lia.
Qed.

Lemma nonmanifold_edges_dropped_witness :
  exists uv bd,
    extract_uv_data (Some Scenario.fan) Scenario.default_props = Py.Ok (uv, bd)
    /\ forall e, In e (bd_boundary_edges bd) ->
                 key_eqb (edge_sorted e) Scenario.fan_key = false.
Proof.
  apply (nonmanifold_edges_dropped Scenario.fan Scenario.default_props
           Scenario.fan_key).
  - vm_compute. discriminate.
  - simpl. lia.
  - vm_compute. lia.
Defined.

(** C3.  For a non-empty collection of polygons, each with at least one
    vertex, the extraction returns exactly the directed edges whose
    undirected key occurs once, in polygon iteration order; each is the
    first occurrence of its key; and the bounds are the least and the
    greatest first and second coordinate over all polygon vertices. *)
Theorem boundary_is_single_occurrence_edges :
  forall (polygons : list polygon) (props : PipeTemplateProperties),
    polygons <> [] ->
    Forall (fun p : polygon => p <> []) polygons ->
    num_segments props <> 0%Z ->
    exists uv bd,
      extract_uv_data (Some polygons) props = Py.Ok (uv, bd)
      /\ bd_boundary_edges bd
         = filter (fun e => Nat.eqb (occurrences (edge_sorted e)
                                       (all_edges polygons)) 1)
                  (all_edges polygons)
      /\ (forall e, In e (bd_boundary_edges bd) <->
                    In e (all_edges polygons)
                    /\ occurrences (edge_sorted e) (all_edges polygons) = 1%nat)
      /\ (forall e, In e (bd_boundary_edges bd) ->
                    first_occurrence (edge_sorted e) (all_edges polygons)
                    = Some e)
      /\ (In (bd_min_u bd) (map fst (List.concat polygons))
          /\ In (bd_max_u bd) (map fst (List.concat polygons))
          /\ In (bd_min_v bd) (map snd (List.concat polygons))
          /\ In (bd_max_v bd) (map snd (List.concat polygons)))
      /\ (forall p, In p (List.concat polygons) ->
            bd_min_u bd <= fst p <= bd_max_u bd
            /\ bd_min_v bd <= snd p <= bd_max_v bd).
Proof.
  intros polygons props Hne Hall Hseg.
  pose proof (concat_nonempty polygons Hne Hall) as Hc.
  destruct (extract_uv_data_returns polygons props Hc Hseg)
    as (min_u & max_u & min_v & max_v & d & Emin_u & Emax_u & Emin_v
        & Emax_v & _ & Ex).
  eexists. eexists. split; [exact Ex|]. simpl.
  destruct (min_spec _ _ Emin_u) as [I1 L1].
  destruct (max_spec _ _ Emax_u) as [I2 L2].
  destruct (min_spec _ _ Emin_v) as [I3 L3].
  destruct (max_spec _ _ Emax_v) as [I4 L4].
  split; [reflexivity|]. split; [|split; [|split]].
  - intro e. rewrite filter_In, Nat.eqb_eq. reflexivity.
  - intros e He. apply filter_In in He. destruct He as [He Ho].
    apply Nat.eqb_eq in Ho. now apply single_occurrence_first.
  - auto.
  - intros p Hp. repeat split.
    + apply L1. now apply in_map.
    + apply L2. now apply in_map.
    + apply L3. now apply in_map.
    + apply L4. now apply in_map.
Qed.

Lemma boundary_is_single_occurrence_edges_witness :
  exists uv bd,
    extract_uv_data (Some Scenario.two_quads) Scenario.default_props
    = Py.Ok (uv, bd)
    /\ bd_boundary_edges bd
       = [ ((0, 0), (1, 0)); ((1, 1), (0, 1)); ((0, 1), (0, 0));
           ((1, 0), (2, 0)); ((2, 0), (2, 1)); ((2, 1), (1, 1)) ]
    /\ bd_min_u bd <= 2 <= bd_max_u bd.
Proof.
  destruct (boundary_is_single_occurrence_edges
              Scenario.two_quads Scenario.default_props)
    as (uv & bd & Ex & Hb & _ & _ & _ & Hbox).
  - discriminate.
  - repeat constructor; discriminate.
  - simpl. lia.
  - exists uv, bd. split; [exact Ex|]. split.
    + rewrite Hb. vm_compute. reflexivity.
    + apply (Hbox (2, 0)). simpl. auto 10.
Defined.

(** One segment of a declared bend spans at least a twentieth of a
    degree. *)
Lemma declared_segment_angle (props : PipeTemplateProperties) :
  1 <= bend_angle props -> (1 <= num_segments props <= 20)%Z ->
  1 # 20 <= bend_angle props / inject_Z (num_segments props).
Proof.
  intros Ha [Hn1 Hn2].
  assert (Hq1 : 1 <= inject_Z (num_segments props)).
  { change 1 with (inject_Z 1). rewrite <- Zle_Qle. exact Hn1. }
  assert (Hq2 : inject_Z (num_segments props) <= 20).
  { change 20 with (inject_Z 20). rewrite <- Zle_Qle. exact Hn2. }
  apply Qle_shift_div_l; lra.
Qed.

(** What the wrap adds to the base sizes is bounded below on declared
    values. *)
Lemma wrap_margins (props : PipeTemplateProperties) :
  Limits.declared_range props ->
  Py.math_pi * pipe_od props + 0.6
  <= 2 * Py.math_pi * (pipe_od props / 2 + wrap_thickness props)
     + overlap props
  /\ (pipe_od props * bend_radius_multiplier props)
     * Py.radians (bend_angle props / inject_Z (num_segments props))
     + 0.00008
     <= (pipe_od props * bend_radius_multiplier props + wrap_thickness props)
        * Py.radians (bend_angle props / inject_Z (num_segments props)).
Proof.
  intros (_ & _ & (Ha & _) & Hn & (Ht & _) & (Ho & _)).
  pose proof (declared_segment_angle props Ha Hn) as Hs.
  set (a := bend_angle props / inject_Z (num_segments props)) in *.
  assert (Hpi : 3 <= Py.math_pi) by discriminate.
  set (pi := Py.math_pi) in *.
  set (t := wrap_thickness props) in *.
  split.
  - setoid_replace (2 * pi * (pipe_od props / 2 + t) + overlap props)
      with (pi * pipe_od props + (2 * (pi * t) + overlap props)) by field.
    assert (H : 3 * 0.1 <= pi * t).
    { apply Qmult_le_compat_nonneg; split; try assumption; discriminate. }
    lra.
  - unfold Py.radians. fold pi.
    setoid_replace ((pipe_od props * bend_radius_multiplier props + t)
                    * (a * (pi / 180)))
      with (pipe_od props * bend_radius_multiplier props * (a * (pi / 180))
            + t * (a * (pi / 180))) by ring.
    assert (H1 : (1 # 20) * (3 / 180) <= a * (pi / 180)).
    { apply Qmult_le_compat_nonneg; split; try assumption; discriminate. }
    assert (H2 : 0.1 * ((1 # 20) * (3 / 180)) <= t * (a * (pi / 180))).
    { apply Qmult_le_compat_nonneg; split; try assumption; discriminate. }
    assert (E : 0.00008 <= 0.1 * ((1 # 20) * (3 / 180))) by discriminate.
    lra.
Qed.

(** C7 (amended).  For every specification inside the declared limits of
    the property group (in particular [wrap_thickness >= 0.1]) the wrap
    sizes are strictly above the base sizes, and by a margin: the wrap
    width exceeds the base width by at least 0.6 mm and the wrap height
    the base height by at least 0.00008 mm. *)
Theorem wrap_dominates_base :
  forall props : PipeTemplateProperties,
    Limits.declared_range props ->
    exists d,
      Dimensions.calculate_dimensions props = Py.Ok d
      /\ Dimensions.pipe_circ_mm d < Dimensions.wrap_width d
      /\ Dimensions.pipe_arc_mm d < Dimensions.wrap_arc_length d
      /\ Dimensions.pipe_circ_mm d + 0.6 <= Dimensions.wrap_width d
      /\ Dimensions.pipe_arc_mm d + 0.00008 <= Dimensions.wrap_arc_length d.
Proof.
  intros props Hr.
  destruct (wrap_margins props Hr) as [Hw Hh].
  destruct Hr as (_ & _ & _ & (Hn & _) & _).
  assert (Hn0 : num_segments props <> 0%Z) by lia.
  eexists. split; [exact (calculate_dimensions_value props Hn0)|]. simpl.
  split; [lra|]. split; [lra|]. split; assumption.
Qed.

Lemma default_props_declared : Limits.declared_range Scenario.default_props.
Proof.
  unfold Limits.declared_range. simpl.
  repeat split; try discriminate; try lia.
Qed.

Lemma wrap_dominates_base_witness :
  exists d,
    Dimensions.calculate_dimensions Scenario.default_props = Py.Ok d
    /\ Dimensions.pipe_circ_mm d < Dimensions.wrap_width d
    /\ Dimensions.pipe_arc_mm d < Dimensions.wrap_arc_length d.
Proof.
  destruct (wrap_dominates_base Scenario.default_props default_props_declared)
    as (d & Hd & Hw & Hh & _).
  exists d. auto.
Defined.

(** C7 as stated does not hold in the arithmetic Python uses.  A wrap
    thickness of [1e-15] is positive, and with the other values of
    scenario 1 and no overlap the lines 377-390, evaluated in binary64,
    give a wrap width equal to the base width and a wrap height equal to
    the base height: [76.2 / 2 + 1e-15] rounds to [76.2 / 2]. *)
Lemma wrap_equals_base_in_doubles :
  exists d,
    Double.calculate_dimensions Scenario.thin_wrap = Py.Ok d
    /\ PrimFloat.ltb PrimFloat.zero (Double.wrap_thickness Scenario.thin_wrap)
       = true
    /\ PrimFloat.leb PrimFloat.zero (Double.overlap Scenario.thin_wrap) = true
    /\ PrimFloat.ltb (Double.pipe_circ_mm d) (Double.wrap_width d) = false
    /\ PrimFloat.ltb (Double.pipe_arc_mm d) (Double.wrap_arc_length d) = false
    /\ PrimFloat.eqb (Double.pipe_circ_mm d) (Double.wrap_width d) = true
    /\ PrimFloat.eqb (Double.pipe_arc_mm d) (Double.wrap_arc_length d) = true.
Proof.
  eexists. split; [reflexivity|]. repeat split.
Qed.

End ExtractClaims.

(* ------------------------------------------------------------------ *)
(** ** The outline loops never raise *)

Section OutlineFacts.

Import Outline.

Lemma normalize_value (x lo hi : Py.float) :
  normalize x lo hi = Py.Ok (normalized x lo hi).
Proof.
  unfold normalize, normalized, Py.div.
  destruct (Py.ltb 0 (hi - lo)) eqn:E; [|reflexivity].
  destruct (Py.eqb (hi - lo) 0) eqn:E0; [|reflexivity].
  apply ltb_lt in E. apply eqb_eq in E0. rewrite E0 in E.
  exfalso. exact (Qlt_irrefl _ E).
Qed.

Lemma normalize_edge_value (min_u max_u min_v max_v : Py.float)
  (e : Boundary.edge) :
  normalize_edge min_u max_u min_v max_v e
  = Py.Ok (normalized_edge min_u max_u min_v max_v e).
Proof.
  destruct e as [[u1 v1] [u2 v2]]. unfold normalize_edge, normalized_edge.
  now rewrite !normalize_value.
Qed.

Lemma mapM_ok {A B : Type} (f : A -> Py.result B) (l : list A) :
  (forall a, exists b, f a = Py.Ok b) -> exists bs, Py.mapM f l = Py.Ok bs.
Proof.
  intro H. induction l as [|a l [bs IH]]; simpl; [eauto|].
  destruct (H a) as [b ->]. rewrite IH. eauto.
Qed.

Lemma base_outline_edge_ok min_u max_u min_v max_v base_w base_h tx ty ox oy e :
  exists s, base_outline_edge min_u max_u min_v max_v base_w base_h tx ty ox oy e
            = Py.Ok s.
Proof.
  unfold base_outline_edge. rewrite normalize_edge_value. simpl.
  destruct (normalized_edge _ _ _ _ e) as [[[a b] c] d]. eauto.
Qed.

Lemma wrap_outline_edge_ok min_u max_u min_v max_v wrap_w wrap_h tx ty e :
  exists s, wrap_outline_edge min_u max_u min_v max_v wrap_w wrap_h tx ty e
            = Py.Ok s.
Proof.
  unfold wrap_outline_edge. rewrite normalize_edge_value. simpl.
  destruct (normalized_edge _ _ _ _ e) as [[[a b] c] d]. eauto.
Qed.

Lemma base_outline_edge_clipped_value
  min_u max_u min_v max_v base_w base_h tx ty ox oy xs xe e :
  base_outline_edge_clipped min_u max_u min_v max_v base_w base_h tx ty
    ox oy xs xe e
  = Py.Ok (clipped_line tx ty blue xs xe
             (base_mm base_w base_h ox oy
                (normalized_edge min_u max_u min_v max_v e))).
Proof.
  unfold base_outline_edge_clipped. now rewrite normalize_edge_value.
Qed.

Lemma wrap_outline_edge_clipped_value
  min_u max_u min_v max_v wrap_w wrap_h tx ty xs xe e :
  wrap_outline_edge_clipped min_u max_u min_v max_v wrap_w wrap_h tx ty
    xs xe e
  = Py.Ok (clipped_line tx ty red xs xe
             (wrap_mm wrap_w wrap_h
                (normalized_edge min_u max_u min_v max_v e))).
Proof.
  unfold wrap_outline_edge_clipped. now rewrite normalize_edge_value.
Qed.

Lemma draw_template_ok edges min_u max_u min_v max_v base_w base_h
  wrap_w wrap_h tx ty :
  exists ls, draw_template edges min_u max_u min_v max_v base_w base_h
               wrap_w wrap_h tx ty = Py.Ok ls.
Proof.
  unfold draw_template.
  destruct (mapM_ok (base_outline_edge min_u max_u min_v max_v base_w base_h
                       tx ty ((wrap_w - base_w) / 2) ((wrap_h - base_h) / 2))
              edges) as [b ->].
  { intro e. apply base_outline_edge_ok. }
  destruct (mapM_ok (wrap_outline_edge min_u max_u min_v max_v wrap_w wrap_h
                       tx ty) edges) as [r ->].
  { intro e. apply wrap_outline_edge_ok. }
  simpl. eauto.
Qed.

(** The strokes of a clipped section: the clipped lines of the edges,
    blue loop first. *)
Lemma draw_section_value edges min_u max_u min_v max_v base_w base_h
  wrap_w wrap_h tx ty xs xe :
  draw_section edges min_u max_u min_v max_v base_w base_h wrap_w wrap_h
    tx ty xs xe
  = Py.Ok
      (drawn (map (fun e =>
                     clipped_line tx ty blue xs xe
                       (base_mm base_w base_h ((wrap_w - base_w) / 2)
                          ((wrap_h - base_h) / 2)
                          (normalized_edge min_u max_u min_v max_v e)))
                  edges)
       ++ drawn (map (fun e =>
                        clipped_line tx ty red xs xe
                          (wrap_mm wrap_w wrap_h
                             (normalized_edge min_u max_u min_v max_v e)))
                     edges))%list.
Proof.
  unfold draw_section.
  rewrite (mapM_total _ _ edges
             (fun e _ => base_outline_edge_clipped_value
                           min_u max_u min_v max_v base_w base_h tx ty
                           ((wrap_w - base_w) / 2) ((wrap_h - base_h) / 2)
                           xs xe e)).
  rewrite (mapM_total _ _ edges
             (fun e _ => wrap_outline_edge_clipped_value
                           min_u max_u min_v max_v wrap_w wrap_h tx ty
                           xs xe e)).
  reflexivity.
Qed.

Lemma clipped_line_eq tx ty c xs xe (p : Py.float * Py.float * Py.float * Py.float) :
  clipped_line tx ty c xs xe p
  = if clipped xs xe p then Some (section_line tx ty c xs p) else None.
Proof. destruct p as [[[x1 y1] x2] y2]. reflexivity. Qed.

(** A loop that draws under a condition leaves the strokes of the items
    that meet it, in order. *)
Lemma drawn_filter {A : Type} (keep : A -> bool) (g : A -> line) (l : list A) :
  drawn (map (fun a => if keep a then Some (g a) else None) l)
  = map g (filter keep l).
Proof.
  induction l as [|a l IH]; [reflexivity|].
  unfold drawn in *. simpl. destruct (keep a); simpl; now rewrite IH.
Qed.

(** The strokes of a clipped section, edge by edge. *)
Lemma draw_section_strokes edges min_u max_u min_v max_v base_w base_h
  wrap_w wrap_h tx ty xs xe :
  let base_pt e :=
    base_mm base_w base_h ((wrap_w - base_w) / 2) ((wrap_h - base_h) / 2)
      (normalized_edge min_u max_u min_v max_v e) in
  let wrap_pt e :=
    wrap_mm wrap_w wrap_h (normalized_edge min_u max_u min_v max_v e) in
  draw_section edges min_u max_u min_v max_v base_w base_h wrap_w wrap_h
    tx ty xs xe
  = Py.Ok
      (map (fun e => section_line tx ty blue xs (base_pt e))
           (filter (fun e => clipped xs xe (base_pt e)) edges)
       ++ map (fun e => section_line tx ty red xs (wrap_pt e))
              (filter (fun e => clipped xs xe (wrap_pt e)) edges))%list.
Proof.
  intros base_pt wrap_pt. rewrite draw_section_value.
  rewrite <- !drawn_filter. f_equal. f_equal.
  - f_equal. apply map_ext. intro e. apply clipped_line_eq.
  - f_equal. apply map_ext. intro e. apply clipped_line_eq.
Qed.

Lemma _generate_single_page_ok edges min_u max_u min_v max_v base_w base_h
  wrap_w wrap_h page_w margin :
  exists pages, _generate_single_page edges min_u max_u min_v max_v
                  base_w base_h wrap_w wrap_h page_w margin = Py.Ok pages.
Proof.
  unfold _generate_single_page. cbv zeta.
  match goal with
  | |- context [Py.mapM ?f ?l] => destruct (mapM_ok f l) as [ls ->]
  end.
  - intros [y lbl]. apply draw_template_ok.
  - simpl. eauto.
Qed.

Lemma _generate_single_multipage_ok edges min_u max_u min_v max_v
  base_w base_h wrap_w wrap_h page_w page_h :
  exists pages, _generate_single_multipage edges min_u max_u min_v max_v
                  base_w base_h wrap_w wrap_h page_w page_h = Py.Ok pages.
Proof.
  unfold _generate_single_multipage, _draw_single_template_page.
  destruct (draw_template_ok edges min_u max_u min_v max_v base_w base_h
              wrap_w wrap_h ((page_w - wrap_w * Reportlab.mm) / 2)
              ((page_h - wrap_h * Reportlab.mm) / 2 - 10 * Reportlab.mm))
    as [ls ->].
  simpl. eauto.
Qed.

Lemma _generate_split_same_page_ok edges min_u max_u min_v max_v
  base_w base_h wrap_w wrap_h page_w margin split_overlap :
  exists pages, _generate_split_same_page edges min_u max_u min_v max_v
                  base_w base_h wrap_w wrap_h page_w margin split_overlap
                = Py.Ok pages.
Proof.
  unfold _generate_split_same_page. cbv zeta.
  match goal with
  | |- context [Py.mapM ?f ?l] => destruct (mapM_ok f l) as [ls ->]
  end.
  - intros [y lbl]. destruct (half_section wrap_w split_overlap lbl) as [[il a] b].
    unfold _draw_split_half. rewrite draw_section_value. eauto.
  - simpl. eauto.
Qed.

Lemma _generate_split_separate_pages_ok edges min_u max_u min_v max_v
  base_w base_h wrap_w wrap_h page_w page_h split_overlap :
  exists pages, _generate_split_separate_pages edges min_u max_u min_v max_v
                  base_w base_h wrap_w wrap_h page_w page_h split_overlap
                = Py.Ok pages.
Proof.
  unfold _generate_split_separate_pages. cbv zeta.
  apply mapM_ok. intros [[[lbl il] a] b].
  unfold _draw_split_page. rewrite draw_section_value. eauto.
Qed.

End OutlineFacts.

(* ------------------------------------------------------------------ *)
(** ** Claims about the outline loops *)

Section OutlineClaims.

Import Outline.

Lemma clip_to_section_iff (x_start x_end x1 x2 : Py.float) :
  clip_to_section x_start x_end x1 x2 = true
  <-> in_section x_start x_end x1 x2.
Proof.
  unfold clip_to_section, in_section.
  rewrite !orb_true_iff, !andb_true_iff, !leb_le, !ltb_lt. tauto.
Qed.

Lemma clipped_iff xs xe (p : Py.float * Py.float * Py.float * Py.float) :
  clipped xs xe p = true
  <-> in_section xs xe (fst (fst (fst p))) (snd (fst p)).
Proof. destruct p as [[[x1 y1] x2] y2]. apply clip_to_section_iff. Qed.

(** C6.  What a split section puts on the page.  [_draw_split_half] and
    [_draw_split_page] return, for every list of edges, and the outline
    strokes they have drawn are the blue strokes of the edges whose
    rescaled base end points meet the clip condition followed by the red
    strokes of the edges whose rescaled wrap end points meet it, one
    stroke per such edge and none for any other edge; and the
    clip condition on end points [x1], [x2] holds if and only if [x1] is
    in [[x_start, x_end]], or [x2] is, or the two lie strictly outside
    the window on opposite sides.  In particular an edge that spans the
    whole window is drawn. *)
Theorem clip_rule_of_split_sections :
  forall (boundary_edges : list Boundary.edge)
         (min_u max_u min_v max_v base_w base_h wrap_w wrap_h : Py.float)
         (page_w page_h : Py.float)
         (x_start x_end center_w split_overlap : Py.float)
         (template_y half_width : Py.float) (label : string)
         (is_left : bool),
    let base_pt e :=
      base_mm base_w base_h ((wrap_w - base_w) / 2) ((wrap_h - base_h) / 2)
        (normalized_edge min_u max_u min_v max_v e) in
    let wrap_pt e :=
      wrap_mm wrap_w wrap_h (normalized_edge min_u max_u min_v max_v e) in
    let x1 (p : Py.float * Py.float * Py.float * Py.float) :=
      fst (fst (fst p)) in
    let x2 (p : Py.float * Py.float * Py.float * Py.float) :=
      snd (fst p) in
    let section template_x template_y :=
      (map (fun e => section_line template_x template_y blue x_start
                       (base_pt e))
           (filter (fun e => clipped x_start x_end (base_pt e))
                   boundary_edges)
       ++ map (fun e => section_line template_x template_y red x_start
                          (wrap_pt e))
              (filter (fun e => clipped x_start x_end (wrap_pt e))
                      boundary_edges))%list in
    _draw_split_half boundary_edges min_u max_u min_v max_v base_w base_h
      wrap_w wrap_h page_w x_start x_end center_w split_overlap template_y
      label half_width is_left
    = Py.Ok (section ((page_w - half_width * Reportlab.mm) / 2) template_y)
    /\ _draw_split_page boundary_edges min_u max_u min_v max_v base_w base_h
         wrap_w wrap_h page_w page_h x_start x_end center_w split_overlap
         label is_left
       = Py.Ok (section ((page_w - (x_end - x_start) * Reportlab.mm) / 2)
                        (page_h / 2 - (wrap_h * Reportlab.mm) / 2))
    /\ (forall tx ty e,
          In e boundary_edges ->
          (in_section x_start x_end (x1 (base_pt e)) (x2 (base_pt e)) ->
           In (section_line tx ty blue x_start (base_pt e)) (section tx ty))
          /\ (in_section x_start x_end (x1 (wrap_pt e)) (x2 (wrap_pt e)) ->
              In (section_line tx ty red x_start (wrap_pt e))
                 (section tx ty)))
    /\ (forall tx ty s,
          In s (section tx ty) ->
          exists e,
            In e boundary_edges
            /\ ((s = section_line tx ty blue x_start (base_pt e)
                 /\ in_section x_start x_end (x1 (base_pt e))
                      (x2 (base_pt e)))
                \/ (s = section_line tx ty red x_start (wrap_pt e)
                    /\ in_section x_start x_end (x1 (wrap_pt e))
                         (x2 (wrap_pt e)))))
    /\ (forall tx ty,
          (forall e, In e boundary_edges ->
             ~ in_section x_start x_end (x1 (base_pt e)) (x2 (base_pt e))
             /\ ~ in_section x_start x_end (x1 (wrap_pt e))
                    (x2 (wrap_pt e))) ->
          section tx ty = [])
    /\ (forall a b,
          clip_to_section x_start x_end a b = true
          <-> in_section x_start x_end a b)
    /\ (forall a b,
          a < x_start -> x_end < b ->
          clip_to_section x_start x_end a b = true
          /\ clip_to_section x_start x_end b a = true).
Proof.
  intros edges min_u max_u min_v max_v base_w base_h wrap_w wrap_h
         page_w page_h xs xe cw so ty0 hw label il base_pt wrap_pt x1 x2
         section.
  split; [|split; [|split; [|split; [|split; [|split]]]]].
  - unfold _draw_split_half. apply draw_section_strokes.
  - unfold _draw_split_page. apply draw_section_strokes.
  - intros tx ty e He. split; intro H; apply in_or_app; [left | right];
      apply in_map_iff; exists e; (split; [reflexivity|]);
      apply filter_In; (split; [exact He | now apply clipped_iff]).
  - intros tx ty s Hs. apply in_app_or in Hs.
    destruct Hs as [Hs|Hs]; apply in_map_iff in Hs;
      destruct Hs as (e & <- & He); apply filter_In in He;
      destruct He as [He Hc]; apply clipped_iff in Hc;
      exists e; (split; [exact He|]); [left | right]; split;
      (reflexivity || exact Hc).
  - intros tx ty Hnone. subst section. cbv beta.
    assert (F : forall pt : Boundary.edge
                              -> Py.float * Py.float * Py.float * Py.float,
               (forall e, In e edges ->
                  ~ in_section xs xe (x1 (pt e)) (x2 (pt e))) ->
               filter (fun e => clipped xs xe (pt e)) edges = []).
    { intros pt Hpt.
      destruct (filter (fun e => clipped xs xe (pt e)) edges) as [|e l] eqn:E;
        [reflexivity|].
      assert (Hin : In e (filter (fun e => clipped xs xe (pt e)) edges))
        by (rewrite E; now left).
      apply filter_In in Hin. destruct Hin as [He Hc].
      apply clipped_iff in Hc. destruct (Hpt e He Hc). }
    rewrite (F base_pt), (F wrap_pt); [reflexivity| |];
      intros e He; destruct (Hnone e He); assumption.
  - intros. apply clip_to_section_iff.
  - intros a b H1 H2. rewrite !clip_to_section_iff.
    unfold in_section. tauto.
Qed.

(** Scenario 4 on a page: a section for the window [[0.3, 0.4]] of a wrap
    1 mm wide, and one edge that runs from 0.1 to 0.9.  The page holds
    its blue and its red stroke. *)
Lemma clip_rule_of_split_sections_witness :
  exists b r,
    _draw_split_page [((0, 0.1), (1, 0.9))] 0 1 0 1 1 1 1 1
      Layout.page_w Layout.page_h 0.3 0.4 0.5 0.05 "LEFT HALF (1 of 2)" true
    = Py.Ok [b; r]
    /\ stroke b = blue /\ stroke r = red
    /\ clip_to_section 0.3 0.4 0.1 0.9 = true.
Proof.
  destruct (clip_rule_of_split_sections [((0, 0.1), (1, 0.9))] 0 1 0 1
              1 1 1 1 Layout.page_w Layout.page_h 0.3 0.4 0.5 0.05 0 0
              "LEFT HALF (1 of 2)" true)
    as (_ & Hpage & _ & _ & _ & _ & Hspan).
  do 2 eexists. split; [rewrite Hpage; reflexivity|].
  split; [reflexivity|]. split; [reflexivity|].
  apply (Hspan 0.1 0.9); reflexivity.
Defined.

(** C10.  Normalisation is total.  [normalize] always returns; when the
    range is degenerate ([hi == lo]) it returns 0; and each of the four
    page generators returns for every list of edges and every bounding
    box, so no outline loop divides by a zero range. *)
Theorem normalization_total :
  forall (boundary_edges : list Boundary.edge)
         (min_u max_u min_v max_v base_w base_h wrap_w wrap_h : Py.float)
         (page_w page_h margin split_overlap : Py.float),
    (forall x lo hi, normalize x lo hi = Py.Ok (normalized x lo hi))
    /\ (forall x lo hi, hi == lo -> normalize x lo hi = Py.Ok 0)
    /\ (forall e, exists n, normalize_edge min_u max_u min_v max_v e = Py.Ok n)
    /\ (exists pages,
          _generate_single_page boundary_edges min_u max_u min_v max_v
            base_w base_h wrap_w wrap_h page_w margin = Py.Ok pages)
    /\ (exists pages,
          _generate_single_multipage boundary_edges min_u max_u min_v max_v
            base_w base_h wrap_w wrap_h page_w page_h = Py.Ok pages)
    /\ (exists pages,
          _generate_split_same_page boundary_edges min_u max_u min_v max_v
            base_w base_h wrap_w wrap_h page_w margin split_overlap
          = Py.Ok pages)
    /\ (exists pages,
          _generate_split_separate_pages boundary_edges min_u max_u min_v
            max_v base_w base_h wrap_w wrap_h page_w page_h split_overlap
          = Py.Ok pages).
Proof.
  intros. split; [|split; [|split; [|split; [|split; [|split]]]]].
  - apply normalize_value.
  - intros x lo hi H. rewrite normalize_value. unfold normalized.
    destruct (Py.ltb 0 (hi - lo)) eqn:E; [|reflexivity].
    apply ltb_lt in E. rewrite H in E. exfalso.
    assert (E0 : lo - lo == 0) by ring. rewrite E0 in E.
    exact (Qlt_irrefl _ E).
  - intro e. rewrite normalize_edge_value. eauto.
  - apply _generate_single_page_ok.
  - apply _generate_single_multipage_ok.
  - apply _generate_split_same_page_ok.
  - apply _generate_split_separate_pages_ok.
Qed.

(** A bounding box that is degenerate along the first axis. *)
Lemma normalization_total_witness :
  normalize 0.25 0.25 0.25 = Py.Ok 0
  /\ exists n, normalize_edge 0.25 0.25 0 1 ((0.25, 0), (0.25, 1)) = Py.Ok n.
Proof.
  destruct (normalization_total [((0.25, 0), (0.25, 1))]
              0.25 0.25 0 1 1 1 1 1 1 1 1 1)
    as (_ & Hdeg & Hedge & _).
  split.
  - apply Hdeg. reflexivity.
  - apply Hedge.
Defined.

End OutlineClaims.

(* ------------------------------------------------------------------ *)
(** ** Claims about the layout decision *)

Section LayoutClaims.

Import Layout.

(** The printable area of the landscape A4 page, in millimetres. *)
Lemma printable_area :
  available_width / Reportlab.mm == 285
  /\ available_height / Reportlab.mm == 148.
Proof. split; reflexivity. Qed.

(** Comparing heights in points or in millimetres is the same. *)
Lemma height_test_in_mm (wrap_h : Py.float) :
  Py.leb (2 * wrap_h * Reportlab.mm + 15 * Reportlab.mm) available_height
  = Py.leb (2 * wrap_h + 15) (available_height / Reportlab.mm).
Proof.
  apply eq_true_iff_eq. rewrite !leb_le.
  assert (E1 : Reportlab.mm == 360 # 127) by reflexivity.
  assert (E2 : available_height == 148 * (360 # 127)) by reflexivity.
  assert (E3 : available_height / Reportlab.mm == 148) by reflexivity.
  rewrite E3, E2, E1. split; intro H; lra.
Qed.

(** The [if] of [generate_pdf] always returns, and the generator it has
    called is the layout planner's choice. *)
Lemma dispatch_returns (uv_data : Boundary.uv_data)
  (boundary_data : Boundary.boundary_data) :
  exists pages,
    dispatch uv_data boundary_data
    = Py.Ok (select_mode (Boundary.ud_wrap_width uv_data)
               (Boundary.ud_wrap_arc_length uv_data)
               (available_width / Reportlab.mm)
               (available_height / Reportlab.mm)
               15 split_overlap,
             pages).
Proof.
  revert uv_data boundary_data.
  intros uv bd. unfold dispatch, select_mode. cbv zeta.
  rewrite height_test_in_mm. fold (needs_width_split (Boundary.ud_wrap_width uv)).
  destruct (needs_width_split (Boundary.ud_wrap_width uv));
    destruct (Py.leb _ (available_height / Reportlab.mm)).
  - destruct (_generate_split_same_page_ok
                (Boundary.bd_boundary_edges bd) (Boundary.bd_min_u bd)
                (Boundary.bd_max_u bd) (Boundary.bd_min_v bd)
                (Boundary.bd_max_v bd) (Boundary.ud_pipe_circ_mm uv)
                (Boundary.ud_pipe_arc_mm uv) (Boundary.ud_wrap_width uv)
                (Boundary.ud_wrap_arc_length uv) page_w margin split_overlap)
      as [pages ->].
    simpl. eauto.
  - destruct (_generate_split_separate_pages_ok
                (Boundary.bd_boundary_edges bd) (Boundary.bd_min_u bd)
                (Boundary.bd_max_u bd) (Boundary.bd_min_v bd)
                (Boundary.bd_max_v bd) (Boundary.ud_pipe_circ_mm uv)
                (Boundary.ud_pipe_arc_mm uv) (Boundary.ud_wrap_width uv)
                (Boundary.ud_wrap_arc_length uv) page_w page_h split_overlap)
      as [pages ->].
    simpl. eauto.
  - destruct (_generate_single_page_ok
                (Boundary.bd_boundary_edges bd) (Boundary.bd_min_u bd)
                (Boundary.bd_max_u bd) (Boundary.bd_min_v bd)
                (Boundary.bd_max_v bd) (Boundary.ud_pipe_circ_mm uv)
                (Boundary.ud_pipe_arc_mm uv) (Boundary.ud_wrap_width uv)
                (Boundary.ud_wrap_arc_length uv) page_w margin)
      as [pages ->].
    simpl. eauto.
  - destruct (_generate_single_multipage_ok
                (Boundary.bd_boundary_edges bd) (Boundary.bd_min_u bd)
                (Boundary.bd_max_u bd) (Boundary.bd_min_v bd)
                (Boundary.bd_max_v bd) (Boundary.ud_pipe_circ_mm uv)
                (Boundary.ud_pipe_arc_mm uv) (Boundary.ud_wrap_width uv)
                (Boundary.ud_wrap_arc_length uv) page_w page_h)
      as [pages ->].
    simpl. eauto.
Qed.

Lemma div_by_zero (a : Py.float) :
  Py.div a (inject_Z 0) = Py.Raise Py.ZeroDivisionError.
Proof. reflexivity. Qed.

(** What [generate_pdf] has done when it returns. *)
Lemma generate_pdf_ok_inv (h : Host.t) (fs : Host.FS h) props uv_data
  boundary_data mode filename pages reports fs' :
  Operator.generate_pdf h fs props uv_data boundary_data
  = (Py.Ok (mode, filename, pages), reports, fs') ->
  Host.reportlab_installed h = true
  /\ num_segments props <> 0%Z
  /\ filename = Filename.filename props
  /\ dispatch uv_data boundary_data = Py.Ok (mode, pages)
  /\ exists dir created fs1,
       Folder._ensure_output_directory h fs (output_folder props)
       = (Py.Ok dir, created, fs1)
       /\ Host.save h fs1 (Host.join h dir filename) pages = (None, fs').
Proof.
  unfold Operator.generate_pdf.
  destruct (Host.reportlab_installed h); [|discriminate]. cbn [negb].
  destruct (Z.eq_dec (num_segments props) 0) as [Ez|Ez].
  { rewrite Ez, div_by_zero. discriminate. }
  rewrite (div_by_int _ _ Ez).
  destruct (Folder._ensure_output_directory h fs (output_folder props))
    as [[dir created] fs1].
  destruct dir as [dir|e]; [|discriminate].
  destruct (dispatch uv_data boundary_data) as [[m pg]|e]; [|discriminate].
  destruct (Host.save h fs1 _ pg) as [[e|] fs2] eqn:Es; [discriminate|].
  intro H. inversion H; subst.
  split; [reflexivity|]. split; [exact Ez|]. split; [reflexivity|].
  split; [reflexivity|]. exists dir, created, fs1.
  split; [reflexivity | exact Es].
Qed.

(** When [generate_pdf] returns. *)
Lemma generate_pdf_returns (h : Host.t) (fs : Host.FS h) props uv_data
  boundary_data mode pages dir created fs1 fs2 :
  Host.reportlab_installed h = true ->
  num_segments props <> 0%Z ->
  Folder._ensure_output_directory h fs (output_folder props)
  = (Py.Ok dir, created, fs1) ->
  dispatch uv_data boundary_data = Py.Ok (mode, pages) ->
  Host.save h fs1 (Host.join h dir (Filename.filename props)) pages
  = (None, fs2) ->
  exists reports,
    Operator.generate_pdf h fs props uv_data boundary_data
    = (Py.Ok (mode, Filename.filename props, pages), reports, fs2).
Proof.
  intros Hlab Hn He Hd Hs. unfold Operator.generate_pdf.
  rewrite Hlab. cbn [negb]. rewrite (div_by_int _ _ Hn), He, Hd, Hs.
  eauto.
Qed.

(** C4.  The generator [generate_pdf] takes is the layout planner's
    choice for (wrap_width, wrap_height, printable_width,
    printable_height, spacing, split_overlap), where the printable sizes
    are the available sizes in millimetres (285 and 148), the spacing is
    15 and the overlap 20.  The [if] that makes the choice always returns
    with it; whenever [generate_pdf] returns it has taken that generator;
    and [generate_pdf] does return, with that generator, when reportlab
    is installed, the segment count is not zero, the output directory is
    ensured and the canvas saved. *)
Theorem layout_mode_is_select_mode :
  forall (h : Host.t) (fs : Host.FS h) (props : PipeTemplateProperties)
         (uv_data : Boundary.uv_data)
         (boundary_data : Boundary.boundary_data),
    let mode :=
      select_mode (Boundary.ud_wrap_width uv_data)
        (Boundary.ud_wrap_arc_length uv_data)
        (available_width / Reportlab.mm)
        (available_height / Reportlab.mm)
        15 split_overlap in
    (available_width / Reportlab.mm == 285
     /\ available_height / Reportlab.mm == 148)
    /\ (exists pages, dispatch uv_data boundary_data = Py.Ok (mode, pages))
    /\ (forall m filename pages reports fs',
          Operator.generate_pdf h fs props uv_data boundary_data
          = (Py.Ok (m, filename, pages), reports, fs') ->
          m = mode)
    /\ (forall dir created fs1 pages fs2,
          Host.reportlab_installed h = true ->
          num_segments props <> 0%Z ->
          Folder._ensure_output_directory h fs (output_folder props)
          = (Py.Ok dir, created, fs1) ->
          dispatch uv_data boundary_data = Py.Ok (mode, pages) ->
          Host.save h fs1 (Host.join h dir (Filename.filename props)) pages
          = (None, fs2) ->
          exists reports,
            Operator.generate_pdf h fs props uv_data boundary_data
            = (Py.Ok (mode, Filename.filename props, pages), reports, fs2)).
Proof.
  intros h fs props uv bd mode.
  destruct (dispatch_returns uv bd) as [pg Hpg]. fold mode in Hpg.
  split; [exact printable_area|]. split; [eauto|]. split.
  - intros m f pages reports fs' H.
    apply generate_pdf_ok_inv in H. destruct H as (_ & _ & _ & Hd & _).
    rewrite Hpg in Hd. now inversion Hd.
  - intros dir created fs1 pages fs2 Hlab Hn He Hd Hs.
    exact (generate_pdf_returns h fs props uv bd mode pages dir created
             fs1 fs2 Hlab Hn He Hd Hs).
Qed.

(** Scenario 3 on the sample host: a wrap 300 mm wide and 38 mm high is
    split, both halves on one page. *)
Lemma layout_mode_is_select_mode_witness :
  exists pages reports fs',
    Operator.generate_pdf Scenario.host Scenario.disk Scenario.default_props
      Scenario.wide_uv_data Scenario.square_boundary
    = (Py.Ok (SPLIT_SAME_PAGE,
              "exhaust_wrap_OD76.2_CLR1.5_S5_O10.0_MT6.15.pdf"%string,
              pages),
       reports, fs').
Proof.
  destruct (layout_mode_is_select_mode Scenario.host Scenario.disk
              Scenario.default_props Scenario.wide_uv_data
              Scenario.square_boundary) as (_ & [pages Hd] & _ & Hret).
  exists pages.
  destruct (Hret "./Pipe flat templates"%string false Scenario.disk pages
              Scenario.disk) as [reports Hg].
  - reflexivity.
  - simpl. lia.
  - reflexivity.
  - exact Hd.
  - reflexivity.
  - exists reports, Scenario.disk. exact Hg.
Defined.






End LayoutClaims.

(* ------------------------------------------------------------------ *)
(** ** Claims about the seam selector *)

Section SeamClaims.

Import Seam.

Variable sqrt : Py.float -> Py.float.

Lemma min_radius_from (vs : list BMVert) (r0 : Py.float) :
  exists m,
    fold_left (fun min_radius v =>
                 let radius := planar_radius sqrt v in
                 if lt_e radius min_radius then Fin radius else min_radius)
              vs (Fin r0) = Fin m
    /\ (m = r0 \/ exists v, In v vs /\ planar_radius sqrt v = m)
    /\ m <= r0
    /\ forall v, In v vs -> m <= planar_radius sqrt v.
Proof.
  revert r0. induction vs as [|v vs IH]; intro r0; simpl.
  - exists r0. repeat split; [now left | apply Qle_refl | intros v []].
  - destruct (Py.ltb (planar_radius sqrt v) r0) eqn:E.
    + destruct (IH (planar_radius sqrt v)) as (m & Hm & Hin & Hle & Hall).
      exists m. split; [exact Hm|]. apply ltb_lt in E. repeat split.
      * right. destruct Hin as [->|[w [Hw Hr]]]; [exists v | exists w]; auto.
      * apply Qle_trans with (planar_radius sqrt v); [exact Hle|].
        now apply Qlt_le_weak.
      * intros w [<-|Hw]; [exact Hle | now apply Hall].
    + destruct (IH r0) as (m & Hm & Hin & Hle & Hall).
      exists m. split; [exact Hm|]. apply ltb_ge in E. repeat split.
      * destruct Hin as [->|[w [Hw Hr]]]; [now left | right; exists w; auto].
      * exact Hle.
      * intros w [<-|Hw]; [now apply Qle_trans with r0 | now apply Hall].
Qed.

Lemma min_radius_global (vs : list BMVert) :
  vs <> [] ->
  exists m, min_radius sqrt vs = Fin m /\ global_min_radius sqrt vs m.
Proof.
  destruct vs as [|v vs]; [congruence|]. intros _.
  unfold min_radius. simpl.
  destruct (min_radius_from vs (planar_radius sqrt v))
    as (m & Hm & Hin & Hle & Hall).
  exists m. split; [exact Hm|]. split.
  - destruct Hin as [->|[w [Hw Hr]]]; [exists v | exists w]; simpl; auto.
  - intros w [<-|Hw]; [exact Hle | now apply Hall].
Qed.

Lemma mark_edge_cleared (m : Py.float) (vv : BMVert * BMVert) :
  verts (mark_edge sqrt (Fin m) {| verts := vv; seam := false |}) = vv
  /\ (seam (mark_edge sqrt (Fin m) {| verts := vv; seam := false |}) = true
      <-> (near_bend_plane (fst vv) /\ near_bend_plane (snd vv))
          /\ (near_radius sqrt m (fst vv) /\ near_radius sqrt m (snd vv))).
Proof.
  destruct vv as [v1 v2].
  unfold mark_edge, abs_diff_lt, near_bend_plane, near_radius.
  cbn [verts seam fst snd]. rewrite <- !ltb_lt.
  destruct (Py.ltb (Qabs (co_z v1)) z_tolerance);
    destruct (Py.ltb (Qabs (co_z v2)) z_tolerance);
    destruct (Py.ltb (Qabs (planar_radius sqrt v1 - m)) radius_tolerance);
    destruct (Py.ltb (Qabs (planar_radius sqrt v2 - m)) radius_tolerance);
    cbn [andb verts seam]; (split; [reflexivity|]); split; intro H;
    try discriminate; try tauto;
    try (destruct H as [[? ?] [? ?]]; discriminate).
Qed.

(** C8.  For every mesh with at least one vertex the loop finds the least
    planar radius over all vertices; marking keeps the edges and their
    end points, and an edge comes out as a seam edge if and only if both
    end points have [|z|] below the tolerance 0.5 and both have a planar
    radius less than 1.0 away from that minimum. *)
Theorem seam_iff_inner_generatrix :
  forall bm : BMesh,
    bm_verts bm <> [] ->
    exists m,
      min_radius sqrt (bm_verts bm) = Fin m
      /\ global_min_radius sqrt (bm_verts bm) m
      /\ bm_verts (mark_seams sqrt bm) = bm_verts bm
      /\ map verts (bm_edges (mark_seams sqrt bm)) = map verts (bm_edges bm)
      /\ forall edge,
           In edge (bm_edges (mark_seams sqrt bm)) ->
           (seam edge = true
            <-> (near_bend_plane (fst (verts edge))
                 /\ near_bend_plane (snd (verts edge)))
                /\ (near_radius sqrt m (fst (verts edge))
                    /\ near_radius sqrt m (snd (verts edge)))).
Proof.
  intros bm Hne.
  destruct (min_radius_global (bm_verts bm) Hne) as (m & Hm & Hg).
  exists m. split; [exact Hm|]. split; [exact Hg|]. split; [reflexivity|].
  unfold mark_seams. simpl. rewrite Hm. split.
  - rewrite !map_map. apply map_ext. intro e.
    apply (proj1 (mark_edge_cleared m (verts e))).
  - intros edge Hin. rewrite map_map in Hin. apply in_map_iff in Hin.
    destruct Hin as [e [<- _]].
    destruct (mark_edge_cleared m (verts e)) as [Hv Hs].
    simpl in Hv, Hs |- *. rewrite Hv. exact Hs.
Qed.

End SeamClaims.

(** On [Scenario.strip] the minimum radius is 76.2; the inner edge becomes
    the seam and the stale seam flag of the radial edge is cleared. *)
Lemma seam_iff_inner_generatrix_witness :
  exists m,
    Seam.min_radius Seam.sqrt6 (Seam.bm_verts Scenario.strip) = Seam.Fin m
    /\ m == 76.2
    /\ map Seam.seam (Seam.bm_edges (Seam.mark_seams Seam.sqrt6 Scenario.strip))
       = [true; false].
Proof.
  assert (H : Seam.bm_verts Scenario.strip <> []) by discriminate.
  destruct (seam_iff_inner_generatrix Seam.sqrt6 Scenario.strip H)
    as (m & Hm & _).
  exists m. split; [exact Hm|]. split.
  - vm_compute in Hm. injection Hm as <-. reflexivity.
  - vm_compute. reflexivity.
Defined.

(* ------------------------------------------------------------------ *)
(** ** Claims about the file name *)

Section FilenameFacts.

Import Filename.
Open Scope string_scope.

Lemma append_assoc (s1 s2 s3 : string) : (s1 ++ s2) ++ s3 = s1 ++ (s2 ++ s3).
Proof.
  induction s1 as [|c s1 IH]; simpl; [reflexivity | now rewrite IH].
Qed.

Lemma append_inj_l (s t1 t2 : string) : s ++ t1 = s ++ t2 -> t1 = t2.
Proof.
  induction s as [|c s IH]; simpl; intro H; [exact H|].
  injection H as H. now apply IH.
Qed.

(** A run of number characters ends at the first other character. *)
Lemma num_prefix_unique (s1 s2 : string) (c1 c2 : ascii) (t1 t2 : string) :
  all_num s1 -> all_num s2 -> num_char c1 = false -> num_char c2 = false ->
  s1 ++ String c1 t1 = s2 ++ String c2 t2 ->
  s1 = s2 /\ String c1 t1 = String c2 t2.
Proof.
  revert s2. induction s1 as [|a s1 IH]; intros [|b s2] H1 H2 Hc1 Hc2 H;
    simpl in *.
  - auto.
  - injection H as -> _. destruct H2 as [H2 _]. congruence.
  - injection H as <- _. destruct H1 as [H1 _]. congruence.
  - injection H as -> H. destruct H1 as [_ H1]. destruct H2 as [_ H2].
    destruct (IH s2 H1 H2 Hc1 Hc2 H) as [-> E]. auto.
Qed.

Lemma same_length_split (s1 s2 t1 t2 : string) :
  String.length s1 = String.length s2 -> s1 ++ t1 = s2 ++ t2 ->
  s1 = s2 /\ t1 = t2.
Proof.
  revert s2. induction s1 as [|a s1 IH]; intros [|b s2] Hl H; simpl in *;
    try discriminate.
  - auto.
  - injection H as -> H. injection Hl as Hl.
    destruct (IH s2 Hl H) as [-> ->]. auto.
Qed.

Lemma append_length (s t : string) :
  String.length (s ++ t) = (String.length s + String.length t)%nat.
Proof.
  induction s as [|c s IH]; simpl; [reflexivity | now rewrite IH].
Qed.

Lemma fixed_digits_length (d : nat) (n : Z) :
  String.length (fixed_digits d n) = d.
Proof.
  revert n. induction d as [|d IH]; intro n; simpl; [reflexivity|].
  rewrite append_length, IH. simpl. lia.
Qed.

Lemma digit_char_inj (r r' : Z) :
  (0 <= r < 10)%Z -> (0 <= r' < 10)%Z ->
  digit_char r = digit_char r' -> r = r'.
Proof.
  intros Hr Hr' H. unfold digit_char in H.
  apply (f_equal nat_of_ascii) in H.
  rewrite !nat_ascii_embedding in H by lia. lia.
Qed.

Lemma fixed_digits_inj (d : nat) (n n' : Z) :
  fixed_digits d n = fixed_digits d n' ->
  (n mod 10 ^ Z.of_nat d = n' mod 10 ^ Z.of_nat d)%Z.
Proof.
  revert n n'. induction d as [|d IH]; intros n n' H.
  - simpl. now rewrite !Z.mod_1_r.
  - simpl in H. apply same_length_split in H;
      [|now rewrite !fixed_digits_length].
    destruct H as [H1 H2]. injection H2 as H2.
    apply digit_char_inj in H2; try (apply Z.mod_pos_bound; lia).
    apply IH in H1.
    rewrite Nat2Z.inj_succ, Z.pow_succ_r by lia.
    rewrite !(Z.rem_mul_r _ 10) by lia. now rewrite H1, H2.
Qed.

Lemma string_of_uint_all_num (d : Decimal.uint) :
  all_num (NilEmpty.string_of_uint d).
Proof.
  induction d; simpl; auto.
Qed.

Lemma str_int_all_num (n : Z) : all_num (str_int n).
Proof.
  unfold str_int. destruct (Z.to_int n); simpl;
    auto using string_of_uint_all_num.
Qed.

Lemma str_int_inj (a b : Z) : str_int a = str_int b -> a = b.
Proof.
  unfold str_int. intro H.
  apply (f_equal NilEmpty.int_of_string) in H.
  rewrite !NilEmpty.isi in H. injection H as H.
  apply (f_equal Z.of_int) in H. now rewrite !DecimalZ.of_to in H.
Qed.

Lemma str_int_split (a b : Z) (c1 c2 : ascii) (t1 t2 : string) :
  num_char c1 = false -> num_char c2 = false ->
  str_int a ++ String c1 t1 = str_int b ++ String c2 t2 ->
  a = b /\ String c1 t1 = String c2 t2.
Proof.
  intros Hc1 Hc2 H.
  destruct (num_prefix_unique _ _ _ _ _ _ (str_int_all_num a)
              (str_int_all_num b) Hc1 Hc2 H) as [E1 E2].
  split; [now apply str_int_inj | exact E2].
Qed.

Lemma format_fixed_nonneg (d : nat) (x : Py.float) :
  (0 <= x)%Q ->
  format_fixed d x
  = str_int (scaled d x / 10 ^ Z.of_nat d)
    ++ String "." (fixed_digits d (scaled d x)).
Proof.
  intro H. unfold format_fixed.
  apply ltb_ge in H. rewrite H. reflexivity.
Qed.

(** A printed number followed by anything determines the scaled value
    and what follows. *)
Lemma format_fixed_split (d : nat) (x y : Py.float) (t1 t2 : string) :
  (0 <= x)%Q -> (0 <= y)%Q ->
  format_fixed d x ++ t1 = format_fixed d y ++ t2 ->
  scaled d x = scaled d y /\ t1 = t2.
Proof.
  intros Hx Hy H. rewrite !format_fixed_nonneg in H by assumption.
  rewrite !append_assoc in H. simpl in H.
  apply str_int_split in H; [|reflexivity|reflexivity].
  destruct H as [Hi H]. injection H as H.
  apply same_length_split in H; [|now rewrite !fixed_digits_length].
  destruct H as [Hf Ht]. split; [|exact Ht].
  apply fixed_digits_inj in Hf.
  assert (Hp : (10 ^ Z.of_nat d <> 0)%Z) by (apply Z.pow_nonzero; lia).
  rewrite (Z.div_mod (scaled d x) _ Hp), (Z.div_mod (scaled d y) _ Hp).
  now rewrite Hi, Hf.
Qed.

End FilenameFacts.

Section FilenameClaims.

Import Filename.

(** C9 as stated fails: a diameter of 100 mm and one of 100.03125 mm are
    both printed as 100.0, so the two specifications share a file name. *)
Lemma filename_collision :
  ~ pipe_od Scenario.props_100 == pipe_od Scenario.props_100_03125
  /\ filename Scenario.props_100 = filename Scenario.props_100_03125
  /\ filename Scenario.props_100
     = "exhaust_wrap_OD100.0_CLR1.5_S5_O10.0_MT6.15.pdf"%string.
Proof.
  split; [|split].
  - intro H. vm_compute in H. discriminate.
  - vm_compute. reflexivity.
  - vm_compute. reflexivity.
Qed.

(** C9, amended.  For specifications whose diameter, multiplier, overlap
    and wrap thickness are not negative, two file names are equal exactly
    when the specifications agree on what is printed: diameter, multiplier
    and overlap rounded to one decimal, the segment count, and the wrap
    thickness rounded to two decimals.  Specifications that differ in one
    of these printed values get different file names. *)
Theorem filename_injective_on_printed_values :
  forall p q : PipeTemplateProperties,
    0 <= pipe_od p -> 0 <= bend_radius_multiplier p ->
    0 <= overlap p -> 0 <= wrap_thickness p ->
    0 <= pipe_od q -> 0 <= bend_radius_multiplier q ->
    0 <= overlap q -> 0 <= wrap_thickness q ->
    (filename p = filename q <-> encoded p = encoded q).
Proof.
  intros p q Hp1 Hp2 Hp3 Hp4 Hq1 Hq2 Hq3 Hq4. unfold encoded. split.
  - unfold filename. cbv zeta. intro H.
    apply append_inj_l in H.
    apply format_fixed_split in H; [|assumption|assumption].
    destruct H as [E1 H]. apply append_inj_l in H.
    apply format_fixed_split in H; [|assumption|assumption].
    destruct H as [E2 H]. apply append_inj_l in H.
    simpl in H. apply str_int_split in H; [|reflexivity|reflexivity].
    destruct H as [E3 H]. injection H as H.
    apply format_fixed_split in H; [|assumption|assumption].
    destruct H as [E4 H]. injection H as H.
    apply format_fixed_split in H; [|assumption|assumption].
    destruct H as [E5 _]. congruence.
  - intro H. injection H as E1 E2 E3 E4 E5. unfold filename. cbv zeta.
    rewrite !format_fixed_nonneg by assumption.
    now rewrite E1, E2, E3, E4, E5.
Qed.

Lemma filename_injective_on_printed_values_witness :
  filename Scenario.default_props <> filename Scenario.props_100.
Proof.
  intro H.
  assert (E : encoded Scenario.default_props = encoded Scenario.props_100).
  { apply (filename_injective_on_printed_values
             Scenario.default_props Scenario.props_100);
      [simpl; discriminate .. | exact H]. }
  vm_compute in E. discriminate.
Defined.

End FilenameClaims.

(* ================================================================== *)
(** * Further properties of the code *)

(* ------------------------------------------------------------------ *)
(** ** [extract_uv_data]: failures, dictionaries, orientation *)

Section ExtractMore.

Import Boundary.

Lemma extract_uv_data_zero_segments (polygons : list polygon)
  (props : PipeTemplateProperties) :
  List.concat polygons <> [] -> num_segments props = 0%Z ->
  extract_uv_data (Some polygons) props = Py.Raise Py.ZeroDivisionError.
Proof.
  intros Hc Hz. unfold extract_uv_data.
  destruct (List.concat polygons) as [|p ps] eqn:Ec; [congruence|]. simpl.
  pose proof (collect_boundary_spec polygons) as Hb.
  destruct (count_edges polygons) as [edge_count edge_order].
  simpl in Hb. rewrite Hb. simpl.
  unfold Dimensions.calculate_dimensions. rewrite Hz. reflexivity.
Qed.

Lemma extract_uv_data_ok_inv (polygons : list polygon)
  (props : PipeTemplateProperties) r :
  extract_uv_data (Some polygons) props = Py.Ok r ->
  List.concat polygons <> [] /\ num_segments props <> 0%Z.
Proof.
  intro H.
  assert (Hc : List.concat polygons <> []).
  { intro Hc. unfold extract_uv_data in H. rewrite Hc in H.
    simpl in H. discriminate. }
  split; [exact Hc|]. intro Hz.
  rewrite (extract_uv_data_zero_segments polygons props Hc Hz) in H.
  discriminate.
Qed.

(** X1.  [extract_uv_data] fails in exactly three ways, tried in this
    order: without a UV layer it raises the exception "No UV layer found";
    with a layer that holds no vertex, [min] raises [ValueError]; with a
    segment count of zero the division raises [ZeroDivisionError].  In
    every other case it returns. *)
Theorem extract_uv_data_failure_modes :
  forall (uv_layer : option (list polygon)) (props : PipeTemplateProperties),
    match uv_layer with
    | None =>
        extract_uv_data uv_layer props
        = Py.Raise (Py.Exception "No UV layer found")
    | Some polygons =>
        match List.concat polygons with
        | [] => extract_uv_data uv_layer props = Py.Raise Py.ValueError
        | _ :: _ =>
            if Z.eqb (num_segments props) 0
            then extract_uv_data uv_layer props
                 = Py.Raise Py.ZeroDivisionError
            else Py.is_ok (extract_uv_data uv_layer props) = true
        end
    end.
Proof.
  intros [polygons|] props; [|reflexivity].
  destruct (List.concat polygons) as [|p ps] eqn:Ec.
  - unfold extract_uv_data. rewrite Ec. reflexivity.
  - destruct (Z.eqb (num_segments props) 0) eqn:Ez.
    + apply Z.eqb_eq in Ez. apply extract_uv_data_zero_segments; [|exact Ez].
      rewrite Ec. discriminate.
    + apply Z.eqb_neq in Ez.
      assert (Hne : List.concat polygons <> []) by (rewrite Ec; discriminate).
      destruct (extract_uv_data_returns polygons props Hne Ez)
        as (? & ? & ? & ? & ? & _ & _ & _ & _ & _ & Ex).
      rewrite Ex. reflexivity.
Qed.

Lemma find_snoc {A : Type} (f : A -> bool) (l : list A) (x : A) :
  find f (l ++ [x])
  = match find f l with
    | Some a => Some a
    | None => if f x then Some x else None
    end.
Proof.
  induction l as [|a l IH]; simpl; [reflexivity|].
  destruct (f a); [reflexivity | exact IH].
Qed.

Lemma find_none_iff {A : Type} (f : A -> bool) (l : list A) :
  find f l = None <-> existsb f l = false.
Proof.
  induction l as [|a l IH]; simpl; [tauto|].
  destruct (f a); simpl; [split; discriminate | exact IH].
Qed.

(** Looking a key up among the first-seen edges or among all edges gives
    the same edge. *)
Lemma find_first_seen (k : edge) (l : list edge) :
  find (fun e => key_eqb (edge_sorted e) k) (first_seen l)
  = find (fun e => key_eqb (edge_sorted e) k) l.
Proof.
  induction l as [|x l IH] using rev_ind; [reflexivity|].
  rewrite first_seen_snoc, find_snoc.
  destruct (existsb (fun e' => key_eqb (edge_sorted e') (edge_sorted x))
              (first_seen l)) eqn:E.
  - rewrite IH.
    destruct (find (fun e => key_eqb (edge_sorted e) k) l) eqn:F;
      [reflexivity|].
    destruct (key_eqb (edge_sorted x) k) eqn:Ek; [|reflexivity].
    exfalso. apply find_none_iff in IH.
    apply existsb_exists in E. destruct E as [e [He Hk]].
    pose proof (existsb_false_all _ _ IH e He) as Hf. simpl in Hf.
    rewrite (key_eqb_trans _ _ _ Hk Ek) in Hf. discriminate.
  - rewrite find_snoc, IH. reflexivity.
Qed.

(** X2.  After the counting loops, [edge_count[k]] is the number of
    polygon sides with the undirected key [k] (and [k] is absent when
    there is none), [edge_order[k]] is the first such side, and the two
    dictionaries hold the same keys in the same order, each key once. *)
Theorem count_edges_lookup :
  forall (polygons : list polygon) (k : edge),
    let edge_count := fst (count_edges polygons) in
    let edge_order := snd (count_edges polygons) in
    dict_get key_eqb edge_count k
    = (if Nat.eqb (occurrences k (all_edges polygons)) 0 then None
       else Some (occurrences k (all_edges polygons)))
    /\ dict_get key_eqb edge_order k = first_occurrence k (all_edges polygons)
    /\ map fst edge_count = map fst edge_order
    /\ distinct_keys fst key_eqb edge_count.
Proof.
  intros polygons k. cbv zeta.
  rewrite count_edges_all, count_edge_fold. simpl.
  set (l := all_edges polygons).
  split; [|split; [|split]].
  - rewrite dict_get_map, find_first_seen.
    destruct (find (fun e => key_eqb (edge_sorted e) k) l) as [a|] eqn:F;
      simpl.
    + destruct (find_some _ _ F) as [Ha Hk].
      rewrite (occurrences_congr _ _ l Hk).
      pose proof (occurrences_positive l a Ha) as Hp.
      rewrite (occurrences_congr _ _ l Hk) in Hp.
      destruct (occurrences k l); [lia | reflexivity].
    + assert (Z0 : occurrences k l = 0%nat).
      { apply occurrences_zero. exact (find_none _ _ F). }
      now rewrite Z0.
  - rewrite dict_get_map, find_first_seen. unfold first_occurrence.
    destruct (find _ l); reflexivity.
  - rewrite !map_map. reflexivity.
  - pose proof (first_seen_distinct l) as Hd.
    induction (first_seen l) as [|a f IH]; simpl; [exact I|].
    destruct Hd as [Ha Hd]. split; [|now apply IH].
    intros b Hb. apply in_map_iff in Hb. destruct Hb as [e [<- He]].
    simpl. now apply Ha.
Qed.

Lemma uv_ltb_cases (a b : UV) :
  (uv_ltb a b = true /\ uv_ltb b a = false /\ uv_eqb a b = false)
  \/ (uv_ltb a b = false /\ uv_ltb b a = true /\ uv_eqb a b = false)
  \/ (uv_ltb a b = false /\ uv_ltb b a = false /\ uv_eqb a b = true).
Proof.
  destruct a as [a1 a2], b as [b1 b2]. unfold uv_ltb, uv_eqb. simpl.
  unfold Py.eqb. rewrite (Qeq_bool_comm b1 a1).
  destruct (Qeq_bool a1 b1) eqn:E1.
  - destruct (Q_dec a2 b2) as [[H|H]|H].
    + left. rewrite (proj2 (ltb_lt _ _) H).
      rewrite (proj2 (ltb_ge _ _) (Qlt_le_weak _ _ H)).
      destruct (Qeq_bool a2 b2) eqn:E2; [|auto].
      apply Qeq_bool_eq in E2. rewrite E2 in H.
      exfalso. exact (Qlt_irrefl _ H).
    + right. left. rewrite (proj2 (ltb_lt _ _) H).
      rewrite (proj2 (ltb_ge _ _) (Qlt_le_weak _ _ H)).
      destruct (Qeq_bool a2 b2) eqn:E2; [|auto].
      apply Qeq_bool_eq in E2. rewrite E2 in H.
      exfalso. exact (Qlt_irrefl _ H).
    + right. right. rewrite (Qeq_eq_bool _ _ H).
      assert (L1 : b2 <= a2) by (rewrite H; apply Qle_refl).
      assert (L2 : a2 <= b2) by (rewrite H; apply Qle_refl).
      rewrite (proj2 (ltb_ge _ _) L1), (proj2 (ltb_ge _ _) L2). auto.
  - apply Qeq_bool_neq in E1. destruct (Q_dec a1 b1) as [[H|H]|H].
    + left. rewrite (proj2 (ltb_lt _ _) H).
      rewrite (proj2 (ltb_ge _ _) (Qlt_le_weak _ _ H)). auto.
    + right. left. rewrite (proj2 (ltb_lt _ _) H).
      rewrite (proj2 (ltb_ge _ _) (Qlt_le_weak _ _ H)). auto.
    + contradiction.
Qed.

(** A side and its reverse have the same undirected key. *)
Lemma edge_sorted_reverse (a b : UV) :
  key_eqb (edge_sorted (a, b)) (edge_sorted (b, a)) = true.
Proof.
  unfold edge_sorted, sorted_pair, key_eqb. simpl.
  destruct (uv_ltb_cases a b) as [(H1 & H2 & H3)|[(H1 & H2 & H3)|(H1 & H2 & H3)]];
    rewrite H1, H2; simpl; rewrite ?uv_eqb_refl; try reflexivity.
  rewrite H3, uv_eqb_sym, H3. reflexivity.
Qed.

Lemma two_members_counted (k : edge) (l : list edge) (e1 e2 : edge) :
  e1 <> e2 -> In e1 l -> In e2 l ->
  key_eqb (edge_sorted e1) k = true -> key_eqb (edge_sorted e2) k = true ->
  (2 <= occurrences k l)%nat.
Proof.
  intros Hne H1 H2 K1 K2. unfold occurrences.
  assert (I1 : In e1 (filter (fun e => key_eqb (edge_sorted e) k) l))
    by (apply filter_In; auto).
  assert (I2 : In e2 (filter (fun e => key_eqb (edge_sorted e) k) l))
    by (apply filter_In; auto).
  destruct (filter _ l) as [|x [|y r]]; simpl in *; [destruct I1| |lia].
  destruct I1 as [<-|[]]. destruct I2 as [E|[]]. congruence.
Qed.

(** X3.  The key does not depend on the direction of a side: a side and
    its reverse have equal keys.  So when one polygon runs from [a] to
    [b] and another from [b] to [a] (two different points), neither side
    is among the boundary edges. *)
Theorem shared_side_is_interior :
  forall (polygons : list polygon) (props : PipeTemplateProperties)
         (a b : UV) uv bd,
    extract_uv_data (Some polygons) props = Py.Ok (uv, bd) ->
    In (a, b) (all_edges polygons) ->
    In (b, a) (all_edges polygons) ->
    uv_eqb a b = false ->
    key_eqb (edge_sorted (a, b)) (edge_sorted (b, a)) = true
    /\ ~ In (a, b) (bd_boundary_edges bd)
    /\ ~ In (b, a) (bd_boundary_edges bd).
Proof.
  intros polygons props a b uv bd Hex Hab Hba Hne.
  pose proof (edge_sorted_reverse a b) as Hk.
  split; [exact Hk|].
  destruct (extract_uv_data_ok_inv _ _ _ Hex) as [Hc Hs].
  destruct (extract_uv_data_returns polygons props Hc Hs)
    as (? & ? & ? & ? & ? & _ & _ & _ & _ & _ & Ex).
  rewrite Ex in Hex. injection Hex as _ <-. simpl.
  assert (Hd : (a, b) <> (b, a)).
  { intro E. injection E as E1 E2. subst b.
    rewrite uv_eqb_refl in Hne. discriminate. }
  assert (H2 : (2 <= occurrences (edge_sorted (a, b)) (all_edges polygons))%nat).
  { apply (two_members_counted _ _ (a, b) (b, a)); auto.
    - apply key_eqb_refl.
    - rewrite key_eqb_sym. exact Hk. }
  split; intro Hin; apply filter_In in Hin; destruct Hin as [_ Hin];
    apply Nat.eqb_eq in Hin.
  - lia.
  - rewrite <- (occurrences_congr _ _ _ Hk) in Hin. lia.
Qed.

(** The two quads of [Scenario.two_quads] run along their common side in
    opposite directions. *)
Lemma shared_side_is_interior_witness :
  exists uv bd,
    extract_uv_data (Some Scenario.two_quads) Scenario.default_props
    = Py.Ok (uv, bd)
    /\ ~ In ((1, 0), (1, 1)) (bd_boundary_edges bd)
    /\ ~ In ((1, 1), (1, 0)) (bd_boundary_edges bd).
Proof.
  assert (Hc : List.concat Scenario.two_quads <> []) by discriminate.
  assert (Hs : num_segments Scenario.default_props <> 0%Z) by (simpl; lia).
  destruct (extract_uv_data_returns _ _ Hc Hs)
    as (? & ? & ? & ? & ? & _ & _ & _ & _ & _ & Ex).
  eexists. eexists. split; [exact Ex|].
  refine (proj2 (shared_side_is_interior Scenario.two_quads
                   Scenario.default_props (1, 0) (1, 1) _ _ Ex _ _ _)).
  - vm_compute. auto 10.
  - vm_compute. auto 10.
  - reflexivity.
Defined.

Lemma count_edge_sum (st : dict edge nat * dict edge edge) (e : edge) :
  list_sum (map snd (fst (count_edge st e)))
  = S (list_sum (map snd (fst st))).
Proof.
  destruct st as [edge_count edge_order]. unfold count_edge. simpl.
  induction edge_count as [|[k c] d IH]; simpl; [reflexivity|].
  destruct (key_eqb k (edge_sorted e)); simpl; [lia|].
  rewrite IH. lia.
Qed.

Lemma count_edge_fold_sum (l : list edge) (st : dict edge nat * dict edge edge) :
  list_sum (map snd (fst (fold_left count_edge l st)))
  = (list_sum (map snd (fst st)) + List.length l)%nat.
Proof.
  revert st. induction l as [|e l IH]; intro st; simpl; [lia|].
  rewrite IH, count_edge_sum. lia.
Qed.

Lemma poly_edges_length (p : polygon) :
  List.length (poly_edges p) = List.length p.
Proof. unfold poly_edges. now rewrite length_map, length_seq. Qed.

Lemma all_edges_length (polygons : list polygon) :
  List.length (all_edges polygons) = List.length (List.concat polygons).
Proof.
  unfold all_edges. rewrite length_flat_map, length_concat.
  f_equal. apply map_ext. intro p. apply poly_edges_length.
Qed.

(** X4.  Every side of every polygon is counted exactly once: the counts
    stored in [edge_count] add up to the number of polygon vertices,
    which is the number of sides. *)
Theorem edge_counts_add_up :
  forall polygons : list polygon,
    list_sum (map snd (fst (count_edges polygons)))
    = List.length (List.concat polygons)
    /\ List.length (all_edges polygons) = List.length (List.concat polygons).
Proof.
  intro polygons. split; [|apply all_edges_length].
  rewrite count_edges_all, count_edge_fold_sum. simpl.
  apply all_edges_length.
Qed.

Lemma poly_edges_ends (p : polygon) (e : edge) :
  In e (poly_edges p) -> In (fst e) p /\ In (snd e) p.
Proof.
  unfold poly_edges. intro H. apply in_map_iff in H.
  destruct H as [i [<- Hi]]. apply in_seq in Hi. simpl.
  split; apply nth_In; [lia|].
  apply Nat.mod_upper_bound. lia.
Qed.

Lemma all_edges_ends (polygons : list polygon) (e : edge) :
  In e (all_edges polygons) ->
  In (fst e) (List.concat polygons) /\ In (snd e) (List.concat polygons).
Proof.
  unfold all_edges. intro H. apply in_flat_map in H.
  destruct H as [p [Hp He]]. apply poly_edges_ends in He.
  destruct He as [H1 H2].
  split; apply in_concat; exists p; auto.
Qed.

(** The bounds and boundary edges a successful extraction returns. *)
Lemma extract_uv_data_result (polygons : list polygon)
  (props : PipeTemplateProperties) uv bd :
  extract_uv_data (Some polygons) props = Py.Ok (uv, bd) ->
  (forall e, In e (bd_boundary_edges bd) -> In e (all_edges polygons))
  /\ (forall p, In p (List.concat polygons) ->
        bd_min_u bd <= fst p /\ fst p <= bd_max_u bd
        /\ bd_min_v bd <= snd p /\ snd p <= bd_max_v bd)
  /\ ud_wrap_width uv
     = 2 * Py.math_pi * (pipe_od props / 2 + wrap_thickness props)
       + overlap props
  /\ ud_pipe_circ_mm uv = Py.math_pi * pipe_od props
  /\ ud_pipe_arc_mm uv
     = (pipe_od props * bend_radius_multiplier props)
       * Py.radians (bend_angle props / inject_Z (num_segments props))
  /\ ud_wrap_arc_length uv
     = (pipe_od props * bend_radius_multiplier props + wrap_thickness props)
       * Py.radians (bend_angle props / inject_Z (num_segments props)).
Proof.
  intro Hex. destruct (extract_uv_data_ok_inv _ _ _ Hex) as [Hc Hs].
  destruct (extract_uv_data_returns polygons props Hc Hs)
    as (min_u & max_u & min_v & max_v & d & Emin_u & Emax_u & Emin_v
        & Emax_v & Ed & Ex).
  rewrite Ex in Hex. injection Hex as <- <-. simpl.
  rewrite (calculate_dimensions_value props Hs) in Ed. injection Ed as <-.
  simpl.
  destruct (min_spec _ _ Emin_u) as [_ L1].
  destruct (max_spec _ _ Emax_u) as [_ L2].
  destruct (min_spec _ _ Emin_v) as [_ L3].
  destruct (max_spec _ _ Emax_v) as [_ L4].
  split; [|split; [|repeat split]].
  - intros e He. apply filter_In in He. tauto.
  - intros p Hp. repeat split.
    + apply L1. now apply in_map.
    + apply L2. now apply in_map.
    + apply L3. now apply in_map.
    + apply L4. now apply in_map.
Qed.

(** X5.  The end points of every boundary edge are vertices of the
    polygons, so both lie inside the bounding box that is returned with
    them. *)
Theorem boundary_edges_inside_bounds :
  forall (polygons : list polygon) (props : PipeTemplateProperties) uv bd,
    extract_uv_data (Some polygons) props = Py.Ok (uv, bd) ->
    forall e, In e (bd_boundary_edges bd) ->
      In (fst e) (List.concat polygons)
      /\ In (snd e) (List.concat polygons)
      /\ bd_min_u bd <= fst (fst e) /\ fst (fst e) <= bd_max_u bd
      /\ bd_min_v bd <= snd (fst e) /\ snd (fst e) <= bd_max_v bd
      /\ bd_min_u bd <= fst (snd e) /\ fst (snd e) <= bd_max_u bd
      /\ bd_min_v bd <= snd (snd e) /\ snd (snd e) <= bd_max_v bd.
Proof.
  intros polygons props uv bd Hex e He.
  destruct (extract_uv_data_result _ _ _ _ Hex) as (Hin & Hbox & _).
  destruct (all_edges_ends _ _ (Hin e He)) as [H1 H2].
  destruct (Hbox _ H1) as (A1 & A2 & A3 & A4).
  destruct (Hbox _ H2) as (B1 & B2 & B3 & B4).
  repeat split; assumption.
Qed.

(** The same, as the hypothesis the outline loops need. *)
Lemma boundary_inside (polygons : list polygon)
  (props : PipeTemplateProperties) uv bd :
  extract_uv_data (Some polygons) props = Py.Ok (uv, bd) ->
  forall e, In e (bd_boundary_edges bd) ->
    Limits.edge_within (bd_min_u bd) (bd_max_u bd) (bd_min_v bd)
      (bd_max_v bd) e.
Proof.
  intros Hex e He.
  destruct (extract_uv_data_result _ _ _ _ Hex) as (Hin & Hbox & _).
  destruct (all_edges_ends _ _ (Hin e He)) as [H1 H2].
  destruct (Hbox _ H1) as (A1 & A2 & A3 & A4).
  destruct (Hbox _ H2) as (B1 & B2 & B3 & B4).
  unfold Limits.edge_within. tauto.
Qed.

Lemma boundary_edges_inside_bounds_witness :
  exists uv bd,
    extract_uv_data (Some Scenario.two_quads) Scenario.default_props
    = Py.Ok (uv, bd)
    /\ bd_min_u bd <= 2 /\ 2 <= bd_max_u bd.
Proof.
  assert (Hc : List.concat Scenario.two_quads <> []) by discriminate.
  assert (Hs : num_segments Scenario.default_props <> 0%Z) by (simpl; lia).
  destruct (extract_uv_data_returns _ _ Hc Hs)
    as (? & ? & ? & ? & ? & _ & _ & _ & _ & _ & Ex).
  eexists. eexists. split; [exact Ex|].
  assert (He : In ((2, 0), (2, 1))
                 (filter (fun e => Nat.eqb (occurrences (edge_sorted e)
                                              (all_edges Scenario.two_quads)) 1)
                         (all_edges Scenario.two_quads)))
    by (vm_compute; auto 10).
  destruct (boundary_edges_inside_bounds _ _ _ _ Ex _ He)
    as (_ & _ & H1 & H2 & _).
  split; [exact H1 | exact H2].
Defined.

End ExtractMore.

(* ------------------------------------------------------------------ *)
(** ** The dimension calculator on declared values *)

Section DimensionsMore.

Import Limits.

Lemma segment_angle_pos (props : PipeTemplateProperties) :
  0 < bend_angle props -> (1 <= num_segments props)%Z ->
  0 < Py.radians (bend_angle props / inject_Z (num_segments props)).
Proof.
  intros Hangle Hseg. apply radians_pos. apply Qlt_shift_div_l.
  - change 0 with (inject_Z 0). rewrite <- Zlt_Qlt. lia.
  - now rewrite Qmult_0_l.
Qed.

(** The sizes in terms of the angle of one segment. *)
Lemma dimensions_ordered (props : PipeTemplateProperties) :
  0 <= pipe_od props -> 0 <= bend_radius_multiplier props ->
  0 < bend_angle props -> (1 <= num_segments props)%Z ->
  0 <= wrap_thickness props -> 0 <= overlap props ->
  let r := Py.radians (bend_angle props / inject_Z (num_segments props)) in
  0 <= Py.math_pi * pipe_od props
  /\ Py.math_pi * pipe_od props
     <= 2 * Py.math_pi * (pipe_od props / 2 + wrap_thickness props)
        + overlap props
  /\ 0 <= (pipe_od props * bend_radius_multiplier props) * r
  /\ (pipe_od props * bend_radius_multiplier props) * r
     <= (pipe_od props * bend_radius_multiplier props + wrap_thickness props)
        * r.
Proof.
  intros Hod Hm Hangle Hseg Ht Ho r.
  pose proof (segment_angle_pos props Hangle Hseg) as Hr. fold r in Hr.
  pose proof math_pi_pos as Hpi. set (pi := Py.math_pi) in *.
  pose proof (Qmult_le_0_compat _ _ (Qlt_le_weak _ _ Hpi) Hod) as H1.
  pose proof (Qmult_le_0_compat _ _ (Qlt_le_weak _ _ Hpi) Ht) as H2.
  pose proof (Qmult_le_0_compat _ _ Hod Hm) as H3.
  pose proof (Qmult_le_0_compat _ _ H3 (Qlt_le_weak _ _ Hr)) as H4.
  pose proof (Qmult_le_0_compat _ _ Ht (Qlt_le_weak _ _ Hr)) as H5.
  split; [exact H1|]. split; [|split; [exact H4|]].
  - setoid_replace (2 * pi * (pipe_od props / 2 + wrap_thickness props)
                    + overlap props)
      with (pi * pipe_od props + (2 * (pi * wrap_thickness props)
                                  + overlap props)) by field.
    lra.
  - setoid_replace ((pipe_od props * bend_radius_multiplier props
                     + wrap_thickness props) * r)
      with (pipe_od props * bend_radius_multiplier props * r
            + wrap_thickness props * r) by ring.
    lra.
Qed.

(** X6.  For every value of the properties inside their declared limits
    the dimension calculation returns, and all four sizes are positive,
    the wrap sizes above the base sizes. *)
Theorem declared_values_give_positive_sizes :
  forall props : PipeTemplateProperties,
    declared_range props ->
    exists d,
      Dimensions.calculate_dimensions props = Py.Ok d
      /\ 0 < Dimensions.pipe_circ_mm d
      /\ Dimensions.pipe_circ_mm d < Dimensions.wrap_width d
      /\ 0 < Dimensions.pipe_arc_mm d
      /\ Dimensions.pipe_arc_mm d < Dimensions.wrap_arc_length d.
Proof.
  intros props ((Hod & _) & (Hm & _) & (Ha & _) & (Hn & _) & (Ht & _) & (Ho & _)).
  assert (Hn0 : num_segments props <> 0%Z) by lia.
  eexists. split; [exact (calculate_dimensions_value props Hn0)|]. simpl.
  assert (Hod' : 0 < pipe_od props) by lra.
  assert (Hm' : 0 < bend_radius_multiplier props) by lra.
  assert (Ha' : 0 < bend_angle props) by lra.
  assert (Ht' : 0 < wrap_thickness props) by lra.
  pose proof (segment_angle_pos props Ha' (proj1 (conj Hn I))) as Hr.
  set (r := Py.radians _) in *.
  pose proof math_pi_pos as Hpi. set (pi := Py.math_pi) in *.
  pose proof (Qmult_lt_0_compat _ _ Hpi Hod') as H1.
  pose proof (Qmult_lt_0_compat _ _ Hpi Ht') as H2.
  pose proof (Qmult_lt_0_compat _ _ Hod' Hm') as H3.
  pose proof (Qmult_lt_0_compat _ _ H3 Hr) as H4.
  pose proof (Qmult_lt_0_compat _ _ Ht' Hr) as H5.
  split; [exact H1|]. split; [|split; [exact H4|]].
  - setoid_replace (2 * pi * (pipe_od props / 2 + wrap_thickness props)
                    + overlap props)
      with (pi * pipe_od props + (2 * (pi * wrap_thickness props)
                                  + overlap props)) by field.
    lra.
  - setoid_replace ((pipe_od props * bend_radius_multiplier props
                     + wrap_thickness props) * r)
      with (pipe_od props * bend_radius_multiplier props * r
            + wrap_thickness props * r) by ring.
    lra.
Qed.

Lemma declared_values_give_positive_sizes_witness :
  exists d,
    Dimensions.calculate_dimensions Scenario.default_props = Py.Ok d
    /\ 0 < Dimensions.pipe_circ_mm d
    /\ Dimensions.pipe_circ_mm d < Dimensions.wrap_width d
    /\ 0 < Dimensions.pipe_arc_mm d
    /\ Dimensions.pipe_arc_mm d < Dimensions.wrap_arc_length d.
Proof.
  exact (declared_values_give_positive_sizes Scenario.default_props
           default_props_declared).
Defined.

End DimensionsMore.

(* ------------------------------------------------------------------ *)
(** ** Where the outline loops draw *)

Section OutlineMore.

Import Outline Limits.

Lemma mm_pos : 0 < Reportlab.mm.
Proof. reflexivity. Qed.

Lemma normalized_range (x lo hi : Py.float) :
  lo <= x -> x <= hi ->
  0 <= normalized x lo hi /\ normalized x lo hi <= 1.
Proof.
  intros H1 H2. unfold normalized.
  destruct (Py.ltb 0 (hi - lo)) eqn:E; [|split; discriminate].
  apply ltb_lt in E. split.
  - apply Qle_shift_div_l; [exact E|]. lra.
  - apply Qle_shift_div_r; [exact E|]. lra.
Qed.

(** X8.  For a coordinate inside the bounding box [normalize] returns a
    value between 0 and 1; on a box that is not degenerate the lower
    bound goes to 0 and the upper bound to 1. *)
Theorem normalize_unit_interval :
  forall x lo hi : Py.float,
    lo <= x -> x <= hi ->
    exists r,
      normalize x lo hi = Py.Ok r
      /\ 0 <= r /\ r <= 1
      /\ (lo < hi -> x == lo -> r == 0)
      /\ (lo < hi -> x == hi -> r == 1).
Proof.
  intros x lo hi H1 H2. exists (normalized x lo hi).
  split; [apply normalize_value|].
  destruct (normalized_range x lo hi H1 H2) as [R1 R2].
  split; [exact R1|]. split; [exact R2|].
  unfold normalized. split; intros Hlt Hx.
  - assert (E : Py.ltb 0 (hi - lo) = true) by (apply ltb_lt; lra).
    rewrite E, Hx. field. lra.
  - assert (E : Py.ltb 0 (hi - lo) = true) by (apply ltb_lt; lra).
    rewrite E, Hx. field. lra.
Qed.

Lemma normalize_unit_interval_witness :
  exists r, normalize 0.25 0 1 = Py.Ok r /\ 0 <= r /\ r <= 1.
Proof.
  destruct (normalize_unit_interval 0.25 0 1) as (r & Hr & H0 & H1 & _).
  - discriminate.
  - discriminate.
  - exists r. auto.
Defined.

Lemma scaled_inside (n w : Q) :
  0 <= n -> n <= 1 -> 0 <= w -> 0 <= n * w /\ n * w <= w.
Proof.
  intros H0 H1 Hw. split.
  - now apply Qmult_le_0_compat.
  - setoid_replace w with (1 * w) at 2 by ring.
    now apply Qmult_le_compat_r.
Qed.

Lemma point_inside (t X W : Q) :
  0 <= X -> X <= W ->
  t <= t + X * Reportlab.mm /\ t + X * Reportlab.mm <= t + W * Reportlab.mm.
Proof.
  intros H0 H1. pose proof mm_pos as Hmm.
  pose proof (Qmult_le_0_compat _ _ H0 (Qlt_le_weak _ _ Hmm)) as A.
  pose proof (Qmult_le_compat_r _ _ _ H1 (Qlt_le_weak _ _ Hmm)) as B.
  split; lra.
Qed.

Lemma mapM_In {A B : Type} (f : A -> Py.result B) (l : list A) (ys : list B) :
  Py.mapM f l = Py.Ok ys ->
  forall y, In y ys -> exists x, In x l /\ f x = Py.Ok y.
Proof.
  revert ys. induction l as [|a l IH]; intros ys H y Hy; simpl in H.
  - injection H as <-. destruct Hy.
  - destruct (f a) as [b|] eqn:Ea; [|discriminate].
    destruct (Py.mapM f l) as [bs|] eqn:El; [|discriminate].
    injection H as <-. destruct Hy as [<-|Hy].
    + exists a. split; [now left | exact Ea].
    + destruct (IH bs eq_refl y Hy) as [x [Hx Hf]].
      exists x. split; [now right | exact Hf].
Qed.

Lemma bind_ok_match {A B : Type} (f : A -> Py.result B) (a1 a2 : A)
  (ys : list B) :
  Py.mapM f [a1; a2] = Py.Ok ys ->
  exists y1 y2, f a1 = Py.Ok y1 /\ f a2 = Py.Ok y2 /\ ys = [y1; y2].
Proof.
  simpl. destruct (f a1) as [y1|]; [|discriminate].
  destruct (f a2) as [y2|]; [|discriminate].
  intro H. injection H as <-. eauto.
Qed.

Lemma mapM_length {A B : Type} (f : A -> Py.result B) (l : list A) (ys : list B) :
  Py.mapM f l = Py.Ok ys -> List.length ys = List.length l.
Proof.
  revert ys. induction l as [|a l IH]; intros ys H; simpl in H.
  - now injection H as <-.
  - destruct (f a) as [b|]; [|discriminate].
    destruct (Py.mapM f l) as [bs|]; [|discriminate].
    injection H as <-. simpl. now rewrite (IH bs eq_refl).
Qed.

Lemma normalized_edge_range min_u max_u min_v max_v (e : Boundary.edge) :
  edge_within min_u max_u min_v max_v e ->
  let n := normalized_edge min_u max_u min_v max_v e in
  (0 <= fst (fst (fst n)) /\ fst (fst (fst n)) <= 1)
  /\ (0 <= snd (fst (fst n)) /\ snd (fst (fst n)) <= 1)
  /\ (0 <= snd (fst n) /\ snd (fst n) <= 1)
  /\ (0 <= snd n /\ snd n <= 1).
Proof.
  destruct e as [[u1 v1] [u2 v2]].
  intros ((A1 & A2) & (B1 & B2) & (C1 & C2) & (D1 & D2)). simpl in *.
  repeat split; apply normalized_range; assumption.
Qed.

Lemma base_stroke_inside min_u max_u min_v max_v base_w base_h wrap_w wrap_h
  tx ty (e : Boundary.edge) (s : line) :
  edge_within min_u max_u min_v max_v e ->
  0 <= base_w -> base_w <= wrap_w -> 0 <= base_h -> base_h <= wrap_h ->
  base_outline_edge min_u max_u min_v max_v base_w base_h tx ty
    ((wrap_w - base_w) / 2) ((wrap_h - base_h) / 2) e = Py.Ok s ->
  stroke_within tx (tx + wrap_w * Reportlab.mm)
                ty (ty + wrap_h * Reportlab.mm) s.
Proof.
  intros He Hw0 Hw1 Hh0 Hh1 H.
  unfold base_outline_edge in H. rewrite normalize_edge_value in H.
  simpl in H.
  pose proof (normalized_edge_range _ _ _ _ e He) as Hn. cbv zeta in Hn.
  destruct (normalized_edge min_u max_u min_v max_v e) as [[[a b] c] d].
  simpl in Hn. destruct Hn as ((A0 & A1) & (B0 & B1) & (C0 & C1) & (D0 & D1)).
  injection H as <-. unfold stroke_within. cbn [x1_pt y1_pt x2_pt y2_pt].
  destruct (scaled_inside a base_h A0 A1 Hh0) as [Pa Qa].
  destruct (scaled_inside b base_w B0 B1 Hw0) as [Pb Qb].
  destruct (scaled_inside c base_h C0 C1 Hh0) as [Pc Qc].
  destruct (scaled_inside d base_w D0 D1 Hw0) as [Pd Qd].
  assert (Ex : (wrap_w - base_w) / 2 == (wrap_w - base_w) * (1 # 2)) by field.
  assert (Ey : (wrap_h - base_h) / 2 == (wrap_h - base_h) * (1 # 2)) by field.
  split; [|split; [|split]]; apply point_inside; rewrite ?Ex, ?Ey; lra.
Qed.

Lemma wrap_stroke_inside min_u max_u min_v max_v wrap_w wrap_h
  tx ty (e : Boundary.edge) (s : line) :
  edge_within min_u max_u min_v max_v e ->
  0 <= wrap_w -> 0 <= wrap_h ->
  wrap_outline_edge min_u max_u min_v max_v wrap_w wrap_h tx ty e = Py.Ok s ->
  stroke_within tx (tx + wrap_w * Reportlab.mm)
                ty (ty + wrap_h * Reportlab.mm) s.
Proof.
  intros He Hw0 Hh0 H.
  unfold wrap_outline_edge in H. rewrite normalize_edge_value in H.
  simpl in H.
  pose proof (normalized_edge_range _ _ _ _ e He) as Hn. cbv zeta in Hn.
  destruct (normalized_edge min_u max_u min_v max_v e) as [[[a b] c] d].
  simpl in Hn. destruct Hn as ((A0 & A1) & (B0 & B1) & (C0 & C1) & (D0 & D1)).
  injection H as <-. unfold stroke_within. cbn [x1_pt y1_pt x2_pt y2_pt].
  destruct (scaled_inside a wrap_h A0 A1 Hh0) as [Pa Qa].
  destruct (scaled_inside b wrap_w B0 B1 Hw0) as [Pb Qb].
  destruct (scaled_inside c wrap_h C0 C1 Hh0) as [Pc Qc].
  destruct (scaled_inside d wrap_w D0 D1 Hw0) as [Pd Qd].
  split; [|split; [|split]]; apply point_inside; assumption.
Qed.

(** What [draw_template] returns: as many blue and as many red strokes as
    there are edges, all inside the wrap rectangle placed at
    [(template_x, template_y)]. *)
Lemma draw_template_inside edges min_u max_u min_v max_v base_w base_h
  wrap_w wrap_h tx ty ls :
  (forall e, In e edges -> edge_within min_u max_u min_v max_v e) ->
  0 <= base_w -> base_w <= wrap_w -> 0 <= base_h -> base_h <= wrap_h ->
  draw_template edges min_u max_u min_v max_v base_w base_h wrap_w wrap_h
    tx ty = Py.Ok ls ->
  List.length ls = (2 * List.length edges)%nat
  /\ forall s, In s ls ->
       stroke_within tx (tx + wrap_w * Reportlab.mm)
                     ty (ty + wrap_h * Reportlab.mm) s.
Proof.
  intros Hin Hw0 Hw1 Hh0 Hh1 H. unfold draw_template in H.
  apply bind_ok in H. destruct H as [b [Hb H]].
  apply bind_ok in H. destruct H as [r [Hr H]].
  injection H as <-. split.
  - rewrite length_app, (mapM_length _ _ _ Hb), (mapM_length _ _ _ Hr). lia.
  - intros s Hs. apply in_app_or in Hs. destruct Hs as [Hs|Hs].
    + destruct (mapM_In _ _ _ Hb s Hs) as [e [He Hf]].
      exact (base_stroke_inside min_u max_u min_v max_v base_w base_h
               wrap_w wrap_h tx ty e s (Hin e He) Hw0 Hw1 Hh0 Hh1 Hf).
    + destruct (mapM_In _ _ _ Hr s Hs) as [e [He Hf]].
      assert (Hw : 0 <= wrap_w) by lra. assert (Hh : 0 <= wrap_h) by lra.
      exact (wrap_stroke_inside min_u max_u min_v max_v wrap_w wrap_h
               tx ty e s (Hin e He) Hw Hh Hf).
Qed.

Lemma mapM_Forall2 {A B : Type} (R : B -> B -> Prop)
  (f g : A -> Py.result B) (l : list A) (ys zs : list B) :
  (forall a y z, f a = Py.Ok y -> g a = Py.Ok z -> R y z) ->
  Py.mapM f l = Py.Ok ys -> Py.mapM g l = Py.Ok zs -> Forall2 R ys zs.
Proof.
  intro HR. revert ys zs.
  induction l as [|a l IH]; intros ys zs Hf Hg; simpl in Hf, Hg.
  - injection Hf as <-. injection Hg as <-. constructor.
  - destruct (f a) as [y|] eqn:Ef; [|discriminate].
    destruct (Py.mapM f l) as [ys'|]; [|discriminate].
    destruct (g a) as [z|] eqn:Eg; [|discriminate].
    destruct (Py.mapM g l) as [zs'|]; [|discriminate].
    injection Hf as <-. injection Hg as <-.
    constructor; [exact (HR a y z Ef Eg) | now apply IH].
Qed.

(** Two calls of [draw_template] at the same abscissa give the same
    strokes up to their height on the page. *)
Lemma draw_template_copies edges min_u max_u min_v max_v base_w base_h
  wrap_w wrap_h tx ty ty' ls ls' :
  draw_template edges min_u max_u min_v max_v base_w base_h wrap_w wrap_h
    tx ty = Py.Ok ls ->
  draw_template edges min_u max_u min_v max_v base_w base_h wrap_w wrap_h
    tx ty' = Py.Ok ls' ->
  Forall2 (fun s1 s2 =>
             stroke s1 = stroke s2
             /\ x1_pt s1 = x1_pt s2 /\ x2_pt s1 = x2_pt s2)
          ls ls'.
Proof.
  intros H H'. unfold draw_template in H, H'.
  apply bind_ok in H. destruct H as [b [Hb H]].
  apply bind_ok in H. destruct H as [r [Hr H]]. injection H as <-.
  apply bind_ok in H'. destruct H' as [b' [Hb' H']].
  apply bind_ok in H'. destruct H' as [r' [Hr' H']]. injection H' as <-.
  apply Forall2_app.
  - apply (fun HR => mapM_Forall2 _ _ _ _ _ _ HR Hb Hb').
    intros e s1 s2 E1 E2. unfold base_outline_edge in E1, E2.
    rewrite normalize_edge_value in E1, E2. simpl in E1, E2.
    destruct (normalized_edge min_u max_u min_v max_v e) as [[[a1 a2] a3] a4].
    injection E1 as <-. injection E2 as <-. repeat split.
  - apply (fun HR => mapM_Forall2 _ _ _ _ _ _ HR Hr Hr').
    intros e s1 s2 E1 E2. unfold wrap_outline_edge in E1, E2.
    rewrite normalize_edge_value in E1, E2. simpl in E1, E2.
    destruct (normalized_edge min_u max_u min_v max_v e) as [[[a1 a2] a3] a4].
    injection E1 as <-. injection E2 as <-. repeat split.
Qed.

End OutlineMore.

(* ------------------------------------------------------------------ *)
(** ** Pages: how many, and what lies on them *)

Section LayoutMore.

Import Outline Limits Layout.

Lemma page_constants :
  Reportlab.mm == 360 # 127
  /\ page_w == 297 * (360 # 127)
  /\ page_h == 210 * (360 # 127)
  /\ margin == 6 * (360 # 127)
  /\ available_height == 148 * (360 # 127).
Proof. repeat split. Qed.

Lemma stroke_within_weaken (a b c d a' b' c' d' : Q) (s : line) :
  stroke_within a b c d s ->
  a' <= a -> b <= b' -> c' <= c -> d <= d' ->
  stroke_within a' b' c' d' s.
Proof.
  unfold stroke_within.
  intros ((X1 & X2) & (Y1 & Y2) & (X3 & X4) & (Y3 & Y4)) Ha Hb Hc Hd.
  split; [|split; [|split]]; split; lra.
Qed.

(** Which tests the [if] of [generate_pdf] has passed when it calls
    [_generate_single_page]. *)
Lemma stacked_inv uv_data boundary_data pages :
  dispatch uv_data boundary_data = Py.Ok (SINGLE_PAGE_STACKED, pages) ->
  Boundary.ud_wrap_width uv_data <= 285
  /\ 2 * Boundary.ud_wrap_arc_length uv_data + 15 <= 148
  /\ _generate_single_page (Boundary.bd_boundary_edges boundary_data)
       (Boundary.bd_min_u boundary_data) (Boundary.bd_max_u boundary_data)
       (Boundary.bd_min_v boundary_data) (Boundary.bd_max_v boundary_data)
       (Boundary.ud_pipe_circ_mm uv_data) (Boundary.ud_pipe_arc_mm uv_data)
       (Boundary.ud_wrap_width uv_data)
       (Boundary.ud_wrap_arc_length uv_data) page_w margin
     = Py.Ok pages.
Proof.
  unfold dispatch. cbv zeta. rewrite height_test_in_mm.
  destruct (needs_width_split (Boundary.ud_wrap_width uv_data)) eqn:Es;
    destruct (Py.leb _ (available_height / Reportlab.mm)) eqn:Eh;
    intro H; apply bind_ok in H; destruct H as [pg [Hpg H]];
    inversion H; subst.
  unfold needs_width_split in Es. apply ltb_ge in Es. apply leb_le in Eh.
  destruct printable_area as [Ew Ea]. rewrite Ew in Es. rewrite Ea in Eh.
  auto.
Qed.

(** The two copies of a stacked page: what each holds and where. *)
Lemma stacked_copies (polygons : list Boundary.polygon)
  (props : PipeTemplateProperties) uv bd pages :
  declared_range props ->
  Boundary.extract_uv_data (Some polygons) props = Py.Ok (uv, bd) ->
  dispatch uv bd = Py.Ok (SINGLE_PAGE_STACKED, pages) ->
  let tx := (page_w - Boundary.ud_wrap_width uv * Reportlab.mm) / 2 in
  let y1 := margin + 40 * Reportlab.mm in
  let y2 := margin + 40 * Reportlab.mm
            + Boundary.ud_wrap_arc_length uv * Reportlab.mm
            + 15 * Reportlab.mm in
  let inside ty s :=
    stroke_within tx (tx + Boundary.ud_wrap_width uv * Reportlab.mm)
      ty (ty + Boundary.ud_wrap_arc_length uv * Reportlab.mm) s in
  Boundary.ud_wrap_width uv <= 285
  /\ 2 * Boundary.ud_wrap_arc_length uv + 15 <= 148
  /\ 0 <= Boundary.ud_wrap_width uv
  /\ 0 <= Boundary.ud_wrap_arc_length uv
  /\ exists first second,
       pages = [(first ++ second)%list]
       /\ List.length first
          = (2 * List.length (Boundary.bd_boundary_edges bd))%nat
       /\ List.length second
          = (2 * List.length (Boundary.bd_boundary_edges bd))%nat
       /\ Forall2 (fun s1 s2 =>
                     stroke s1 = stroke s2
                     /\ x1_pt s1 = x1_pt s2 /\ x2_pt s1 = x2_pt s2)
                  first second
       /\ (forall s, In s first -> inside y1 s)
       /\ (forall s, In s second -> inside y2 s).
Proof.
  intros Hr Hex Hgen tx y1 y2 inside.
  destruct (stacked_inv _ _ _ Hgen) as (Hw & Hh & Hpage).
  pose proof (boundary_inside _ _ _ _ Hex) as Hedges.
  destruct (extract_uv_data_result _ _ _ _ Hex)
    as (_ & _ & Eww & Ebw & Ebh & Ewh).
  destruct Hr as ((Hod & _) & (Hm & _) & (Ha & _) & (Hn & _) & (Ht & _) & (Ho & _)).
  assert (Hord := dimensions_ordered props).
  cbv zeta in Hord. rewrite <- Eww, <- Ebw, <- Ebh, <- Ewh in Hord.
  destruct Hord as (B0 & B1 & H0 & H1); try lra; try lia.
  split; [exact Hw|]. split; [exact Hh|]. split; [lra|]. split; [lra|].
  unfold _generate_single_page in Hpage. cbv zeta in Hpage.
  apply bind_ok in Hpage. destruct Hpage as [ls [Hls Hpage]].
  injection Hpage as <-. simpl in Hls.
  apply bind_ok_match in Hls. destruct Hls as (l1 & l2 & Hl1 & Hl2 & ->).
  destruct (draw_template_inside _ _ _ _ _ _ _ _ _ _ _ _ Hedges B0 B1 H0 H1 Hl1)
    as [N1 S1].
  destruct (draw_template_inside _ _ _ _ _ _ _ _ _ _ _ _ Hedges B0 B1 H0 H1 Hl2)
    as [N2 S2].
  exists l1, l2. split; [simpl; now rewrite app_nil_r|].
  split; [exact N1|]. split; [exact N2|].
  split; [exact (draw_template_copies _ _ _ _ _ _ _ _ _ _ _ _ _ _ Hl1 Hl2)|].
  split; assumption.
Qed.

(** X9.  Stacked mode keeps everything on the page.  For properties
    inside their declared limits and the data [extract_uv_data] returned
    for them, when [generate_pdf] takes [_generate_single_page] there is
    one page, it holds four strokes per boundary edge (blue and red, two
    copies), and every stroke lies between the left and right margins and
    between 40 mm above the bottom margin and 16 mm below the top edge. *)
Theorem stacked_page_within_margins :
  forall (h : Host.t) (fs : Host.FS h) (polygons : list Boundary.polygon)
         (props : PipeTemplateProperties) uv bd filename pages reports fs',
    declared_range props ->
    Boundary.extract_uv_data (Some polygons) props = Py.Ok (uv, bd) ->
    Operator.generate_pdf h fs props uv bd
    = (Py.Ok (SINGLE_PAGE_STACKED, filename, pages), reports, fs') ->
    exists page,
      pages = [page]
      /\ List.length page
         = (4 * List.length (Boundary.bd_boundary_edges bd))%nat
      /\ forall s, In s page ->
           stroke_within margin (page_w - margin)
                         (margin + 40 * Reportlab.mm)
                         (page_h - 16 * Reportlab.mm) s.
Proof.
  intros h fs polygons props uv bd filename pages reports fs' Hr Hex Hgen.
  apply generate_pdf_ok_inv in Hgen. destruct Hgen as (_ & _ & _ & Hd & _).
  destruct (stacked_copies polygons props uv bd pages Hr Hex Hd)
    as (Hw & Hh & Hw0 & Hh0 & l1 & l2 & -> & N1 & N2 & _ & S1 & S2).
  set (wrap_w := Boundary.ud_wrap_width uv) in *.
  set (wrap_h := Boundary.ud_wrap_arc_length uv) in *.
  eexists. split; [reflexivity|]. split.
  - rewrite length_app, N1, N2. lia.
  - destruct page_constants as (Emm & Epw & Eph & Em & _).
    assert (Etx : (page_w - wrap_w * Reportlab.mm) / 2
                  == (page_w - wrap_w * Reportlab.mm) * (1 # 2)) by field.
    intros s Hs. apply in_app_or in Hs. destruct Hs as [Hs|Hs].
    + apply (stroke_within_weaken _ _ _ _ _ _ _ _ _ (S1 s Hs));
        rewrite ?Etx, ?Epw, ?Eph, ?Em, ?Emm; lra.
    + apply (stroke_within_weaken _ _ _ _ _ _ _ _ _ (S2 s Hs));
        rewrite ?Etx, ?Epw, ?Eph, ?Em, ?Emm; lra.
Qed.

Lemma props_50_declared : declared_range Scenario.props_50.
Proof.
  unfold declared_range. simpl.
  repeat split; try discriminate; try lia.
Qed.

(** The run of the sample host on a 50 mm pipe with the unit square as
    its flattened outline. *)
Lemma props_50_run :
  exists uv bd filename pages reports fs',
    Boundary.extract_uv_data (Some Scenario.unit_square) Scenario.props_50
    = Py.Ok (uv, bd)
    /\ List.length (Boundary.bd_boundary_edges bd) = 4%nat
    /\ Operator.generate_pdf Scenario.host Scenario.disk Scenario.props_50
         uv bd
       = (Py.Ok (SINGLE_PAGE_STACKED, filename, pages), reports, fs').
Proof.
  do 6 eexists. split; [vm_compute; reflexivity|].
  split; vm_compute; reflexivity.
Qed.

(** A 50 mm pipe with the unit square as its flattened outline. *)
Lemma stacked_page_within_margins_witness :
  exists page,
    List.length page = 16%nat
    /\ forall s, In s page ->
         stroke_within margin (page_w - margin)
                       (margin + 40 * Reportlab.mm)
                       (page_h - 16 * Reportlab.mm) s.
Proof.
  destruct props_50_run
    as (uv & bd & filename & pages & reports & fs' & Hex & Hlen & Hgen).
  destruct (stacked_page_within_margins _ _ _ _ _ _ _ _ _ _
              props_50_declared Hex Hgen)
    as (page & _ & Hn & Hs).
  exists page. rewrite Hlen in Hn. split; [exact Hn | exact Hs].
Defined.

Lemma mapM_two_pages {A B : Type} (f : A -> Py.result B) (a1 a2 : A)
  (ys : list B) :
  Py.mapM f [a1; a2] = Py.Ok ys -> List.length ys = 2%nat.
Proof.
  intro H. apply bind_ok_match in H.
  destruct H as (y1 & y2 & _ & _ & ->). reflexivity.
Qed.

(** The generator called and the number of pages it makes, by the sizes
    of the wrap. *)
Lemma dispatch_page_count uv_data boundary_data mode pages :
  dispatch uv_data boundary_data = Py.Ok (mode, pages) ->
  (is_split mode = true <-> 285 < Boundary.ud_wrap_width uv_data)
  /\ (List.length pages = 1%nat
      <-> Boundary.ud_wrap_arc_length uv_data <= 66.5)
  /\ (List.length pages = 2%nat
      <-> 66.5 < Boundary.ud_wrap_arc_length uv_data).
Proof.
  unfold dispatch. cbv zeta.
  rewrite height_test_in_mm. unfold needs_width_split.
  destruct printable_area as [Ew Ea].
  destruct (Py.ltb (available_width / Reportlab.mm)
              (Boundary.ud_wrap_width uv_data)) eqn:Es;
    destruct (Py.leb (2 * Boundary.ud_wrap_arc_length uv_data + 15)
                (available_height / Reportlab.mm)) eqn:Eh;
    intro H; apply bind_ok in H; destruct H as [pg [Hp H]];
    inversion H; subst; clear H.
  - apply ltb_lt in Es. apply leb_le in Eh. rewrite Ew in Es. rewrite Ea in Eh.
    unfold _generate_split_same_page in Hp. cbv zeta in Hp.
    apply bind_ok in Hp. destruct Hp as [ls [_ Hp]]. injection Hp as <-.
    simpl. repeat split; intros; try lra; try lia; try reflexivity; auto.
  - apply ltb_lt in Es. apply leb_gt in Eh. rewrite Ew in Es. rewrite Ea in Eh.
    unfold _generate_split_separate_pages in Hp. cbv zeta in Hp.
    apply mapM_two_pages in Hp. rewrite Hp.
    repeat split; intros; try lra; try lia; try reflexivity; auto.
  - apply ltb_ge in Es. apply leb_le in Eh. rewrite Ew in Es. rewrite Ea in Eh.
    unfold _generate_single_page in Hp. cbv zeta in Hp.
    apply bind_ok in Hp. destruct Hp as [ls [_ Hp]]. injection Hp as <-.
    simpl. repeat split; intros; try lra; try lia; try discriminate; auto.
  - apply ltb_ge in Es. apply leb_gt in Eh. rewrite Ew in Es. rewrite Ea in Eh.
    unfold _generate_single_multipage in Hp.
    apply bind_ok in Hp. destruct Hp as [p1 [_ Hp]].
    apply bind_ok in Hp. destruct Hp as [p2 [_ Hp]]. injection Hp as <-.
    simpl. repeat split; intros; try lra; try lia; try discriminate; auto.
Qed.

(** X10.  A document has one or two pages.  Whenever [generate_pdf]
    returns, it has taken a split generator exactly when the wrap is
    wider than 285 mm, and it has put everything on one page exactly when
    the wrap is at most 66.5 mm high (two copies and 15 mm between them
    fit the 148 mm available), otherwise on two. *)
Theorem document_has_one_or_two_pages :
  forall (h : Host.t) (fs : Host.FS h) (props : PipeTemplateProperties)
         (uv_data : Boundary.uv_data)
         (boundary_data : Boundary.boundary_data)
         mode filename pages reports fs',
    Operator.generate_pdf h fs props uv_data boundary_data
    = (Py.Ok (mode, filename, pages), reports, fs') ->
    (is_split mode = true <-> 285 < Boundary.ud_wrap_width uv_data)
    /\ (List.length pages = 1%nat
        <-> Boundary.ud_wrap_arc_length uv_data <= 66.5)
    /\ (List.length pages = 2%nat
        <-> 66.5 < Boundary.ud_wrap_arc_length uv_data)
    /\ (List.length pages = 1%nat \/ List.length pages = 2%nat).
Proof.
  intros h fs props uv bd mode filename pages reports fs' Hgen.
  apply generate_pdf_ok_inv in Hgen. destruct Hgen as (_ & _ & _ & Hd & _).
  destruct (dispatch_page_count uv bd mode pages Hd) as (Hs & H1 & H2).
  split; [exact Hs|]. split; [exact H1|]. split; [exact H2|].
  destruct (Qlt_le_dec 66.5 (Boundary.ud_wrap_arc_length uv)) as [Hh|Hh].
  - right. now apply H2.
  - left. now apply H1.
Qed.

(** The 50 mm pipe on the sample host: not split, one page. *)
Lemma document_has_one_or_two_pages_witness :
  exists uv bd filename (pages : list Outline.page) reports fs',
    Operator.generate_pdf Scenario.host Scenario.disk Scenario.props_50
      uv bd
    = (Py.Ok (SINGLE_PAGE_STACKED, filename, pages), reports, fs')
    /\ ~ 285 < Boundary.ud_wrap_width uv
    /\ (List.length pages = 1%nat \/ List.length pages = 2%nat).
Proof.
  destruct props_50_run
    as (uv & bd & filename & pages & reports & fs' & Hex & _ & Hgen).
  destruct (document_has_one_or_two_pages _ _ _ _ _ _ _ _ _ _ Hgen)
    as (Hs & _ & _ & Hn).
  exists uv, bd, filename, pages, reports, fs'.
  split; [exact Hgen|]. split; [|exact Hn].
  intro Hw. apply Hs in Hw. discriminate.
Defined.



Lemma in_some_half (w so x1 x2 : Q) :
  0 <= x1 -> x1 <= w -> 0 <= so ->
  in_section 0 (w / 2 + so) x1 x2 \/ in_section (w / 2 - so) w x1 x2.
Proof.
  intros H0 H1 Hso. unfold in_section.
  assert (E : w / 2 == w * (1 # 2)) by field.
  destruct (Qlt_le_dec (w / 2 + so) x1) as [H|H].
  - right. left. rewrite E in *. split; lra.
  - left. left. split; assumption.
Qed.

(** An edge that meets the clip condition has its stroke among those of
    the loop. *)
Lemma section_member (tx ty : Py.float) (c : colour) (xs xe : Py.float)
  (pt : Boundary.edge -> Py.float * Py.float * Py.float * Py.float)
  (edges : list Boundary.edge) (e : Boundary.edge) :
  In e edges ->
  in_section xs xe (fst (fst (fst (pt e)))) (snd (fst (pt e))) ->
  In (section_line tx ty c xs (pt e))
     (map (fun e => section_line tx ty c xs (pt e))
          (filter (fun e => clipped xs xe (pt e)) edges)).
Proof.
  intros He Hc. apply in_map_iff. exists e. split; [reflexivity|].
  apply filter_In. split; [exact He | now apply clipped_iff].
Qed.

(** Every edge inside the bounding box meets the clip condition of the
    LEFT or of the RIGHT half, in both loops. *)
Lemma edge_in_some_half min_u max_u min_v max_v base_w base_h wrap_w wrap_h
  so (e : Boundary.edge) :
  edge_within min_u max_u min_v max_v e ->
  0 <= base_w -> base_w <= wrap_w -> 0 <= so ->
  let base_pt :=
    base_mm base_w base_h ((wrap_w - base_w) / 2) ((wrap_h - base_h) / 2)
      (normalized_edge min_u max_u min_v max_v e) in
  let wrap_pt :=
    wrap_mm wrap_w wrap_h (normalized_edge min_u max_u min_v max_v e) in
  (in_section 0 (wrap_w / 2 + so)
     (fst (fst (fst wrap_pt))) (snd (fst wrap_pt))
   \/ in_section (wrap_w / 2 - so) wrap_w
        (fst (fst (fst wrap_pt))) (snd (fst wrap_pt)))
  /\ (in_section 0 (wrap_w / 2 + so)
        (fst (fst (fst base_pt))) (snd (fst base_pt))
      \/ in_section (wrap_w / 2 - so) wrap_w
           (fst (fst (fst base_pt))) (snd (fst base_pt))).
Proof.
  intros He Hb0 Hb1 Hso.
  pose proof (normalized_edge_range _ _ _ _ e He) as Hn. cbv zeta in Hn.
  destruct (normalized_edge min_u max_u min_v max_v e) as [[[a b] c] d].
  simpl in Hn. destruct Hn as (_ & (B0 & B1) & _ & _).
  assert (Hw : 0 <= wrap_w) by lra.
  destruct (scaled_inside b wrap_w B0 B1 Hw) as [P1 Q1].
  destruct (scaled_inside b base_w B0 B1 Hb0) as [P2 Q2].
  assert (Ex : (wrap_w - base_w) / 2 == (wrap_w - base_w) * (1 # 2)) by field.
  cbv zeta. simpl. split.
  - exact (in_some_half wrap_w so (b * wrap_w) (d * wrap_w) P1 Q1 Hso).
  - apply in_some_half; [rewrite Ex; lra | rewrite Ex; lra | exact Hso].
Qed.

(** X12.  Splitting loses no edge.  For edges inside the bounding box,
    [0 <= base_w <= wrap_w] and an overlap that is not negative, the one
    page of [_generate_split_same_page] holds, for every boundary edge,
    its red stroke in the LEFT half or in the RIGHT half, and likewise
    its blue stroke; and of the two pages of
    [_generate_split_separate_pages] the first or the second holds its
    red stroke, and likewise its blue stroke. *)
Theorem split_halves_keep_every_edge :
  forall (boundary_edges : list Boundary.edge)
         (min_u max_u min_v max_v base_w base_h wrap_w wrap_h : Py.float)
         (page_w page_h margin split_overlap : Py.float),
    (forall e, In e boundary_edges -> edge_within min_u max_u min_v max_v e) ->
    0 <= base_w -> base_w <= wrap_w -> 0 <= split_overlap ->
    let base_pt e :=
      base_mm base_w base_h ((wrap_w - base_w) / 2) ((wrap_h - base_h) / 2)
        (normalized_edge min_u max_u min_v max_v e) in
    let wrap_pt e :=
      wrap_mm wrap_w wrap_h (normalized_edge min_u max_u min_v max_v e) in
    let center_w := wrap_w / 2 in
    let right_start := center_w - split_overlap in
    let half_x := (page_w - (center_w + split_overlap) * Reportlab.mm) / 2 in
    let left_y := margin + 20 * Reportlab.mm in
    let right_y :=
      margin + 20 * Reportlab.mm + wrap_h * Reportlab.mm
      + 15 * Reportlab.mm in
    let left_x :=
      (page_w - (center_w + split_overlap - 0) * Reportlab.mm) / 2 in
    let right_x := (page_w - (wrap_w - right_start) * Reportlab.mm) / 2 in
    let page_y := page_h / 2 - (wrap_h * Reportlab.mm) / 2 in
    (exists page,
        _generate_split_same_page boundary_edges min_u max_u min_v max_v
          base_w base_h wrap_w wrap_h page_w margin split_overlap
        = Py.Ok [page]
        /\ forall e, In e boundary_edges ->
             (In (section_line half_x left_y red 0 (wrap_pt e)) page
              \/ In (section_line half_x right_y red right_start (wrap_pt e))
                    page)
             /\ (In (section_line half_x left_y blue 0 (base_pt e)) page
                 \/ In (section_line half_x right_y blue right_start
                          (base_pt e)) page))
    /\ (exists left right,
          _generate_split_separate_pages boundary_edges min_u max_u min_v
            max_v base_w base_h wrap_w wrap_h page_w page_h split_overlap
          = Py.Ok [left; right]
          /\ forall e, In e boundary_edges ->
               (In (section_line left_x page_y red 0 (wrap_pt e)) left
                \/ In (section_line right_x page_y red right_start
                         (wrap_pt e)) right)
               /\ (In (section_line left_x page_y blue 0 (base_pt e)) left
                   \/ In (section_line right_x page_y blue right_start
                            (base_pt e)) right)).
Proof.
  intros edges min_u max_u min_v max_v base_w base_h wrap_w wrap_h
         page_w page_h margin so Hin Hb0 Hb1 Hso base_pt wrap_pt center_w
         right_start half_x left_y right_y left_x right_x page_y.
  split.
  - unfold _generate_split_same_page. cbv zeta.
    unfold Py.mapM, half_section, _draw_split_half. simpl String.eqb.
    cbv iota. rewrite !draw_section_strokes. cbv zeta.
    unfold Py.bind. eexists. split; [reflexivity|].
    intros e He. simpl List.concat. rewrite app_nil_r.
    destruct (edge_in_some_half min_u max_u min_v max_v base_w base_h
                wrap_w wrap_h so e (Hin e He) Hb0 Hb1 Hso) as [[Hw|Hw] [Hb|Hb]];
      split;
      try (left; apply in_or_app; left; apply in_or_app; right;
           exact (section_member half_x left_y red 0 _ wrap_pt edges e He Hw));
      try (right; apply in_or_app; right; apply in_or_app; right;
           exact (section_member half_x right_y red right_start _ wrap_pt
                    edges e He Hw));
      try (left; apply in_or_app; left; apply in_or_app; left;
           exact (section_member half_x left_y blue 0 _ base_pt edges e He Hb));
      try (right; apply in_or_app; right; apply in_or_app; left;
           exact (section_member half_x right_y blue right_start _ base_pt
                    edges e He Hb)).
  - unfold _generate_split_separate_pages, separate_pages_halves. cbv zeta.
    unfold Py.mapM, _draw_split_page. rewrite !draw_section_strokes.
    cbv zeta. do 2 eexists. split; [reflexivity|].
    intros e He.
    destruct (edge_in_some_half min_u max_u min_v max_v base_w base_h
                wrap_w wrap_h so e (Hin e He) Hb0 Hb1 Hso) as [[Hw|Hw] [Hb|Hb]];
      split;
      try (left; apply in_or_app; right;
           exact (section_member left_x page_y red 0 _ wrap_pt edges e He Hw));
      try (right; apply in_or_app; right;
           exact (section_member right_x page_y red right_start _ wrap_pt
                    edges e He Hw));
      try (left; apply in_or_app; left;
           exact (section_member left_x page_y blue 0 _ base_pt edges e He Hb));
      try (right; apply in_or_app; left;
           exact (section_member right_x page_y blue right_start _ base_pt
                    edges e He Hb)).
Qed.

(** The unit square as the outline of a wrap 300 mm wide: the edge along
    its right-hand side is on the page, in the RIGHT half. *)
Lemma split_halves_keep_every_edge_witness :
  exists page,
    _generate_split_same_page (Boundary.bd_boundary_edges
                                 Scenario.square_boundary)
      0 1 0 1 260 36 300 38 page_w margin 20
    = Py.Ok [page]
    /\ In (section_line ((page_w - (300 / 2 + 20) * Reportlab.mm) / 2)
             (margin + 20 * Reportlab.mm + 38 * Reportlab.mm
              + 15 * Reportlab.mm)
             red (300 / 2 - 20)
             (wrap_mm 300 38 (normalized_edge 0 1 0 1 ((1, 1), (0, 1)))))
          page.
Proof.
  assert (Hin : forall e,
             In e (Boundary.bd_boundary_edges Scenario.square_boundary) ->
             edge_within 0 1 0 1 e).
  { intros e He. simpl in He.
    destruct He as [<-|[<-|[<-|[<-|[]]]]]; unfold edge_within; simpl;
      repeat split; discriminate. }
  assert (H0 : 0 <= 260) by discriminate.
  assert (H1 : 260 <= 300) by discriminate.
  assert (H2 : 0 <= 20) by discriminate.
  destruct (proj1 (split_halves_keep_every_edge _ 0 1 0 1 260 36 300 38
                     page_w page_h margin 20 Hin H0 H1 H2))
    as (page & Hpage & Hall).
  exists page. split; [exact Hpage|].
  destruct (proj1 (Hall ((1, 1), (0, 1)) ltac:(simpl; auto))) as [H|H];
    [|exact H].
  exfalso. vm_compute in Hpage. injection Hpage as <-.
  vm_compute in H. repeat (destruct H as [H|H]; [discriminate H|]).
  destruct H.
Defined.

End LayoutMore.

(* ------------------------------------------------------------------ *)
(** ** File names of specifications that are far enough apart *)

Section FilenameMore.

Import Filename.

Lemma round_half_even_near (q : Q) :
  inject_Z (round_half_even q) - (1 # 2) <= q
  /\ q <= inject_Z (round_half_even q) + (1 # 2).
Proof.
  pose proof (Qfloor_le q) as H1. pose proof (Qlt_floor q) as H2.
  rewrite inject_Z_plus in H2. change (inject_Z 1) with 1 in H2.
  unfold round_half_even.
  destruct (Qcompare_spec (q - inject_Z (Qfloor q)) (1 # 2)) as [E|E|E].
  - destruct (Z.even (Qfloor q)).
    + split; lra.
    + rewrite inject_Z_plus. change (inject_Z 1) with 1. split; lra.
  - split; lra.
  - rewrite inject_Z_plus. change (inject_Z 1) with 1. split; lra.
Qed.

(** Equal printed values leave the values themselves within one unit of
    the last printed digit. *)
Lemma scaled_eq_close (d : nat) (x y : Py.float) :
  0 <= x -> 0 <= y -> scaled d x = scaled d y ->
  Qabs (x - y) * inject_Z (10 ^ Z.of_nat d) <= 1.
Proof.
  intros Hx Hy H. unfold scaled in H.
  assert (Hx' : Qabs x == x) by now apply Qabs_pos.
  assert (Hy' : Qabs y == y) by now apply Qabs_pos.
  set (k := inject_Z (10 ^ Z.of_nat d)) in *.
  assert (Hk : 0 < k).
  { unfold k. change 0 with (inject_Z 0). rewrite <- Zlt_Qlt.
    apply Z.pow_pos_nonneg; lia. }
  destruct (round_half_even_near (Qabs x * k)) as [A1 A2].
  destruct (round_half_even_near (Qabs y * k)) as [B1 B2].
  rewrite H in A1, A2.
  set (n := inject_Z (round_half_even (Qabs y * k))) in *.
  rewrite Hx' in A1, A2. rewrite Hy' in B1, B2.
  apply Qabs_case; intro Hs.
  - setoid_replace ((x - y) * k) with (x * k - y * k) by ring. lra.
  - setoid_replace (- (x - y) * k) with (y * k - x * k) by ring. lra.
Qed.

(** Equal file names print the same five values. *)
Lemma filename_determines_encoded (p q : PipeTemplateProperties) :
  0 <= pipe_od p -> 0 <= bend_radius_multiplier p ->
  0 <= overlap p -> 0 <= wrap_thickness p ->
  0 <= pipe_od q -> 0 <= bend_radius_multiplier q ->
  0 <= overlap q -> 0 <= wrap_thickness q ->
  filename p = filename q -> encoded p = encoded q.
Proof.
  intros Hp1 Hp2 Hp3 Hp4 Hq1 Hq2 Hq3 Hq4 H. unfold encoded.
  unfold filename in H. cbv zeta in H.
  apply append_inj_l, format_fixed_split in H; [|assumption|assumption].
  destruct H as [E1 H].
  apply append_inj_l, format_fixed_split in H; [|assumption|assumption].
  destruct H as [E2 H]. apply append_inj_l in H. simpl in H.
  apply str_int_split in H; [|reflexivity|reflexivity].
  destruct H as [E3 H]. injection H as H.
  apply format_fixed_split in H; [|assumption|assumption].
  destruct H as [E4 H]. injection H as H.
  apply format_fixed_split in H; [|assumption|assumption].
  destruct H as [E5 _]. congruence.
Qed.

(** X13.  Specifications that are far enough apart never share a file
    name: when no value is negative and the diameters, the multipliers or
    the overlaps differ by more than 0.1, or the wrap thicknesses by more
    than 0.01, or the segment counts differ, the two file names are
    different. *)
Theorem distant_specifications_get_distinct_names :
  forall p q : PipeTemplateProperties,
    0 <= pipe_od p -> 0 <= bend_radius_multiplier p ->
    0 <= overlap p -> 0 <= wrap_thickness p ->
    0 <= pipe_od q -> 0 <= bend_radius_multiplier q ->
    0 <= overlap q -> 0 <= wrap_thickness q ->
    0.1 < Qabs (pipe_od p - pipe_od q)
    \/ 0.1 < Qabs (bend_radius_multiplier p - bend_radius_multiplier q)
    \/ num_segments p <> num_segments q
    \/ 0.1 < Qabs (overlap p - overlap q)
    \/ 0.01 < Qabs (wrap_thickness p - wrap_thickness q) ->
    filename p <> filename q.
Proof.
  intros p q Hp1 Hp2 Hp3 Hp4 Hq1 Hq2 Hq3 Hq4 Hfar Hname.
  pose proof (filename_determines_encoded p q Hp1 Hp2 Hp3 Hp4
                Hq1 Hq2 Hq3 Hq4 Hname) as He.
  unfold encoded in He. injection He as E1 E2 E3 E4 E5.
  pose proof (scaled_eq_close 1 _ _ Hp1 Hq1 E1) as C1.
  pose proof (scaled_eq_close 1 _ _ Hp2 Hq2 E2) as C2.
  pose proof (scaled_eq_close 1 _ _ Hp3 Hq3 E4) as C4.
  pose proof (scaled_eq_close 2 _ _ Hp4 Hq4 E5) as C5.
  change (inject_Z (10 ^ Z.of_nat 1)) with 10 in C1, C2, C4.
  change (inject_Z (10 ^ Z.of_nat 2)) with 100 in C5.
  destruct Hfar as [H|[H|[H|[H|H]]]]; try lra. contradiction.
Qed.

Lemma distant_specifications_get_distinct_names_witness :
  filename Scenario.default_props <> filename Scenario.props_50.
Proof.
  apply distant_specifications_get_distinct_names;
    try (simpl; discriminate).
  left. reflexivity.
Defined.

End FilenameMore.

(* ------------------------------------------------------------------ *)
(** ** Seams left by an earlier run *)

Section SeamMore.

Import Seam.

Variable sqrt : Py.float -> Py.float.

Lemma mark_edge_verts (m : efloat) (e : BMEdge) :
  verts (mark_edge sqrt m e) = verts e.
Proof.
  unfold mark_edge. destruct (verts e) as [v1 v2] eqn:E.
  destruct (_ && _); [|exact E].
  destruct (_ && _); [reflexivity | exact E].
Qed.

Lemma mark_edge_flag (m : efloat) (vv : BMVert * BMVert) (b : bool) :
  mark_edge sqrt m {| verts := vv; seam := false |}
  = mark_edge sqrt m
      {| verts := verts (mark_edge sqrt m {| verts := vv; seam := b |});
         seam := false |}.
Proof. now rewrite mark_edge_verts. Qed.

(** X14.  Seams of an earlier run never survive.  The result of the seam
    marking does not depend on the seam flags the edges carry on entry,
    whatever they are, and marking a second time changes nothing. *)
Theorem seam_marking_forgets_old_seams :
  forall (bm : BMesh) (old : BMEdge -> bool),
    mark_seams sqrt
      {| bm_verts := bm_verts bm;
         bm_edges := map (fun e => {| verts := verts e; seam := old e |})
                         (bm_edges bm) |}
    = mark_seams sqrt bm
    /\ mark_seams sqrt (mark_seams sqrt bm) = mark_seams sqrt bm.
Proof.
  intros bm old. unfold mark_seams. simpl. split.
  - f_equal. rewrite !map_map. reflexivity.
  - f_equal. rewrite !map_map. apply map_ext. intro e. simpl.
    now rewrite mark_edge_verts.
Qed.

End SeamMore.

(* ------------------------------------------------------------------ *)
(** ** The generated mesh *)

Section GeometryMore.

Import Geometry.

Lemma Ok_inj {A : Type} (a b : A) : Py.Ok a = Py.Ok b -> a = b.
Proof. intro H. now injection H. Qed.

Lemma create_pipe_segment_value cos sin (props : PipeTemplateProperties) m :
  create_pipe_segment cos sin props = Py.Ok m ->
  num_segments props <> 0%Z
  /\ mesh_faces m = tube_faces 13
  /\ List.length (mesh_verts m) = 416%nat
  /\ forall v, In v (mesh_verts m) ->
       exists current_angle j,
         v = ring_vertex cos sin
               (pipe_od props * bend_radius_multiplier props)
               (pipe_od props / 2) current_angle j.
Proof.
  unfold create_pipe_segment. intro H.
  assert (Hn : num_segments props <> 0%Z).
  { intro Hz. rewrite Hz in H. discriminate. }
  rewrite (div_by_int _ _ Hn) in H. unfold Py.bind in H. cbv zeta in H.
  apply Ok_inj in H. subst m. cbn [mesh_faces mesh_verts].
  split; [exact Hn|]. split; [|split].
  - now rewrite length_map, length_seq.
  - rewrite length_concat, map_map.
    erewrite map_ext;
      [|intro i; rewrite length_map, length_seq; reflexivity].
    reflexivity.
  - intros v Hv. apply in_concat in Hv. destruct Hv as [ring [Hring Hv]].
    apply in_map_iff in Hring. destruct Hring as [i [<- _]].
    apply in_map_iff in Hv. destruct Hv as [j [<- _]]. eauto.
Qed.

Lemma tube_faces_checked :
  forallb (well_formed_face (tube_faces 13)) (tube_faces 13) = true
  /\ List.length (tube_faces 13) = 384%nat.
Proof. split; vm_compute; reflexivity. Qed.

Lemma distinct_NoDup (l : list nat) : distinct l = true -> NoDup l.
Proof.
  induction l as [|x l IH]; simpl; intro H; [constructor|].
  apply andb_true_iff in H. destruct H as [H1 H2].
  constructor; [|now apply IH].
  intro Hin. apply negb_true_iff in H1.
  assert (existsb (Nat.eqb x) l = true).
  { apply existsb_exists. exists x. split; [exact Hin | apply Nat.eqb_refl]. }
  congruence.
Qed.

(** X15.  Whatever the specification, the mesh [create_pipe_segment]
    returns is an open tube: 13 rings of 32 vertices (416) and 384 faces;
    every face has four different corners, all of them vertices of the
    mesh; a side that runs along the first or the last ring belongs to
    one face only, every other side to exactly two.  So the tube is
    closed around its axis and has no end caps. *)
Theorem generated_mesh_is_an_open_tube :
  forall (cos sin : Py.float -> Py.float) (props : PipeTemplateProperties) m,
    create_pipe_segment cos sin props = Py.Ok m ->
    List.length (mesh_verts m) = 416%nat
    /\ List.length (mesh_faces m) = 384%nat
    /\ forall f, In f (mesh_faces m) ->
         List.length f = 4%nat
         /\ NoDup f
         /\ (forall v, In v f -> (v < List.length (mesh_verts m))%nat)
         /\ forall s, In s (face_sides f) ->
              side_count s (mesh_faces m)
              = if on_end_ring s then 1%nat else 2%nat.
Proof.
  intros cos sin props m H.
  destruct (create_pipe_segment_value cos sin props m H) as (_ & -> & Hv & _).
  destruct tube_faces_checked as [Hc Hl].
  split; [exact Hv|]. split; [exact Hl|].
  intros f Hf. rewrite forallb_forall in Hc. specialize (Hc f Hf).
  unfold well_formed_face in Hc. rewrite !andb_true_iff in Hc.
  destruct Hc as [[[H1 H2] H3] H4].
  split; [now apply Nat.eqb_eq|]. split; [now apply distinct_NoDup|].
  split.
  - intros v Hin. rewrite forallb_forall in H3. specialize (H3 v Hin).
    apply Nat.ltb_lt in H3. rewrite Hv. exact H3.
  - intros s Hs. rewrite forallb_forall in H4. specialize (H4 s Hs).
    cbv zeta in H4. destruct (on_end_ring s); now apply Nat.eqb_eq.
Qed.

Lemma generated_mesh_is_an_open_tube_witness :
  exists m,
    create_pipe_segment cosq sinq Scenario.default_props = Py.Ok m
    /\ List.length (mesh_verts m) = 416%nat
    /\ List.length (mesh_faces m) = 384%nat.
Proof.
  assert (H : exists m, create_pipe_segment cosq sinq Scenario.default_props
                        = Py.Ok m).
  { unfold create_pipe_segment. rewrite div_by_int by (simpl; lia).
    simpl Py.bind. eauto. }
  destruct H as [m H]. exists m. split; [exact H|].
  destruct (generated_mesh_is_an_open_tube cosq sinq _ m H) as (H1 & H2 & _).
  auto.
Defined.

End GeometryMore.

(* ------------------------------------------------------------------ *)
(** ** The output folder *)

Section FolderMore.

Import Folder.
Open Scope string_scope.

(** What a successful validation has established. *)
Lemma validated (h : Host.t) (fs : Host.FS h) (p a : string) :
  _validate_output_folder h fs p = Py.Ok a ->
  a = Host.abspath h (Host.normpath h p)
  /\ p <> "" /\ Host.strip h p <> ""
  /\ Host.isfile h fs a = false
  /\ (Host.path_exists h fs a = true -> Host.writable h fs a = true)
  /\ (Host.path_exists h fs a = false ->
      Host.dirname h a = ""
      \/ (Host.path_exists h fs (Host.dirname h a) = true
          /\ Host.writable h fs (Host.dirname h a) = true)).
Proof.
  unfold _validate_output_folder.
  destruct (String.eqb p "" || String.eqb (Host.strip h p) "") eqn:Eb;
    [discriminate|].
  apply orb_false_elim in Eb. destruct Eb as [Eb1 Eb2].
  apply String.eqb_neq in Eb1. apply String.eqb_neq in Eb2.
  cbv zeta. set (abs := Host.abspath h (Host.normpath h p)).
  destruct (String.eqb (Host.dirname h abs) "") eqn:Ed; simpl.
  - apply String.eqb_eq in Ed.
    destruct (Host.isfile h fs abs) eqn:Ef; [discriminate|].
    destruct (Host.path_exists h fs abs) eqn:Ee.
    + destruct (Host.writable h fs abs) eqn:Ew; simpl; [|discriminate].
      intro H. injection H as <-. rewrite Ef, Ee, Ew.
      repeat split; auto; try discriminate.
    + intro H. injection H as <-. rewrite Ef, Ee.
      repeat split; auto; try discriminate.
  - destruct (Host.path_exists h fs (Host.dirname h abs)) eqn:Ep; simpl;
      [|discriminate].
    destruct (Host.isfile h fs abs) eqn:Ef; [discriminate|].
    destruct (Host.path_exists h fs abs) eqn:Ee.
    + destruct (Host.writable h fs abs) eqn:Ew; simpl; [|discriminate].
      intro H. injection H as <-. rewrite Ef, Ee, Ew.
      repeat split; auto; try discriminate.
    + destruct (Host.writable h fs (Host.dirname h abs)) eqn:Ew; simpl;
        [|discriminate].
      intro H. injection H as <-. rewrite Ef, Ee, Ep, Ew.
      repeat split; auto; try discriminate.
Qed.

(** On the file system a folder was validated on, it is ensured. *)
Lemma validated_folder (h : Host.t) (fs : Host.FS h)
  (folder_path a : string) :
  _validate_output_folder h fs folder_path = Py.Ok a ->
  (Host.path_exists h fs a = true ->
   _ensure_output_directory h fs folder_path = (Py.Ok a, false, fs))
  /\ (Host.path_exists h fs a = false ->
      forall fs',
        Host.makedirs h fs a = (None, fs') ->
        Host.writable h fs' a = true ->
        _ensure_output_directory h fs folder_path = (Py.Ok a, true, fs')).
Proof.
  intros Hv. rename folder_path into p.
  destruct (validated h fs p a Hv) as (Ea & _ & _ & _ & Hw & _).
  unfold _ensure_output_directory. cbv zeta. rewrite <- Ea. split.
  - intro He. rewrite He. simpl. now rewrite (Hw He).
  - intros He fs' Hm Hw'. rewrite He. simpl. rewrite Hm. now rewrite Hw'.
Qed.

(** X18.  Early validation protects the later step.  When
    [_validate_output_folder] has accepted a folder, then on the same
    file system [_ensure_output_directory] returns the same path when
    the folder exists, creating nothing and leaving the file system as
    it is; and when the folder does not exist it fails only if
    [os.makedirs] raises or leaves a directory that is not writable. *)
Theorem validated_folder_is_ensured :
  forall (h : Host.t) (fs : Host.FS h) (folder_path a : string),
    _validate_output_folder h fs folder_path = Py.Ok a ->
    (Host.path_exists h fs a = true ->
     _ensure_output_directory h fs folder_path = (Py.Ok a, false, fs))
    /\ (Host.path_exists h fs a = false ->
        forall fs',
          Host.makedirs h fs a = (None, fs') ->
          Host.writable h fs' a = true ->
          _ensure_output_directory h fs folder_path = (Py.Ok a, true, fs')).
Proof.
  intros h fs p a Hv. exact (validated_folder h fs p a Hv).
Qed.

Lemma validated_folder_is_ensured_witness :
  _ensure_output_directory Scenario.host Scenario.disk "./Pipe flat templates"
  = (Py.Ok "./Pipe flat templates", false, Scenario.disk).
Proof.
  assert (Hv : _validate_output_folder Scenario.host Scenario.disk
                 "./Pipe flat templates"
               = Py.Ok "./Pipe flat templates") by reflexivity.
  apply (proj1 (validated_folder_is_ensured _ _ _ _ Hv)). reflexivity.
Defined.

End FolderMore.

(* ------------------------------------------------------------------ *)
(** ** The whole run *)

Section OperatorMore.

Import Operator.

Lemma generate_pdf_reports (h : Host.t) (fs : Host.FS h) props uv bd :
  filter is_error (snd (fst (generate_pdf h fs props uv bd))) = [].
Proof.
  unfold generate_pdf.
  destruct (negb (Host.reportlab_installed h)); [reflexivity|].
  destruct (Py.div _ _) as [segment_angle|e]; [|reflexivity].
  destruct (Folder._ensure_output_directory h fs (output_folder props))
    as [[dir c] fs1].
  destruct dir as [dir|e]; [|destruct c; reflexivity].
  destruct (Layout.dispatch uv bd) as [[m pages]|e];
    [|destruct c; reflexivity].
  destruct (Host.save h fs1 _ pages) as [[e|] fs2];
    destruct c; reflexivity.
Qed.

Lemma filter_error_app (l1 l2 : list report) :
  filter is_error l1 = [] -> filter is_error l2 = [] ->
  filter is_error (l1 ++ l2) = [].
Proof. intros H1 H2. now rewrite filter_app, H1, H2. Qed.

(** X21.  How [generate_pdf] fails, in the order of its steps.  Without
    reportlab it raises "reportlab not installed. Run: pip install
    reportlab"; with reportlab and a segment count of zero it raises
    ZeroDivisionError; in both cases it has made no report and has left
    the file system alone.  Otherwise it raises what
    [_ensure_output_directory] raises; otherwise the page generator
    returns, and [generate_pdf] raises what [c.save()] raises; otherwise
    it returns what it has drawn under the file name built from the
    properties, and its last report is "PDF saved to: " with the path. *)
Theorem generate_pdf_failure_modes :
  forall (h : Host.t) (fs : Host.FS h) (props : PipeTemplateProperties)
         (uv_data : Boundary.uv_data)
         (boundary_data : Boundary.boundary_data),
    let run := generate_pdf h fs props uv_data boundary_data in
    let filename := Filename.filename props in
    (Host.reportlab_installed h = false ->
     run = (Py.Raise
              (Py.Exception
                 "reportlab not installed. Run: pip install reportlab"),
            [], fs))
    /\ (Host.reportlab_installed h = true ->
        num_segments props = 0%Z ->
        run = (Py.Raise Py.ZeroDivisionError, [], fs))
    /\ (Host.reportlab_installed h = true ->
        num_segments props <> 0%Z ->
        match Folder._ensure_output_directory h fs (output_folder props) with
        | (Py.Raise e, created, fs1) =>
            fst (fst run) = Py.Raise e /\ snd run = fs1
        | (Py.Ok dir, created, fs1) =>
            exists mode pages,
              Layout.dispatch uv_data boundary_data = Py.Ok (mode, pages)
              /\ match Host.save h fs1 (Host.join h dir filename) pages with
                 | (Some e, fs2) =>
                     fst (fst run) = Py.Raise e /\ snd run = fs2
                 | (None, fs2) =>
                     fst (fst run) = Py.Ok (mode, filename, pages)
                     /\ snd run = fs2
                     /\ last (snd (fst run)) (ERROR "")
                        = INFO ("PDF saved to: " ++ Host.join h dir filename)
                 end
        end).
Proof.
  intros h fs props uv bd run filename. subst run.
  split; [|split].
  - intro Hlab. unfold generate_pdf. now rewrite Hlab.
  - intros Hlab Hz. unfold generate_pdf. rewrite Hlab, Hz. reflexivity.
  - intros Hlab Hn. unfold generate_pdf. rewrite Hlab. cbn [negb].
    rewrite (div_by_int _ _ Hn).
    destruct (Folder._ensure_output_directory h fs (output_folder props))
      as [[dir created] fs1].
    destruct dir as [dir|e]; [|split; reflexivity].
    destruct (dispatch_returns uv bd) as [pages Hd]. rewrite Hd.
    eexists. exists pages. split; [reflexivity|]. fold filename.
    destruct (Host.save h fs1 (Host.join h dir filename) pages)
      as [[e|] fs2]; cbn [fst snd].
    + split; reflexivity.
    + split; [reflexivity|]. split; [reflexivity|]. apply last_last.
Qed.

(** A segment count of zero on the sample host: nothing is written. *)
Lemma generate_pdf_failure_modes_witness :
  generate_pdf Scenario.host Scenario.disk Scenario.props_no_segments
    Scenario.wide_uv_data Scenario.square_boundary
  = (Py.Raise Py.ZeroDivisionError, [], Scenario.disk).
Proof.
  apply (proj1 (proj2 (generate_pdf_failure_modes Scenario.host Scenario.disk
                         Scenario.props_no_segments Scenario.wide_uv_data
                         Scenario.square_boundary)));
    reflexivity.
Defined.

(** X19.  One message per failed run, none on success.  Whatever the host
    does, when [execute] returns FINISHED no report is an error and the
    last report is "Template generated successfully!"; when it returns
    CANCELLED exactly one report is an error, and it is the last one.
    A run that never reached "Generating PDF..." has left the file system
    as it was. *)
Theorem one_error_report_per_failed_run :
  forall (h : Host.t) (fs : Host.FS h) (props : PipeTemplateProperties),
    let st := fst (fst (execute h fs props)) in
    let reports := snd (fst (execute h fs props)) in
    let fs' := snd (execute h fs props) in
    match st with
    | FINISHED =>
        filter is_error reports = []
        /\ last reports (ERROR "") = INFO "Template generated successfully!"
    | CANCELLED =>
        exists before msg,
          reports = (before ++ [ERROR msg])%list
          /\ filter is_error before = []
    end
    /\ (~ In (INFO "Generating PDF...") reports -> fs' = fs).
Proof.
  intros h fs props. cbv zeta. unfold execute.
  destruct (Folder._validate_output_folder h fs (output_folder props))
    as [a|e]; cbn [fst snd].
  2:{ split; [|reflexivity]. exists []. eexists. split; reflexivity. }
  destruct (Geometry.create_pipe_segment _ _ props) as [mesh|e];
    cbn [fst snd failed].
  2:{ split; [|reflexivity]. eexists. eexists. split; reflexivity. }
  destruct (unwrap_pipe_segment h mesh) as [layer|e]; cbn [fst snd failed].
  2:{ split; [|reflexivity]. eexists. eexists. split; reflexivity. }
  destruct (Boundary.extract_uv_data layer props) as [[uv bd]|e];
    cbn [fst snd failed].
  2:{ split; [|reflexivity]. eexists. eexists. split; reflexivity. }
  pose proof (generate_pdf_reports h fs props uv bd) as Hm.
  destruct (generate_pdf h fs props uv bd) as [[[drawn|e] made] fs'];
    cbn [fst snd failed] in *.
  - split.
    + split.
      * apply filter_error_app; [reflexivity|].
        apply filter_error_app; [exact Hm | reflexivity].
      * rewrite !app_assoc. apply last_last.
    + intro Hn. exfalso. apply Hn. apply in_or_app. left.
      simpl. auto 10.
  - split.
    + eexists. eexists. split; [reflexivity|].
      apply filter_error_app; [reflexivity | exact Hm].
    + intro Hn. exfalso. apply Hn. apply in_or_app. left.
      simpl. auto 10.
Qed.

(** X20.  Nothing inside the operator fails on its own account.  When the
    folder has been validated, the segment count is not zero, the unwrap
    operator returns a UV layer with at least one vertex, reportlab is
    installed, the output folder exists or can be created writable, and
    saving succeeds, then [execute] returns FINISHED without an error
    report. *)
Theorem run_with_working_host_finishes :
  forall (h : Host.t) (fs : Host.FS h) (props : PipeTemplateProperties)
         (a : string),
    Folder._validate_output_folder h fs (output_folder props) = Py.Ok a ->
    num_segments props <> 0%Z ->
    (forall mesh seams,
        exists polygons,
          Host.uv_unwrap h mesh seams = Py.Ok (Some polygons)
          /\ List.concat polygons <> []) ->
    Host.reportlab_installed h = true ->
    (Host.path_exists h fs a = true
     \/ exists fs1,
          Host.path_exists h fs a = false
          /\ Host.makedirs h fs a = (None, fs1)
          /\ Host.writable h fs1 a = true) ->
    (forall fs1 path pages, fst (Host.save h fs1 path pages) = None) ->
    exists reports fs',
      execute h fs props = (FINISHED, reports, fs')
      /\ filter is_error reports = [].
Proof.
  intros h fs props a Hv Hn Hunwrap Hlab Hdir Hsave.
  unfold execute. rewrite Hv.
  unfold Geometry.create_pipe_segment. rewrite (div_by_int _ _ Hn).
  unfold Py.bind at 1. cbv zeta.
  unfold unwrap_pipe_segment. cbv zeta.
  match goal with
  | |- context [Host.uv_unwrap h ?m ?s] =>
      destruct (Hunwrap m s) as [polygons [-> Hc]]
  end.
  destruct (extract_uv_data_returns polygons props Hc Hn)
    as (? & ? & ? & ? & ? & _ & _ & _ & _ & _ & ->).
  assert (He : exists c fs1,
             Folder._ensure_output_directory h fs (output_folder props)
             = (Py.Ok a, c, fs1)).
  { destruct (validated_folder h fs _ a Hv) as [H1 H2].
    destruct Hdir as [H|(fs1 & H & Hmk & Hw)].
    - rewrite (H1 H). eauto.
    - rewrite (H2 H fs1 Hmk Hw). eauto. }
  destruct He as (c & fs1 & He).
  match goal with
  | |- context [generate_pdf h fs props ?u ?b] =>
      pose proof (generate_pdf_reports h fs props u b) as Hm;
      destruct (dispatch_returns u b) as (pages & Hd);
      pose proof (Hsave fs1 (Host.join h a (Filename.filename props)) pages)
        as Hs;
      destruct (Host.save h fs1 (Host.join h a (Filename.filename props))
                  pages) as [[e|] fs2] eqn:Es; [discriminate|];
      destruct (generate_pdf_returns h fs props u b _ pages a c fs1 fs2
                  Hlab Hn He Hd Es) as [made Hg];
      rewrite Hg in *
  end.
  cbn [fst snd] in Hm. eexists. eexists. split; [reflexivity|].
  apply filter_error_app; [reflexivity|].
  apply filter_error_app; [exact Hm | reflexivity].
Qed.

Lemma run_with_working_host_finishes_witness :
  exists reports fs',
    execute Scenario.host Scenario.disk Scenario.default_props
    = (FINISHED, reports, fs')
    /\ filter is_error reports = [].
Proof.
  apply (run_with_working_host_finishes Scenario.host Scenario.disk
           Scenario.default_props "./Pipe flat templates").
  - reflexivity.
  - simpl. lia.
  - intros mesh seams. exists Scenario.unit_square.
    split; [reflexivity | discriminate].
  - reflexivity.
  - left. reflexivity.
  - reflexivity.
Defined.

End OperatorMore.
